(** * ShopWithDanny: the in-memory store, the order route and the checkout page

    A shallow embedding of
    - [server/storage.ts]   (class [MemStorage]),
    - [server/routes.ts]    (the [POST /api/orders] handler),
    - [client/src/pages/checkout-page.tsx] (order summary, payment
      validation, step machine),
    followed by the properties stated about them.

    Conventions.
    - A JavaScript [Map<number, V>] is an insertion-ordered association
      list; [Array.from(m.values())] is the list of its values in
      insertion order.
    - Integer-valued numbers (ids, quantities, offsets, timestamps in
      milliseconds) are [Z]; numbers that take part in decimal arithmetic
      (prices, totals) are binary64 floats, as in JavaScript.
    - [decimal] columns are strings, as drizzle types them.
    - [async] methods are modelled by their synchronous bodies: no two
      calls interleave (the server is single threaded and a method body
      has no suspension point between its reads and its writes that a
      second request could enter, apart from [addCartItem]'s inner
      [await], which resolves in the same microtask run). *)

From Stdlib Require Import List ZArith Bool String Ascii Lia Sorted Permutation.
From Stdlib Require Import PrimFloat Uint63.
Import ListNotations.

Set Warnings "-inexact-float".

Local Open Scope string_scope.
Local Open Scope list_scope.
Local Open Scope Z_scope.

(* ================================================================== *)
(** * JavaScript runtime notions used by the code                        *)
(* ================================================================== *)

(** ** [Map<number, V>] *)
Module JsMap.

Definition t (V : Type) : Type := list (Z * V).

Definition empty {V : Type} : t V := [].

(** [m.get(k)] *)
Fixpoint get {V : Type} (m : t V) (k : Z) : option V :=
  match m with
  | [] => None
  | (k', v) :: m' => if k' =? k then Some v else get m' k
  end.

(** [m.set(k, v)]: an existing key keeps its position, a new key goes
    to the end. *)
Fixpoint set {V : Type} (m : t V) (k : Z) (v : V) : t V :=
  match m with
  | [] => [(k, v)]
  | (k', v') :: m' =>
      if k' =? k then (k, v) :: m' else (k', v') :: set m' k v
  end.

(** [m.delete(k)] *)
Definition delete {V : Type} (m : t V) (k : Z) : t V :=
  filter (fun e => negb (fst e =? k)) m.

(** [Array.from(m.values())] *)
Definition values {V : Type} (m : t V) : list V := map snd m.

Definition keys {V : Type} (m : t V) : list Z := map fst m.

(** [m.size] *)
Definition size {V : Type} (m : t V) : Z := Z.of_nat (List.length m).

(** What the [Map] data structure guarantees: one entry per key. *)
Definition wf {V : Type} (m : t V) : Prop := NoDup (keys m).

End JsMap.

(** ** Strings *)
Module JsString.

(** [c.toLowerCase()] on the ASCII range. *)
Definition lowerAscii (c : ascii) : ascii :=
  let n := nat_of_ascii c in
  if ((65 <=? n) && (n <=? 90))%nat then ascii_of_nat (n + 32) else c.

Fixpoint toLowerCase (s : string) : string :=
  match s with
  | EmptyString => EmptyString
  | String c s' => String (lowerAscii c) (toLowerCase s')
  end.

(** [s.includes(sub)] *)
Fixpoint includes (s sub : string) : bool :=
  if String.prefix sub s then true
  else match s with
       | EmptyString => false
       | String _ s' => includes s' sub
       end.

(** Truthiness of a string: non-empty. *)
Definition truthy (s : string) : bool :=
  match s with EmptyString => false | _ => true end.

End JsString.

(** ** Numbers *)
Module JsNumber.

(** An integer as a binary64 number (exact up to [2^53]). *)
Definition ofZ (z : Z) : float :=
  if z <? 0 then PrimFloat.opp (PrimFloat.of_uint63 (Uint63.of_Z (- z)))
  else PrimFloat.of_uint63 (Uint63.of_Z z).

Definition digit (c : ascii) : option Z :=
  let n := nat_of_ascii c in
  if ((48 <=? n) && (n <=? 57))%nat then Some (Z.of_nat (n - 48)) else None.

(** Reads a run of decimal digits, returns the value read and the number
    of digits. *)
Fixpoint digits (s : string) (acc : Z) (n : nat) : option (Z * nat) :=
  match s with
  | EmptyString => Some (acc, n)
  | String c s' =>
      match digit c with
      | Some d => digits s' (10 * acc + d) (S n)
      | None => None
      end
  end.

(** Splits at the first ['.']. *)
Fixpoint splitDot (s : string) : string * option string :=
  match s with
  | EmptyString => (EmptyString, None)
  | String c s' =>
      if Ascii.eqb c "."%char then (EmptyString, Some s')
      else let (a, b) := splitDot s' in (String c a, b)
  end.

(** An unsigned decimal literal as (mantissa, scale): digits, then
    optionally a point and digits, with a digit on at least one side. *)
Definition decimal (s : string) : option (Z * nat) :=
  let (ip, fp) := splitDot s in
  match digits ip 0 0%nat with
  | Some (m, a) =>
      match fp with
      | None => match a with O => None | S _ => Some (m, 0%nat) end
      | Some fs =>
          match digits fs m 0%nat with
          | Some (m', k) =>
              match (a + k)%nat with O => None | S _ => Some (m', k) end
          | None => None
          end
      end
  | None => None
  end.

Definition NaN : float := PrimFloat.nan.

Definition unsignedNumber (s : string) : float :=
  match decimal s with
  | Some (m, k) => PrimFloat.div (ofZ m) (ofZ (10 ^ Z.of_nat k))
  | None => NaN
  end.

(** [Number(s)] for the literals a [decimal] column holds: an optional
    sign, digits, an optional fraction.  The quotient of two exactly
    represented integers is correctly rounded, so the result is the
    binary64 number nearest to the literal, which is what [Number]
    returns.  The empty string is [0]; any other text is [NaN] here
    (JavaScript also reads exponents, hexadecimal and surrounding
    blanks, none of which a [decimal] column produces). *)
Definition Number (s : string) : float :=
  match s with
  | EmptyString => PrimFloat.zero
  | String "-"%char s' => PrimFloat.opp (unsignedNumber s')
  | String "+"%char s' => unsignedNumber s'
  | _ => unsignedNumber s
  end.

(** [Number(v)] for a nullable column: [Number(null)] is [0]. *)
Definition NumberOpt (v : option string) : float :=
  match v with
  | Some s => Number s
  | None => PrimFloat.zero
  end.

(** Sign of a comparator result, as [Array.prototype.sort] reads it:
    negative, positive, or neither ([0] and [NaN]). *)
Definition sign (x : float) : Z :=
  if PrimFloat.ltb x PrimFloat.zero then -1
  else if PrimFloat.ltb PrimFloat.zero x then 1
  else 0.

End JsNumber.

(** ** Arrays *)
Module JsArray.

(** [a.slice(start, end)] with integer arguments: a negative index
    counts from the end, and both are clamped to the array. *)
Definition slice {A : Type} (a : list A) (start end_ : Z) : list A :=
  let len := Z.of_nat (List.length a) in
  let k := if start <? 0 then Z.max (len + start) 0 else Z.min start len in
  let final := if end_ <? 0 then Z.max (len + end_) 0 else Z.min end_ len in
  firstn (Z.to_nat (Z.max (final - k) 0)) (skipn (Z.to_nat k) a).

(** [a.sort(cmp)]: the sort is stable (ECMAScript 2019), so for a
    consistent comparator its result is the one of any stable sort;
    this one is insertion sort.  [cmp x y] is the sign of the
    comparator's result: [x] goes after [y] only when it is positive. *)
Fixpoint insert {A : Type} (cmp : A -> A -> Z) (x : A) (l : list A) : list A :=
  match l with
  | [] => [x]
  | y :: l' => if 0 <? cmp x y then y :: insert cmp x l' else x :: y :: l'
  end.

Definition sort {A : Type} (cmp : A -> A -> Z) (a : list A) : list A :=
  fold_right (insert cmp) [] a.

End JsArray.


(* ================================================================== *)
(** * [shared/schema.ts]: the row types                                  *)
(* ================================================================== *)

(** Each table's select type is a record in a module of its own, so that
    the column names stay the ones of the schema.  A [Date] is its
    [getTime()] value; a nullable column is an [option]. *)

Module User.
Record t : Type := mk {
  id : Z;
  username : string;
  password : string;
  email : string;
  firstName : option string;
  lastName : option string;
  createdAt : Z
}.
End User.

Module InsertUser.
Record t : Type := mk {
  username : string;
  password : string;
  email : string;
  firstName : option string;
  lastName : option string
}.
End InsertUser.

Module Category.
Record t : Type := mk { id : Z; name : string; icon : string }.
End Category.

Module InsertCategory.
Record t : Type := mk { name : string; icon : string }.
End InsertCategory.

Module Product.
Record t : Type := mk {
  id : Z;
  name : string;
  description : string;
  price : string;
  oldPrice : option string;
  imageUrl : string;
  categoryId : Z;
  rating : option string;
  reviews : option Z;
  inStock : option bool;
  isNew : option bool;
  isFeatured : option bool;
  isPopular : option bool;
  isSale : option bool;
  createdAt : Z
}.
End Product.

(** The objects of [productData] in [seedData]: a product without its
    [id] (the seed literals carry [createdAt]). *)
Module InsertProduct.
Record t : Type := mk {
  name : string;
  description : string;
  price : string;
  oldPrice : option string;
  imageUrl : string;
  categoryId : Z;
  rating : option string;
  reviews : option Z;
  inStock : option bool;
  isNew : option bool;
  isFeatured : option bool;
  isPopular : option bool;
  isSale : option bool;
  createdAt : Z
}.
End InsertProduct.

Module CartItem.
Record t : Type := mk {
  id : Z;
  userId : Z;
  productId : Z;
  quantity : Z
}.
End CartItem.

(** [quantity] is optional in the insert schema (the column has a
    default); the model covers the calls that give one. *)
Module InsertCartItem.
Record t : Type := mk {
  userId : Z;
  productId : Z;
  quantity : Z
}.
End InsertCartItem.

Module Order.
Record t : Type := mk {
  id : Z;
  userId : Z;
  total : string;
  status : option string;
  createdAt : Z
}.
End Order.

Module InsertOrder.
Record t : Type := mk {
  userId : Z;
  total : string;
  status : option string
}.
End InsertOrder.

Module OrderItem.
Record t : Type := mk {
  id : Z;
  orderId : Z;
  productId : Z;
  quantity : Z;
  price : string
}.
End OrderItem.

(** The insert schema omits [id] only, so an insert row has an
    [orderId]; [createOrder] overwrites it. *)
Module InsertOrderItem.
Record t : Type := mk {
  orderId : Z;
  productId : Z;
  quantity : Z;
  price : string
}.
End InsertOrderItem.

(** [CartItem & { product: Product }] as [getCartItems] builds it:
    [product!] is an unchecked assertion, so the field holds whatever
    [getProduct] returned, [undefined] included. *)
Module CartItemWithProduct.
Record t : Type := mk {
  id : Z;
  userId : Z;
  productId : Z;
  quantity : Z;
  product : option Product.t
}.
End CartItemWithProduct.

Module OrderItemWithProduct.
Record t : Type := mk {
  id : Z;
  orderId : Z;
  productId : Z;
  quantity : Z;
  price : string;
  product : option Product.t
}.
End OrderItemWithProduct.

(** [Order & { items: ... }] *)
Module OrderWithItems.
Record t : Type := mk {
  id : Z;
  userId : Z;
  total : string;
  status : option string;
  createdAt : Z;
  items : list OrderItemWithProduct.t
}.
End OrderWithItems.

(** The options object of [getProducts]; every field may be absent. *)
Module ProductOptions.
Record t : Type := mk {
  categoryId : option Z;
  featured : option bool;
  limit : option Z;
  offset : option Z;
  search : option string;
  sort : option string
}.
End ProductOptions.

(** The options object of [getProductCount]. *)
Module CountOptions.
Record t : Type := mk {
  categoryId : option Z;
  search : option string
}.
End CountOptions.

(** [options?.field] *)
Definition optChain {O A : Type} (options : option O) (field : O -> option A)
  : option A :=
  match options with
  | Some o => field o
  | None => None
  end.

(** Truthiness of an optional number, string and boolean. *)
Definition truthyNumber (v : option Z) : bool :=
  match v with Some n => negb (n =? 0) | None => false end.

Definition truthyString (v : option string) : bool :=
  match v with Some s => JsString.truthy s | None => false end.

Definition truthyBool (v : option bool) : bool :=
  match v with Some b => b | None => false end.

(* ================================================================== *)
(** * [server/storage.ts]: class [MemStorage]                            *)
(* ================================================================== *)

Module MemStorage.

(** The private fields of the object.  ([sessionStore] belongs to the
    session middleware and no method below reads it.) *)
Record t : Type := mk {
  users : JsMap.t User.t;
  products : JsMap.t Product.t;
  categories : JsMap.t Category.t;
  cartItems : JsMap.t CartItem.t;
  orders : JsMap.t Order.t;
  orderItems : JsMap.t OrderItem.t;
  userId : Z;
  productId : Z;
  categoryId : Z;
  cartItemId : Z;
  orderId : Z;
  orderItemId : Z
}.

(** Assignments to one field. *)
Definition setUsers (this : t) (m : JsMap.t User.t) (next : Z) : t :=
  mk m (products this) (categories this) (cartItems this) (orders this)
     (orderItems this) next (productId this) (categoryId this)
     (cartItemId this) (orderId this) (orderItemId this).

Definition setProducts (this : t) (m : JsMap.t Product.t) (next : Z) : t :=
  mk (users this) m (categories this) (cartItems this) (orders this)
     (orderItems this) (userId this) next (categoryId this)
     (cartItemId this) (orderId this) (orderItemId this).

Definition setCategories (this : t) (m : JsMap.t Category.t) (next : Z) : t :=
  mk (users this) (products this) m (cartItems this) (orders this)
     (orderItems this) (userId this) (productId this) next
     (cartItemId this) (orderId this) (orderItemId this).

Definition setCartItems (this : t) (m : JsMap.t CartItem.t) (next : Z) : t :=
  mk (users this) (products this) (categories this) m (orders this)
     (orderItems this) (userId this) (productId this) (categoryId this)
     next (orderId this) (orderItemId this).

Definition setOrders (this : t) (m : JsMap.t Order.t) (next : Z) : t :=
  mk (users this) (products this) (categories this) (cartItems this) m
     (orderItems this) (userId this) (productId this) (categoryId this)
     (cartItemId this) next (orderItemId this).

Definition setOrderItems (this : t) (m : JsMap.t OrderItem.t) (next : Z) : t :=
  mk (users this) (products this) (categories this) (cartItems this)
     (orders this) m (userId this) (productId this) (categoryId this)
     (cartItemId this) (orderId this) next.

(** ** User methods *)

Definition getUser (this : t) (id : Z) : option User.t :=
  JsMap.get (users this) id.

Definition getUserByUsername (this : t) (username : string) : option User.t :=
  find (fun user => String.eqb (User.username user) username)
       (JsMap.values (users this)).

Definition getUserByEmail (this : t) (email : string) : option User.t :=
  find (fun user => String.eqb (User.email user) email)
       (JsMap.values (users this)).

(** [now] is the value of [new Date()]. *)
Definition createUser (this : t) (insertUser : InsertUser.t) (now : Z)
  : t * User.t :=
  let id := userId this in
  let user :=
    User.mk id (InsertUser.username insertUser)
      (InsertUser.password insertUser) (InsertUser.email insertUser)
      (InsertUser.firstName insertUser) (InsertUser.lastName insertUser)
      now in
  (setUsers this (JsMap.set (users this) id user) (id + 1), user).

(** ** Product methods *)

Definition getProduct (this : t) (id : Z) : option Product.t :=
  JsMap.get (products this) id.

(** [p.name.toLowerCase().includes(search) ||
     p.description.toLowerCase().includes(search)] *)
Definition matchesSearch (search : string) (p : Product.t) : bool :=
  JsString.includes (JsString.toLowerCase (Product.name p)) search
  || JsString.includes (JsString.toLowerCase (Product.description p)) search.

(** The comparators of the [switch].  Only the sign of a comparator's
    result matters to [sort]. *)
Definition byPriceAsc (a b : Product.t) : Z :=
  JsNumber.sign (PrimFloat.sub (JsNumber.Number (Product.price a))
                               (JsNumber.Number (Product.price b))).

Definition byPriceDesc (a b : Product.t) : Z :=
  JsNumber.sign (PrimFloat.sub (JsNumber.Number (Product.price b))
                               (JsNumber.Number (Product.price a))).

Definition byNewest (a b : Product.t) : Z :=
  Product.createdAt b - Product.createdAt a.

Definition byRating (a b : Product.t) : Z :=
  JsNumber.sign (PrimFloat.sub (JsNumber.NumberOpt (Product.rating b))
                               (JsNumber.NumberOpt (Product.rating a))).

Definition byId (a b : Product.t) : Z := Product.id a - Product.id b.

Definition getProducts (this : t) (options : option ProductOptions.t)
  : list Product.t :=
  let results := JsMap.values (products this) in
  (* Apply filters *)
  let results :=
    if truthyNumber (optChain options ProductOptions.categoryId) then
      filter (fun p =>
                match optChain options ProductOptions.categoryId with
                | Some c => Product.categoryId p =? c
                | None => false
                end) results
    else results in
  let results :=
    if truthyBool (optChain options ProductOptions.featured) then
      filter (fun p => truthyBool (Product.isFeatured p)) results
    else results in
  let results :=
    match optChain options ProductOptions.search with
    | Some s =>
        if JsString.truthy s then
          let search := JsString.toLowerCase s in
          filter (matchesSearch search) results
        else results
    | None => results
    end in
  (* Apply sorting *)
  let results :=
    match optChain options ProductOptions.sort with
    | Some key =>
        if JsString.truthy key then
          if String.eqb key "price-asc" then JsArray.sort byPriceAsc results
          else if String.eqb key "price-desc" then JsArray.sort byPriceDesc results
          else if String.eqb key "newest" then JsArray.sort byNewest results
          else if String.eqb key "rating" then JsArray.sort byRating results
          else (* Default sort by id *) JsArray.sort byId results
        else results
    | None => results
    end in
  (* Apply pagination *)
  match optChain options ProductOptions.offset,
        optChain options ProductOptions.limit with
  | Some offset, Some limit => JsArray.slice results offset (offset + limit)
  | _, _ => results
  end.

Definition getProductCount (this : t) (options : option CountOptions.t) : Z :=
  let count := JsMap.size (products this) in
  if truthyNumber (optChain options CountOptions.categoryId)
     || truthyString (optChain options CountOptions.search) then
    let filteredProducts := JsMap.values (products this) in
    let filteredProducts :=
      if truthyNumber (optChain options CountOptions.categoryId) then
        filter (fun p =>
                  match optChain options CountOptions.categoryId with
                  | Some c => Product.categoryId p =? c
                  | None => false
                  end) filteredProducts
      else filteredProducts in
    let filteredProducts :=
      match optChain options CountOptions.search with
      | Some s =>
          if JsString.truthy s then
            let search := JsString.toLowerCase s in
            filter (matchesSearch search) filteredProducts
          else filteredProducts
      | None => filteredProducts
      end in
    Z.of_nat (List.length filteredProducts)
  else count.

(** ** Category methods *)

Definition getCategory (this : t) (id : Z) : option Category.t :=
  JsMap.get (categories this) id.

Definition getCategories (this : t) : list Category.t :=
  JsMap.values (categories this).

(** ** Cart methods *)

Definition getCartItems (this : t) (userId : Z) : list CartItemWithProduct.t :=
  let items :=
    filter (fun item => CartItem.userId item =? userId)
           (JsMap.values (cartItems this)) in
  map (fun item =>
         let product := getProduct this (CartItem.productId item) in
         CartItemWithProduct.mk (CartItem.id item) (CartItem.userId item)
           (CartItem.productId item) (CartItem.quantity item) product)
      items.

Definition getCartItem (this : t) (userId productId : Z) : option CartItem.t :=
  find (fun item => (CartItem.userId item =? userId)
                    && (CartItem.productId item =? productId))
       (JsMap.values (cartItems this)).

Definition addCartItem (this : t) (insertCartItem : InsertCartItem.t)
  : t * CartItem.t :=
  (* Check if this product is already in the cart *)
  match getCartItem this (InsertCartItem.userId insertCartItem)
                         (InsertCartItem.productId insertCartItem) with
  | Some existingItem =>
      (* If it exists, update the quantity *)
      let updatedItem :=
        CartItem.mk (CartItem.id existingItem) (CartItem.userId existingItem)
          (CartItem.productId existingItem)
          (CartItem.quantity existingItem
           + InsertCartItem.quantity insertCartItem) in
      (setCartItems this
         (JsMap.set (cartItems this) (CartItem.id existingItem) updatedItem)
         (cartItemId this),
       updatedItem)
  | None =>
      (* Otherwise create a new cart item *)
      let id := cartItemId this in
      let cartItem :=
        CartItem.mk id (InsertCartItem.userId insertCartItem)
          (InsertCartItem.productId insertCartItem)
          (InsertCartItem.quantity insertCartItem) in
      (setCartItems this (JsMap.set (cartItems this) id cartItem) (id + 1),
       cartItem)
  end.

Definition updateCartItem (this : t) (id quantity : Z)
  : t * option CartItem.t :=
  match JsMap.get (cartItems this) id with
  | None => (this, None)
  | Some cartItem =>
      let updatedItem :=
        CartItem.mk (CartItem.id cartItem) (CartItem.userId cartItem)
          (CartItem.productId cartItem) quantity in
      (setCartItems this (JsMap.set (cartItems this) id updatedItem)
         (cartItemId this),
       Some updatedItem)
  end.

Definition removeCartItem (this : t) (id : Z) : t :=
  setCartItems this (JsMap.delete (cartItems this) id) (cartItemId this).

Definition clearCart (this : t) (userId : Z) : t :=
  let userCartItems :=
    filter (fun item => CartItem.userId item =? userId)
           (JsMap.values (cartItems this)) in
  fold_left (fun this item =>
               setCartItems this
                 (JsMap.delete (cartItems this) (CartItem.id item))
                 (cartItemId this))
            userCartItems this.

(** ** Order methods *)

(** The body of [for (const item of items)] in [createOrder]. *)
Definition addOrderItem (id : Z) (this : t) (item : InsertOrderItem.t) : t :=
  let orderItemId := orderItemId this in
  let orderItem :=
    OrderItem.mk orderItemId id (InsertOrderItem.productId item)
      (InsertOrderItem.quantity item) (InsertOrderItem.price item) in
  setOrderItems this (JsMap.set (orderItems this) orderItemId orderItem)
    (orderItemId + 1).

(** [now] is the value of [new Date()]. *)
Definition createOrder (this : t) (orderData : InsertOrder.t)
    (items : list InsertOrderItem.t) (now : Z) : t * Order.t :=
  let id := orderId this in
  let order :=
    Order.mk id (InsertOrder.userId orderData) (InsertOrder.total orderData)
      (InsertOrder.status orderData) now in
  let this := setOrders this (JsMap.set (orders this) id order) (id + 1) in
  (* Add order items *)
  let this := fold_left (addOrderItem id) items this in
  (this, order).

Definition byCreatedAtDesc (a b : Order.t) : Z :=
  Order.createdAt b - Order.createdAt a.

Definition getOrders (this : t) (userId : Z) : list Order.t :=
  JsArray.sort byCreatedAtDesc
    (filter (fun order => Order.userId order =? userId)
            (JsMap.values (orders this))).

Definition getOrder (this : t) (id : Z) : option OrderWithItems.t :=
  match JsMap.get (orders this) id with
  | None => None
  | Some order =>
      let orderItems :=
        filter (fun item => OrderItem.orderId item =? id)
               (JsMap.values (orderItems this)) in
      let itemsWithProducts :=
        map (fun item =>
               let product := getProduct this (OrderItem.productId item) in
               OrderItemWithProduct.mk (OrderItem.id item)
                 (OrderItem.orderId item) (OrderItem.productId item)
                 (OrderItem.quantity item) (OrderItem.price item) product)
            orderItems in
      Some (OrderWithItems.mk (Order.id order) (Order.userId order)
              (Order.total order) (Order.status order)
              (Order.createdAt order) itemsWithProducts)
  end.

(** ** Seed data and constructor *)

Definition categoryData : list InsertCategory.t := [
  InsertCategory.mk "Electronics" "laptop";
  InsertCategory.mk "Clothing" "tshirt";
  InsertCategory.mk "Home & Kitchen" "home";
  InsertCategory.mk "Beauty" "spa";
  InsertCategory.mk "Sports" "running"
].

Definition productData : list InsertProduct.t := [
  InsertProduct.mk
    "Wireless Headphones"
    "Premium sound quality with noise cancellation"
    "129.99" (Some "159.99")
    "https://images.unsplash.com/photo-1505740420928-5e560c06d30e?ixlib=rb-4.0.3&ixid=M3wxMjA3fDB8MHxwaG90by1wYWdlfHx8fGVufDB8fHx8fA%3D%3D&auto=format&fit=crop&w=1470&q=80"
    1 (Some "4.5") (Some 128)
    (Some true) (Some true) (Some true) (Some false) (Some false)
    1677628800000;
  InsertProduct.mk
    "Smart Watch Series 5"
    "Fitness tracking with heart rate monitor"
    "89.99" (Some "119.99")
    "https://images.unsplash.com/photo-1523275335684-37898b6baf30?ixlib=rb-4.0.3&ixid=M3wxMjA3fDB8MHxwaG90by1wYWdlfHx8fGVufDB8fHx8fA%3D%3D&auto=format&fit=crop&w=1399&q=80"
    1 (Some "4.0") (Some 96)
    (Some true) (Some false) (Some true) (Some false) (Some true)
    1676419200000;
  InsertProduct.mk
    "Slim Fit Dress Shirt"
    "100% cotton, wrinkle-resistant fabric"
    "49.99" (None)
    "https://images.unsplash.com/photo-1594035910387-fea47794261f?ixlib=rb-4.0.3&ixid=M3wxMjA3fDB8MHxwaG90by1wYWdlfHx8fGVufDB8fHx8fA%3D%3D&auto=format&fit=crop&w=1470&q=80"
    2 (Some "4.9") (Some 215)
    (Some true) (Some false) (Some true) (Some false) (Some false)
    1674172800000;
  InsertProduct.mk
    "Urban Runner Sneakers"
    "Lightweight with cushioned insole"
    "79.99" (Some "99.99")
    "https://images.unsplash.com/photo-1525904097878-94fb15835963?ixlib=rb-4.0.3&ixid=M3wxMjA3fDB8MHxwaG90by1wYWdlfHx8fGVufDB8fHx8fA%3D%3D&auto=format&fit=crop&w=1470&q=80"
    2 (Some "4.2") (Some 175)
    (Some true) (Some false) (Some true) (Some true) (Some false)
    1675209600000;
  InsertProduct.mk
    "Designer Sunglasses"
    "UV protection with stylish frame"
    "59.99" (None)
    "https://images.unsplash.com/photo-1572635196237-14b3f281503f?ixlib=rb-4.0.3&ixid=M3wxMjA3fDB8MHxwaG90by1wYWdlfHx8fGVufDB8fHx8fA%3D%3D&auto=format&fit=crop&w=1160&q=80"
    2 (Some "4.0") (Some 88)
    (Some true) (Some true) (Some false) (Some false) (Some false)
    1678406400000;
  InsertProduct.mk
    "Outdoor Adventure Backpack"
    "Durable, water-resistant design"
    "79.99" (None)
    "https://images.unsplash.com/photo-1560343090-f0409e92791a?ixlib=rb-4.0.3&ixid=M3wxMjA3fDB8MHxwaG90by1wYWdlfHx8fGVufDB8fHx8fA%3D%3D&auto=format&fit=crop&w=1364&q=80"
    5 (Some "4.4") (Some 112)
    (Some true) (Some true) (Some false) (Some false) (Some false)
    1677974400000;
  InsertProduct.mk
    "Smart Coffee Maker"
    "Programmable with app control"
    "129.99" (None)
    "https://images.unsplash.com/photo-1631729371254-42c2892f0e6e?ixlib=rb-4.0.3&ixid=M3wxMjA3fDB8MHxwaG90by1wYWdlfHx8fGVufDB8fHx8fA%3D%3D&auto=format&fit=crop&w=1470&q=80"
    3 (Some "4.7") (Some 143)
    (Some true) (Some true) (Some false) (Some false) (Some false)
    1678838400000;
  InsertProduct.mk
    "Performance Running Shoes"
    "Lightweight with responsive cushioning"
    "119.99" (None)
    "https://images.unsplash.com/photo-1542291026-7eec264c27ff?ixlib=rb-4.0.3&ixid=M3wxMjA3fDB8MHxwaG90by1wYWdlfHx8fGVufDB8fHx8fA%3D%3D&auto=format&fit=crop&w=1470&q=80"
    5 (Some "4.8") (Some 201)
    (Some true) (Some true) (Some false) (Some false) (Some false)
    1679270400000;
  InsertProduct.mk
    "Premium Smartwatch"
    "Health tracking with AMOLED display"
    "199.99" (None)
    "https://images.unsplash.com/photo-1546868871-7041f2a55e12?ixlib=rb-4.0.3&ixid=M3wxMjA3fDB8MHxwaG90by1wYWdlfHx8fGVufDB8fHx8fA%3D%3D&auto=format&fit=crop&w=1064&q=80"
    1 (Some "4.9") (Some 188)
    (Some true) (Some true) (Some false) (Some false) (Some false)
    1679702400000;
  InsertProduct.mk
    "Luxury Skincare Set"
    "Organic ingredients, vegan-friendly"
    "89.99" (None)
    "https://images.unsplash.com/photo-1618354691373-d851c5c3a990?ixlib=rb-4.0.3&ixid=M3wxMjA3fDB8MHxwaG90by1wYWdlfHx8fGVufDB8fHx8fA%3D%3D&auto=format&fit=crop&w=1015&q=80"
    4 (Some "4.6") (Some 156)
    (Some true) (Some true) (Some false) (Some false) (Some false)
    1679097600000;
  InsertProduct.mk
    "Aromatherapy Candle Set"
    "Natural soy wax with essential oils"
    "39.99" (None)
    "https://images.unsplash.com/photo-1600086827875-a63b01f1335c?ixlib=rb-4.0.3&ixid=M3wxMjA3fDB8MHxwaG90by1wYWdlfHx8fGVufDB8fHx8fA%3D%3D&auto=format&fit=crop&w=774&q=80"
    3 (Some "4.3") (Some 124)
    (Some true) (Some true) (Some false) (Some false) (Some false)
    1679443200000;
  InsertProduct.mk
    "Waterproof Bluetooth Speaker"
    "24-hour battery with deep bass"
    "69.99" (None)
    "https://images.unsplash.com/photo-1585155770447-2f66e2a397b5?ixlib=rb-4.0.3&ixid=M3wxMjA3fDB8MHxwaG90by1wYWdlfHx8fGVufDB8fHx8fA%3D%3D&auto=format&fit=crop&w=1932&q=80"
    1 (Some "4.5") (Some 134)
    (Some true) (Some true) (Some false) (Some false) (Some false)
    1679961600000;
  InsertProduct.mk
    "Pro Football Cleats"
    "High traction, lightweight cleats for optimal performance on the field"
    "89.99" (Some "119.99")
    "https://m.media-amazon.com/images/I/71Z8tlCrM6L._AC_SL1500_.jpg"
    5 (Some "4.7") (Some 156)
    (Some true) (Some true) (Some true) (Some false) (Some true)
    1680048000000;
  InsertProduct.mk
    "Team Football Jersey"
    "Official team jersey with moisture-wicking technology"
    "69.99" (None)
    "https://printfactory.com.ng/wp-content/uploads/2018/12/original-club-jersey-print-printfactory-ng.png"
    5 (Some "4.5") (Some 128)
    (Some true) (Some true) (Some false) (Some true) (Some false)
    1680134400000;
  InsertProduct.mk
    "Athletic Performance Socks"
    "Cushioned, anti-blister socks for all sports"
    "14.99" (Some "19.99")
    "https://images.unsplash.com/photo-1586350977771-b3b0abd50c82?ixlib=rb-4.0.3&ixid=M3wxMjA3fDB8MHxwaG90by1wYWdlfHx8fGVufDB8fHx8fA%3D%3D&auto=format&fit=crop&w=1470&q=80"
    5 (Some "4.3") (Some 98)
    (Some true) (Some false) (Some false) (Some false) (Some true)
    1678838400000;
  InsertProduct.mk
    "Premium Knife Set"
    "Professional grade stainless steel knife set with wooden block"
    "129.99" (Some "159.99")
    "https://images.unsplash.com/photo-1593618998160-e34014e67546?ixlib=rb-4.0.3&ixid=M3wxMjA3fDB8MHxwaG90by1wYWdlfHx8fGVufDB8fHx8fA%3D%3D&auto=format&fit=crop&w=1470&q=80"
    3 (Some "4.8") (Some 187)
    (Some true) (Some true) (Some true) (Some false) (Some true)
    1679702400000;
  InsertProduct.mk
    "Silicone Cooking Utensil Set"
    "Heat-resistant, non-stick silicone utensils for everyday cooking"
    "34.99" (None)
    "https://images.unsplash.com/photo-1639544799091-1c1aeeff5553?ixlib=rb-4.0.3&ixid=M3wxMjA3fDB8MHxwaG90by1wYWdlfHx8fGVufDB8fHx8fA%3D%3D&auto=format&fit=crop&w=1974&q=80"
    3 (Some "4.6") (Some 134)
    (Some true) (Some false) (Some false) (Some true) (Some false)
    1676851200000;
  InsertProduct.mk
    "Digital Kitchen Scale"
    "Precise measurements for all your cooking and baking needs"
    "19.99" (Some "24.99")
    "https://images.unsplash.com/photo-1558705438-2908eda7d172?ixlib=rb-4.0.3&ixid=M3wxMjA3fDB8MHxwaG90by1wYWdlfHx8fGVufDB8fHx8fA%3D%3D&auto=format&fit=crop&w=1470&q=80"
    3 (Some "4.4") (Some 112)
    (Some true) (Some false) (Some false) (Some false) (Some true)
    1673740800000;
  InsertProduct.mk
    "Essential Cotton T-Shirt"
    "Soft, breathable 100% cotton t-shirt in a variety of colors"
    "19.99" (None)
    "https://images.unsplash.com/photo-1521572163474-6864f9cf17ab?ixlib=rb-4.0.3&ixid=M3wxMjA3fDB8MHxwaG90by1wYWdlfHx8fGVufDB8fHx8fA%3D%3D&auto=format&fit=crop&w=1480&q=80"
    2 (Some "4.4") (Some 245)
    (Some true) (Some false) (Some false) (Some true) (Some false)
    1675987200000;
  InsertProduct.mk
    "Comfort Fit Joggers"
    "Casual, tapered joggers with elastic waistband and pockets"
    "39.99" (Some "49.99")
    "https://images.unsplash.com/photo-1515110371136-7e393289662c?ixlib=rb-4.0.3&ixid=M3wxMjA3fDB8MHxwaG90by1wYWdlfHx8fGVufDB8fHx8fA%3D%3D&auto=format&fit=crop&w=1326&q=80"
    2 (Some "4.7") (Some 178)
    (Some true) (Some true) (Some true) (Some false) (Some true)
    1677974400000
].

Definition seedCategory (this : t) (category : InsertCategory.t) : t :=
  let id := categoryId this in
  setCategories this
    (JsMap.set (categories this) id
       (Category.mk id (InsertCategory.name category)
          (InsertCategory.icon category)))
    (id + 1).

Definition seedProduct (this : t) (product : InsertProduct.t) : t :=
  let id := productId this in
  setProducts this
    (JsMap.set (products this) id
       (Product.mk id (InsertProduct.name product)
          (InsertProduct.description product) (InsertProduct.price product)
          (InsertProduct.oldPrice product) (InsertProduct.imageUrl product)
          (InsertProduct.categoryId product) (InsertProduct.rating product)
          (InsertProduct.reviews product) (InsertProduct.inStock product)
          (InsertProduct.isNew product) (InsertProduct.isFeatured product)
          (InsertProduct.isPopular product) (InsertProduct.isSale product)
          (InsertProduct.createdAt product)))
    (id + 1).

(** [seedData] over given tables, and with the tables of the source. *)
Definition seedWith (categoryData : list InsertCategory.t)
    (productData : list InsertProduct.t) (this : t) : t :=
  let this := fold_left seedCategory categoryData this in
  fold_left seedProduct productData this.

Definition seedData (this : t) : t := seedWith categoryData productData this.

(** The fields as the constructor initialises them, before seeding. *)
Definition fresh : t :=
  mk JsMap.empty JsMap.empty JsMap.empty JsMap.empty JsMap.empty JsMap.empty
     1 1 1 1 1 1.

(** [new MemStorage()], the exported [storage]. *)
Definition storage : t := Eval vm_compute in seedData fresh.

(** ** Calls that change the object *)

Inductive Call : Type :=
| CreateUser (insertUser : InsertUser.t) (now : Z)
| AddCartItem (insertCartItem : InsertCartItem.t)
| UpdateCartItem (id quantity : Z)
| RemoveCartItem (id : Z)
| ClearCart (userId : Z)
| CreateOrder (orderData : InsertOrder.t) (items : list InsertOrderItem.t)
              (now : Z).

Definition call (this : t) (c : Call) : t :=
  match c with
  | CreateUser insertUser now => fst (createUser this insertUser now)
  | AddCartItem insertCartItem => fst (addCartItem this insertCartItem)
  | UpdateCartItem id quantity => fst (updateCartItem this id quantity)
  | RemoveCartItem id => removeCartItem this id
  | ClearCart userId => clearCart this userId
  | CreateOrder orderData items now =>
      fst (createOrder this orderData items now)
  end.

(** The states a [MemStorage] object can be in: the constructor's, and
    what public calls make of it. *)
Inductive reachable : t -> Prop :=
| reachable_new : reachable storage
| reachable_call this c : reachable this -> reachable (call this c).

End MemStorage.

(** What may happen to the object between two observations: a public
    call or, for statements about later price changes (which no method
    of the class makes), a replacement of the product table. *)
Inductive Event : Type :=
| Called (c : MemStorage.Call)
| ProductsReplaced (products : JsMap.t Product.t).

Definition step (this : MemStorage.t) (e : Event) : MemStorage.t :=
  match e with
  | Called c => MemStorage.call this c
  | ProductsReplaced products =>
      MemStorage.setProducts this products (MemStorage.productId this)
  end.

Definition run (this : MemStorage.t) (es : list Event) : MemStorage.t :=
  fold_left step es this.

(* ================================================================== *)
(** * [server/routes.ts]: [POST /api/orders]                             *)
(* ================================================================== *)

Module Routes.

Inductive Body : Type :=
| Message (message : string)
| ZodErrors
| OrderJson (order : Order.t).

(** [res.status(status).json(body)] *)
Record Response : Type := respond { status : Z; body : Body }.

(** [req.body.items] is whatever JSON the client sent. *)
Inductive Items (Raw : Type) : Type :=
| NotAnArray
| ArrayOf (items : list Raw).
Arguments NotAnArray {Raw}.
Arguments ArrayOf {Raw} items.

Section PostOrders.

(** The unvalidated [orderData] and line items, and the two zod
    schemas derived from the tables by drizzle-zod: [parse] returns
    the validated row or throws a [ZodError] ([None]). *)
Variables RawOrder RawItem : Type.
Variable insertOrderSchema : RawOrder -> Z -> option InsertOrder.t.
Variable insertOrderItemSchema : RawItem -> option InsertOrderItem.t.

(** [req.user] is present exactly when [req.isAuthenticated()]. *)
Record Request : Type := request {
  user : option User.t;
  orderData : RawOrder;
  items : Items RawItem
}.

(** [items.map(item => insertOrderItemSchema.parse(item))]: the first
    failure throws. *)
Fixpoint parseItems (items : list RawItem) : option (list InsertOrderItem.t) :=
  match items with
  | [] => Some []
  | item :: rest =>
      match insertOrderItemSchema item with
      | None => None
      | Some v =>
          match parseItems rest with
          | None => None
          | Some vs => Some (v :: vs)
          end
      end
  end.

Definition postOrders (storage : MemStorage.t) (req : Request) (now : Z)
  : MemStorage.t * Response :=
  match user req with
  | None => (storage, respond 401 (Message "Not authenticated"))
  | Some u =>
      match items req with
      | NotAnArray | ArrayOf [] =>
          (storage, respond 400 (Message "Order must contain items"))
      | ArrayOf items =>
          match insertOrderSchema (orderData req) (User.id u) with
          | None => (storage, respond 400 ZodErrors)
          | Some validatedOrderData =>
              match parseItems items with
              | None => (storage, respond 400 ZodErrors)
              | Some validatedItems =>
                  let (storage, order) :=
                    MemStorage.createOrder storage validatedOrderData
                      validatedItems now in
                  (* Clear the cart after successful order *)
                  let storage := MemStorage.clearCart storage (User.id u) in
                  (storage, respond 201 (OrderJson order))
              end
          end
      end
  end.

End PostOrders.

Arguments request {RawOrder RawItem} user orderData items.
Arguments user {RawOrder RawItem} r.
Arguments orderData {RawOrder RawItem} r.
Arguments items {RawOrder RawItem} r.

End Routes.

(* ================================================================== *)
(** * [client/src/pages/checkout-page.tsx]                               *)
(* ================================================================== *)

Module Checkout.

Inductive PaymentMethod : Type := credit | paypal | bank.

(** [z.infer<typeof checkoutFormSchema>]: the card fields are
    optional strings. *)
Record CheckoutFormValues : Type := mkValues {
  firstName : string;
  lastName : string;
  email : string;
  phone : string;
  address : string;
  city : string;
  state : string;
  zipCode : string;
  country : string;
  paymentMethod : PaymentMethod;
  cardNumber : option string;
  cardName : option string;
  expMonth : option string;
  expYear : option string;
  cvv : option string
}.

Inductive CheckoutStep : Type := shipping | payment | review | confirmation.

(** An element of [cartItems] as the page reads it: a cart row with
    its product. *)
Record CartEntry : Type := mkEntry {
  id : Z;
  userId : Z;
  productId : Z;
  quantity : Z;
  product : Product.t
}.

(** ** Order summary *)

Definition subtotal (cartItems : list CartEntry) : float :=
  fold_left
    (fun total item =>
       PrimFloat.add total
         (PrimFloat.mul (JsNumber.Number (Product.price (product item)))
                        (JsNumber.ofZ (quantity item))))
    cartItems PrimFloat.zero.

Definition shippingCost (cartItems : list CartEntry) : float :=
  if PrimFloat.ltb PrimFloat.zero (subtotal cartItems) then 9.99%float
  else PrimFloat.zero.

Definition taxRate : float := 0.08%float.

Definition tax (cartItems : list CartEntry) : float :=
  PrimFloat.mul (subtotal cartItems) taxRate.

Definition total (cartItems : list CartEntry) : float :=
  PrimFloat.add (PrimFloat.add (subtotal cartItems) (shippingCost cartItems))
                (tax cartItems).

(** [cartItems.length === 0 && checkoutStep !== "confirmation"]: the
    page navigates away. *)
Definition redirects (cartItems : list CartEntry) (checkoutStep : CheckoutStep)
  : bool :=
  match cartItems, checkoutStep with
  | [], confirmation => false
  | [], _ => true
  | _ :: _, _ => false
  end.

(** ** Conditional validation *)

Definition validatePaymentFields (values : CheckoutFormValues) : bool :=
  match paymentMethod values with
  | credit =>
      if negb (truthyString (cardNumber values)) then false
      else if negb (truthyString (cardName values)) then false
      else if negb (truthyString (expMonth values)) then false
      else if negb (truthyString (expYear values)) then false
      else if negb (truthyString (cvv values)) then false
      else true
  | _ => true
  end.

(** ** The order request of [createOrderMutation] *)

Record OrderLine : Type := mkLine {
  lineProductId : Z;
  lineQuantity : Z;
  linePrice : string
}.

Definition orderItems (cartItems : list CartEntry) : list OrderLine :=
  map (fun item =>
         mkLine (productId item) (quantity item) (Product.price (product item)))
      cartItems.

(** The number sent as [total] (the request carries its [toString()]). *)
Definition orderTotal (cartItems : list CartEntry) : float :=
  PrimFloat.add (PrimFloat.add (subtotal cartItems) (shippingCost cartItems))
                (tax cartItems).

(** ** Steps *)

Inductive Effect : Type :=
| Toast (title description variant : string)
| MutateCreateOrder (values : CheckoutFormValues)
| ClearCart.

(** [onSubmit]: the next value of [checkoutStep] and what else the
    handler does. *)
Definition onSubmit (checkoutStep : CheckoutStep) (values : CheckoutFormValues)
  : CheckoutStep * list Effect :=
  match checkoutStep with
  | shipping => (payment, [])
  | payment =>
      if negb (validatePaymentFields values) then
        (payment,
         [Toast "Payment information required"
                "Please fill in all payment fields" "destructive"])
      else (review, [])
  | review => (review, [MutateCreateOrder values])
  | confirmation => (confirmation, [])
  end.

(** [form.handleSubmit(onSubmit)]: the values go through
    [checkoutFormSchema] first, and [onSubmit] runs only when they
    pass.  [isEmail] is zod's [.email()] test. *)
Definition checkoutFormSchema (isEmail : string -> bool)
    (values : CheckoutFormValues) : bool :=
  JsString.truthy (firstName values)
  && JsString.truthy (lastName values)
  && isEmail (email values)
  && JsString.truthy (phone values)
  && JsString.truthy (address values)
  && JsString.truthy (city values)
  && JsString.truthy (state values)
  && JsString.truthy (zipCode values)
  && JsString.truthy (country values).

Definition handleSubmit (isEmail : string -> bool)
    (checkoutStep : CheckoutStep) (values : CheckoutFormValues)
  : CheckoutStep * list Effect :=
  if checkoutFormSchema isEmail values then onSubmit checkoutStep values
  else (checkoutStep, []).

Definition handleBack (checkoutStep : CheckoutStep) : CheckoutStep :=
  match checkoutStep with
  | payment => shipping
  | review => payment
  | other => other
  end.

(** [onSuccess] and [onError] of the mutation. *)
Definition onSuccess (checkoutStep : CheckoutStep) : CheckoutStep * list Effect :=
  (confirmation, [ClearCart]).

Definition onError (checkoutStep : CheckoutStep) (message : string)
  : CheckoutStep * list Effect :=
  (checkoutStep, [Toast "Checkout failed" message "destructive"]).

End Checkout.

(* ================================================================== *)
(** * [server/routes.ts]: the other handlers                             *)
(* ================================================================== *)

(** ** [parseInt(s, 10)] *)
Module JsGlobal.

(** The ASCII white space [parseInt] skips: TAB, LF, VT, FF, CR, SP. *)
Definition isWhiteSpace (c : ascii) : bool :=
  let n := nat_of_ascii c in
  ((9 <=? n) && (n <=? 13))%nat || (n =? 32)%nat.

Fixpoint trimStart (s : string) : string :=
  match s with
  | EmptyString => EmptyString
  | String c s' => if isWhiteSpace c then trimStart s' else s
  end.

(** The value and the length of the longest run of digits [s] starts
    with. *)
Fixpoint digitPrefix (s : string) (acc : Z) (n : nat) : Z * nat :=
  match s with
  | EmptyString => (acc, n)
  | String c s' =>
      match JsNumber.digit c with
      | Some d => digitPrefix s' (10 * acc + d) (S n)
      | None => (acc, n)
      end
  end.

(** [parseInt(s, 10)]: leading white space, an optional sign, then as
    many digits as there are; [None] is [NaN].  (The value is the exact
    integer; JavaScript rounds it to binary64 beyond [2^53].) *)
Definition parseInt (s : string) : option Z :=
  let s := trimStart s in
  let (negative, rest) :=
    match s with
    | String "-"%char r => (true, r)
    | String "+"%char r => (false, r)
    | _ => (false, s)
    end in
  match digitPrefix rest 0 0%nat with
  | (_, O) => None
  | (v, S _) => Some (if negative then - v else v)
  end.

End JsGlobal.

Module Api.

Inductive Body : Type :=
| Message (message : string)
| ZodErrors
| ProductJson (product : Product.t)
| CategoriesJson (categories : list Category.t)
| CartJson (cartItems : list CartItemWithProduct.t)
| CartItemJson (cartItem : CartItem.t)
| OrdersJson (orders : list Order.t)
| OrderJson (order : OrderWithItems.t)
| NoContent.

(** [res.status(status).json(body)], [res.json(body)] (status 200) and
    [res.status(204).send()]. *)
Record Response : Type := respond { status : Z; body : Body }.

(** [req.body.quantity]: a number or anything else.  The model covers
    the integer-valued numbers. *)
Inductive Quantity : Type :=
| NumberValue (quantity : Z)
| NotANumber.

(** [GET /api/products/:id].  A [Map] has no entry under [NaN]. *)
Definition getProductById (storage : MemStorage.t) (id : string) : Response :=
  match
    match JsGlobal.parseInt id with
    | Some id => MemStorage.getProduct storage id
    | None => None
    end
  with
  | None => respond 404 (Message "Product not found")
  | Some product => respond 200 (ProductJson product)
  end.

(** [GET /api/categories] *)
Definition getCategories (storage : MemStorage.t) : Response :=
  respond 200 (CategoriesJson (MemStorage.getCategories storage)).

(** [GET /api/cart]; [user] is [req.user], present exactly when
    [req.isAuthenticated()]. *)
Definition getCart (storage : MemStorage.t) (user : option User.t) : Response :=
  match user with
  | None => respond 401 (Message "Not authenticated")
  | Some u => respond 200 (CartJson (MemStorage.getCartItems storage (User.id u)))
  end.

(** [POST /api/cart]; [insertCartItemSchema raw userId] is
    [insertCartItemSchema.parse({...req.body, userId})], [None] when it
    throws a [ZodError]. *)
Definition postCart {Raw : Type}
    (insertCartItemSchema : Raw -> Z -> option InsertCartItem.t)
    (storage : MemStorage.t) (user : option User.t) (raw : Raw)
  : MemStorage.t * Response :=
  match user with
  | None => (storage, respond 401 (Message "Not authenticated"))
  | Some u =>
      match insertCartItemSchema raw (User.id u) with
      | None => (storage, respond 400 ZodErrors)
      | Some validatedData =>
          let (storage, cartItem) := MemStorage.addCartItem storage validatedData in
          (storage, respond 201 (CartItemJson cartItem))
      end
  end.

(** [PUT /api/cart/:id] *)
Definition putCartItem (storage : MemStorage.t) (user : option User.t)
    (id : string) (quantity : Quantity) : MemStorage.t * Response :=
  match user with
  | None => (storage, respond 401 (Message "Not authenticated"))
  | Some _ =>
      let id := JsGlobal.parseInt id in
      match quantity with
      | NotANumber => (storage, respond 400 (Message "Invalid quantity"))
      | NumberValue quantity =>
          if quantity <? 1 then
            (storage, respond 400 (Message "Invalid quantity"))
          else
            let (storage, updatedItem) :=
              match id with
              | Some id => MemStorage.updateCartItem storage id quantity
              | None => (storage, None)
              end in
            match updatedItem with
            | None => (storage, respond 404 (Message "Cart item not found"))
            | Some updatedItem => (storage, respond 200 (CartItemJson updatedItem))
            end
      end
  end.

(** [DELETE /api/cart/:id] *)
Definition deleteCartItem (storage : MemStorage.t) (user : option User.t)
    (id : string) : MemStorage.t * Response :=
  match user with
  | None => (storage, respond 401 (Message "Not authenticated"))
  | Some _ =>
      let storage :=
        match JsGlobal.parseInt id with
        | Some id => MemStorage.removeCartItem storage id
        | None => storage
        end in
      (storage, respond 204 NoContent)
  end.

(** [DELETE /api/cart] *)
Definition deleteCart (storage : MemStorage.t) (user : option User.t)
  : MemStorage.t * Response :=
  match user with
  | None => (storage, respond 401 (Message "Not authenticated"))
  | Some u => (MemStorage.clearCart storage (User.id u), respond 204 NoContent)
  end.

(** [GET /api/orders] *)
Definition getOrders (storage : MemStorage.t) (user : option User.t) : Response :=
  match user with
  | None => respond 401 (Message "Not authenticated")
  | Some u => respond 200 (OrdersJson (MemStorage.getOrders storage (User.id u)))
  end.

(** [GET /api/orders/:id] *)
Definition getOrderById (storage : MemStorage.t) (user : option User.t)
    (id : string) : Response :=
  match user with
  | None => respond 401 (Message "Not authenticated")
  | Some u =>
      match
        match JsGlobal.parseInt id with
        | Some id => MemStorage.getOrder storage id
        | None => None
        end
      with
      | None => respond 404 (Message "Order not found")
      | Some order =>
          if negb (OrderWithItems.userId order =? User.id u) then
            respond 403 (Message "Unauthorized")
          else respond 200 (OrderJson order)
      end
  end.

End Api.

(* ================================================================== *)
(** * [product-grid.tsx]: the page buttons                               *)
(* ================================================================== *)

Module ProductGrid.

(** What the [map] over [[...Array(totalPages)]] returns for an index:
    a numbered button, a disabled ["..."] button, or [null]. *)
Inductive PageItem : Type :=
| PageButton (pageNum : Z)
| Ellipsis (pageNum : Z)
| Nothing.

Definition pageItem (page totalPages : Z) (i : Z) : PageItem :=
  let pageNum := i + 1 in
  (* Show only current page, first/last page, and 1 page on either side of current *)
  if (pageNum =? 1) || (pageNum =? totalPages)
     || (Z.abs (pageNum - page) <=? 1) then
    PageButton pageNum
  else if ((pageNum =? 2) && (3 <? page))
          || ((pageNum =? totalPages - 1) && (page <? totalPages - 2)) then
    (* Show ellipsis *)
    Ellipsis pageNum
  else Nothing.

(** The indices of [[...Array(totalPages)]]. *)
Definition indices (totalPages : Z) : list Z :=
  map Z.of_nat (seq 0 (Z.to_nat totalPages)).

(** The items between the two arrows; nothing is rendered unless
    [totalPages > 1]. *)
Definition pageItems (page totalPages : Z) : list PageItem :=
  if 1 <? totalPages then map (pageItem page totalPages) (indices totalPages)
  else [].

(** [disabled] of the two arrows. *)
Definition previousDisabled (page : Z) : bool := page =? 1.

Definition nextDisabled (page totalPages : Z) : bool := page =? totalPages.

End ProductGrid.

(* ================================================================== *)
(** * The checkout page as a machine                                     *)
(* ================================================================== *)

(** What can happen to [checkoutStep]: the form is submitted, "Back" is
    pressed, or the order request settles.  The request may settle at
    any moment here, which covers every moment it can in the page. *)
Inductive UiEvent : Type :=
| Submitted (values : Checkout.CheckoutFormValues)
| BackPressed
| OrderSucceeded
| OrderFailed (message : string).

Definition uiStep (isEmail : string -> bool) (checkoutStep : Checkout.CheckoutStep)
    (e : UiEvent) : Checkout.CheckoutStep :=
  match e with
  | Submitted values => fst (Checkout.handleSubmit isEmail checkoutStep values)
  | BackPressed => Checkout.handleBack checkoutStep
  | OrderSucceeded => fst (Checkout.onSuccess checkoutStep)
  | OrderFailed message => fst (Checkout.onError checkoutStep message)
  end.

Definition uiRun (isEmail : string -> bool) (checkoutStep : Checkout.CheckoutStep)
    (events : list UiEvent) : Checkout.CheckoutStep :=
  fold_left (uiStep isEmail) events checkoutStep.

(** A sequence of public calls. *)
Definition calls (this : MemStorage.t) (cs : list MemStorage.Call) : MemStorage.t :=
  fold_left MemStorage.call cs this.

(** Stores, users and a form used as examples. *)

(** The seeded store with two of product 19 in the cart of user 1. *)
Definition cartOfOne : MemStorage.t :=
  MemStorage.call MemStorage.storage
    (MemStorage.AddCartItem (InsertCartItem.mk 1 19 2)).

(** The seeded store with two orders of user 1, the second one newer. *)
Definition twoOrders : MemStorage.t :=
  MemStorage.call
    (MemStorage.call MemStorage.storage
       (MemStorage.CreateOrder (InsertOrder.mk 1 "19.99" (Some "pending"))
          [InsertOrderItem.mk 0 19 1 "19.99"] 10))
    (MemStorage.CreateOrder (InsertOrder.mk 1 "49.99" (Some "pending"))
       [InsertOrderItem.mk 0 3 1 "49.99"] 20).

Definition ada : User.t :=
  User.mk 1 "ada" "secret" "ada@example.com" None None 0.

Definition bob : User.t :=
  User.mk 2 "bob" "secret" "bob@example.com" None None 0.

(** The form filled in, paid by PayPal. *)
Definition paypalForm : Checkout.CheckoutFormValues :=
  Checkout.mkValues "Ada" "Byron" "ada@example.com" "555" "1 Main St" "Town"
    "NY" "10001" "United States" Checkout.paypal
    (Some "") (Some "") (Some "") (Some "") (Some "").

(** A string of decimal digits only. *)
Fixpoint isDigits (s : string) : bool :=
  match s with
  | EmptyString => true
  | String c s' =>
      match JsNumber.digit c with
      | Some _ => isDigits s'
      | None => false
      end
  end.

(** Newest first. *)
Definition notOlder (a b : Order.t) : Prop := Order.createdAt b <= Order.createdAt a.

(* ================================================================== *)
(** * Representation invariants                                          *)
(* ================================================================== *)

(** Every table is filled the same way: a row is stored under its own
    [id], ids come from a counter that only grows, and a row is never
    stored under an id the counter has not passed yet. *)
Definition keyedBy {V : Type} (idOf : V -> Z) (m : JsMap.t V) : Prop :=
  Forall (fun e => fst e = idOf (snd e)) m.

Definition ascending {V : Type} (m : JsMap.t V) : Prop :=
  StronglySorted Z.lt (JsMap.keys m).

Definition below {V : Type} (next : Z) (m : JsMap.t V) : Prop :=
  Forall (fun k => k < next) (JsMap.keys m).

Definition tableOk {V : Type} (idOf : V -> Z) (next : Z) (m : JsMap.t V) : Prop :=
  keyedBy idOf m /\ ascending m /\ below next m.

(** The (user, product) pair of a cart row. *)
Definition cartKey (item : CartItem.t) : Z * Z :=
  (CartItem.userId item, CartItem.productId item).

(** At most one cart row per (user, product) pair. *)
Definition cartUnique (m : JsMap.t CartItem.t) : Prop :=
  NoDup (map cartKey (JsMap.values m)).

(** Every order line belongs to an order id already handed out. *)
Definition linesLinked (this : MemStorage.t) : Prop :=
  Forall (fun item => OrderItem.orderId item < MemStorage.orderId this)
         (JsMap.values (MemStorage.orderItems this)).

Record storeOk (this : MemStorage.t) : Prop := mkStoreOk {
  ok_users : tableOk User.id (MemStorage.userId this) (MemStorage.users this);
  ok_products :
    tableOk Product.id (MemStorage.productId this) (MemStorage.products this);
  ok_categories :
    tableOk Category.id (MemStorage.categoryId this) (MemStorage.categories this);
  ok_cartItems :
    tableOk CartItem.id (MemStorage.cartItemId this) (MemStorage.cartItems this);
  ok_cartUnique : cartUnique (MemStorage.cartItems this);
  ok_orders : tableOk Order.id (MemStorage.orderId this) (MemStorage.orders this);
  ok_orderItems :
    tableOk OrderItem.id (MemStorage.orderItemId this) (MemStorage.orderItems this);
  ok_linked : linesLinked this
}.

(** Two neighbours are in the order of a comparator when it does not
    ask for the first to go after the second. *)
Definition inOrder {A : Type} (cmp : A -> A -> Z) (x y : A) : Prop :=
  cmp x y <= 0.

(** The cart part of the invariant, which the cart methods maintain. *)
Definition cartOk (this : MemStorage.t) : Prop :=
  tableOk CartItem.id (MemStorage.cartItemId this) (MemStorage.cartItems this)
  /\ cartUnique (MemStorage.cartItems this).

(** The rows [createOrder] appends for [items], numbered from [n]. *)
Fixpoint newOrderItems (id n : Z) (items : list InsertOrderItem.t)
  : JsMap.t OrderItem.t :=
  match items with
  | [] => []
  | item :: rest =>
      (n, OrderItem.mk n id (InsertOrderItem.productId item)
            (InsertOrderItem.quantity item) (InsertOrderItem.price item))
      :: newOrderItems id (n + 1) rest
  end.

(** A cart row joined with a product, as [getCartItems] returns it. *)
Definition joinCart (product : option Product.t) (item : CartItem.t)
  : CartItemWithProduct.t :=
  CartItemWithProduct.mk (CartItem.id item) (CartItem.userId item)
    (CartItem.productId item) (CartItem.quantity item) product.

Definition joinOrderItem (product : option Product.t) (item : OrderItem.t)
  : OrderItemWithProduct.t :=
  OrderItemWithProduct.mk (OrderItem.id item) (OrderItem.orderId item)
    (OrderItem.productId item) (OrderItem.quantity item) (OrderItem.price item)
    product.

(* ================================================================== *)
(** * Notions used to state the properties                               *)
(* ================================================================== *)

(** The options object of a listing handed to [getProductCount], which
    reads its [categoryId] and [search] only. *)
Definition asCountOptions (options : ProductOptions.t) : CountOptions.t :=
  CountOptions.mk (ProductOptions.categoryId options)
                  (ProductOptions.search options).

(** The same options with [offset] and [limit] removed. *)
Definition withoutPaging (options : option ProductOptions.t)
  : option ProductOptions.t :=
  match options with
  | Some o =>
      Some (ProductOptions.mk (ProductOptions.categoryId o)
              (ProductOptions.featured o) None None (ProductOptions.search o)
              (ProductOptions.sort o))
  | None => None
  end.

(** The three stages of a listing, named after the comments of
    [getProducts]: filters, sorting, pagination. *)
Definition filterStage (this : MemStorage.t) (options : option ProductOptions.t)
  : list Product.t :=
  filter
    (fun p =>
       match optChain options ProductOptions.categoryId with
       | Some c => (c =? 0) || (Product.categoryId p =? c)
       | None => true
       end
       && (negb (truthyBool (optChain options ProductOptions.featured))
           || truthyBool (Product.isFeatured p))
       && match optChain options ProductOptions.search with
          | Some s =>
              negb (JsString.truthy s)
              || MemStorage.matchesSearch (JsString.toLowerCase s) p
          | None => true
          end)
    (JsMap.values (MemStorage.products this)).

(** The comparator the [switch] selects; none when the key is absent or
    empty. *)
Definition comparatorOf (key : option string)
  : option (Product.t -> Product.t -> Z) :=
  match key with
  | Some k =>
      if JsString.truthy k then
        Some (if String.eqb k "price-asc" then MemStorage.byPriceAsc
              else if String.eqb k "price-desc" then MemStorage.byPriceDesc
              else if String.eqb k "newest" then MemStorage.byNewest
              else if String.eqb k "rating" then MemStorage.byRating
              else MemStorage.byId)
      else None
  | None => None
  end.

Definition sortStage (options : option ProductOptions.t) (l : list Product.t)
  : list Product.t :=
  match comparatorOf (optChain options ProductOptions.sort) with
  | Some cmp => JsArray.sort cmp l
  | None => l
  end.

Definition pageStage (options : option ProductOptions.t) (l : list Product.t)
  : list Product.t :=
  match optChain options ProductOptions.offset,
        optChain options ProductOptions.limit with
  | Some offset, Some limit => JsArray.slice l offset (offset + limit)
  | _, _ => l
  end.

(** The order part of the invariant. *)
Definition ordersOk (this : MemStorage.t) : Prop :=
  tableOk Order.id (MemStorage.orderId this) (MemStorage.orders this)
  /\ tableOk OrderItem.id (MemStorage.orderItemId this) (MemStorage.orderItems this)
  /\ linesLinked this.

(** The stored lines of an order, in insertion order. *)
Definition linesOf (this : MemStorage.t) (id : Z) : list OrderItem.t :=
  filter (fun item => OrderItem.orderId item =? id)
         (JsMap.values (MemStorage.orderItems this)).

(** The store holds [order] with exactly the lines [rows]. *)
Definition holdsOrder (order : Order.t) (rows : list OrderItem.t)
    (this : MemStorage.t) : Prop :=
  ordersOk this
  /\ JsMap.get (MemStorage.orders this) (Order.id order) = Some order
  /\ Order.id order < MemStorage.orderId this
  /\ linesOf this (Order.id order) = rows.

(** A card field left empty: absent or the empty string. *)
Definition blank (field : option string) : Prop := truthyString field = false.

(** The rows of a (user, product) pair. *)
Definition rowsOf (u p : Z) (m : JsMap.t CartItem.t) : list CartItem.t :=
  filter (fun item => (CartItem.userId item =? u) && (CartItem.productId item =? p))
         (JsMap.values m).

(** Ascending by id. *)
Definition idLt (a b : Product.t) : Prop := Product.id a < Product.id b.

(* ================================================================== *)
(** * Facts about the runtime notions                                    *)
(* ================================================================== *)

Section JsMapFacts.

Context {V : Type}.
Implicit Types (m : JsMap.t V) (k : Z) (v : V).

Lemma get_In m k v : JsMap.get m k = Some v -> In (k, v) m.
Proof.
  induction m as [|[k' v'] m IH]; simpl; [discriminate|].
  destruct (Z.eqb_spec k' k) as [->|Hne]; intros H.
  - left. congruence.
  - right. auto.
Qed.

Lemma In_get m k v : JsMap.wf m -> In (k, v) m -> JsMap.get m k = Some v.
Proof.
  unfold JsMap.wf, JsMap.keys.
  induction m as [|[k' v'] m IH]; simpl; [tauto|].
  intros Hnd [Heq|Hin].
  - inversion Heq; subst. now rewrite Z.eqb_refl.
  - inversion Hnd as [|? ? Hnotin Hnd']; subst.
    destruct (Z.eqb_spec k' k) as [->|Hne]; [|auto].
    exfalso. apply Hnotin. now apply (in_map fst) in Hin.
Qed.

Lemma get_None_notin m k : JsMap.get m k = None -> ~ In k (JsMap.keys m).
Proof.
  induction m as [|[k' v'] m IH]; simpl; [tauto|].
  destruct (Z.eqb_spec k' k); [discriminate|].
  intros H [Hk|Hk]; [congruence|]. now apply IH.
Qed.

(** Setting a key that is not there appends. *)
Lemma set_fresh m k v : ~ In k (JsMap.keys m) -> JsMap.set m k v = m ++ [(k, v)].
Proof.
  induction m as [|[k' v'] m IH]; simpl; [reflexivity|].
  intros Hnotin. destruct (Z.eqb_spec k' k) as [->|Hne]; [tauto|].
  f_equal. apply IH. tauto.
Qed.

Lemma below_notin next m : below next m -> ~ In next (JsMap.keys m).
Proof.
  unfold below. rewrite Forall_forall. intros H Hin.
  specialize (H _ Hin). lia.
Qed.

(** Setting a key that is there keeps the keys. *)
Lemma set_present_keys m k v :
  In k (JsMap.keys m) -> JsMap.keys (JsMap.set m k v) = JsMap.keys m.
Proof.
  induction m as [|[k' v'] m IH]; simpl; [tauto|].
  intros Hin. destruct (Z.eqb_spec k' k) as [->|Hne]; simpl; [reflexivity|].
  f_equal. apply IH. destruct Hin; [congruence|assumption].
Qed.

(** Replacing the value of a key by one with the same image under [f]
    keeps the images of the values. *)
Lemma set_same_image {B : Type} (f : V -> B) m k v v0 :
  JsMap.get m k = Some v0 -> f v = f v0 ->
  map f (JsMap.values (JsMap.set m k v)) = map f (JsMap.values m).
Proof.
  induction m as [|[k' v'] m IH]; simpl; [discriminate|].
  destruct (Z.eqb_spec k' k) as [->|Hne]; simpl; intros Hget Hf.
  - inversion Hget; subst. now rewrite Hf.
  - f_equal. now apply IH.
Qed.

Lemma keyedBy_set (idOf : V -> Z) m k v :
  keyedBy idOf m -> idOf v = k -> keyedBy idOf (JsMap.set m k v).
Proof.
  unfold keyedBy. induction m as [|[k' v'] m IH]; simpl; intros Hm Hk.
  - constructor; [now simpl|constructor].
  - inversion Hm as [|? ? Hhd Htl]; clear Hm.
    destruct (k' =? k); constructor; simpl; auto.
Qed.

Lemma ascending_wf m : ascending m -> JsMap.wf m.
Proof.
  unfold ascending, JsMap.wf. induction 1 as [|a l Hl IH Ha]; constructor; auto.
  intros Hin. rewrite Forall_forall in Ha. specialize (Ha _ Hin). lia.
Qed.

Lemma ascending_snoc m k v : ascending m -> below k m -> ascending (m ++ [(k, v)]).
Proof.
  unfold ascending, below, JsMap.keys. rewrite map_app. simpl.
  induction 1 as [|a l Hl IH Ha]; simpl; intros Hb.
  - repeat constructor.
  - inversion Hb; subst. constructor; [auto|].
    apply Forall_app. split; [assumption|]. repeat constructor. assumption.
Qed.

Lemma below_weaken next next' m : below next m -> next <= next' -> below next' m.
Proof.
  unfold below. intros H Hle. eapply Forall_impl; [|exact H].
  simpl. intros. lia.
Qed.

(** Storing a new row under the counter's value. *)
Lemma tableOk_insert (idOf : V -> Z) next m v :
  tableOk idOf next m -> idOf v = next ->
  JsMap.set m next v = m ++ [(next, v)]
  /\ tableOk idOf (next + 1) (JsMap.set m next v).
Proof.
  intros (Hk & Ha & Hb) Hid.
  assert (Hset : JsMap.set m next v = m ++ [(next, v)])
    by (apply set_fresh, below_notin, Hb).
  split; [exact Hset|]. repeat split.
  - now apply keyedBy_set.
  - rewrite Hset. now apply ascending_snoc.
  - rewrite Hset. unfold below, JsMap.keys in *. rewrite map_app.
    apply Forall_app. split.
    + eapply Forall_impl; [|exact Hb]. simpl. intros. lia.
    + repeat constructor. simpl. lia.
Qed.

(** Overwriting the row of an id that is present. *)
Lemma tableOk_update (idOf : V -> Z) next m k v :
  tableOk idOf next m -> In k (JsMap.keys m) -> idOf v = k ->
  tableOk idOf next (JsMap.set m k v).
Proof.
  intros (Hk & Ha & Hb) Hin Hid. repeat split.
  - now apply keyedBy_set.
  - unfold ascending. now rewrite set_present_keys.
  - unfold below. now rewrite set_present_keys.
Qed.

Lemma keys_filter_sorted (p : Z * V -> bool) m :
  ascending m -> ascending (filter p m).
Proof.
  unfold ascending, JsMap.keys.
  induction m as [|e m IH]; simpl; intros H; [constructor|].
  inversion H as [|? ? Hs Hf]; subst.
  destruct (p e); simpl; [|auto].
  constructor; [auto|].
  rewrite Forall_forall in *. intros x Hx. apply Hf.
  rewrite in_map_iff in *. destruct Hx as (y & <- & Hy).
  exists y. split; [reflexivity|]. now apply filter_In in Hy.
Qed.

Lemma tableOk_filter (idOf : V -> Z) next (p : Z * V -> bool) m :
  tableOk idOf next m -> tableOk idOf next (filter p m).
Proof.
  intros (Hk & Ha & Hb). repeat split.
  - unfold keyedBy in *. rewrite Forall_forall in *.
    intros e He. apply Hk. now apply filter_In in He.
  - now apply keys_filter_sorted.
  - unfold below, JsMap.keys in *. rewrite Forall_forall in *.
    intros k Hin. apply Hb. rewrite in_map_iff in *.
    destruct Hin as (y & <- & Hy). exists y. split; [reflexivity|].
    now apply filter_In in Hy.
Qed.

Lemma tableOk_delete (idOf : V -> Z) next m k :
  tableOk idOf next m -> tableOk idOf next (JsMap.delete m k).
Proof. apply tableOk_filter. Qed.

Lemma In_values m v : In v (JsMap.values m) -> exists k, In (k, v) m.
Proof.
  unfold JsMap.values. rewrite in_map_iff. intros ([k v'] & Heq & Hin).
  simpl in Heq. subst. now exists k.
Qed.

Lemma keyedBy_In (idOf : V -> Z) m k v :
  keyedBy idOf m -> In (k, v) m -> k = idOf v.
Proof.
  unfold keyedBy. rewrite Forall_forall. intros H Hin. exact (H _ Hin).
Qed.

(** Under the invariant a stored row is found under its own id. *)
Lemma get_own_id (idOf : V -> Z) next m v :
  tableOk idOf next m -> In v (JsMap.values m) -> JsMap.get m (idOf v) = Some v.
Proof.
  intros (Hk & Ha & _) Hin. destruct (In_values _ _ Hin) as (k & Hk').
  rewrite <- (keyedBy_In _ _ _ _ Hk Hk').
  apply In_get; [now apply ascending_wf|assumption].
Qed.

Lemma get_app_l m m' k v :
  JsMap.get m k = Some v -> JsMap.get (m ++ m') k = Some v.
Proof.
  induction m as [|[k' v'] m IH]; simpl; [discriminate|].
  destruct (k' =? k); auto.
Qed.

End JsMapFacts.

Section ListFacts.

Context {A : Type}.

Lemma filter_filter (p q : A -> bool) (l : list A) :
  filter p (filter q l) = filter (fun x => q x && p x) l.
Proof.
  induction l as [|a l IH]; simpl; [reflexivity|].
  destruct (q a); simpl; [destruct (p a)|]; now rewrite IH.
Qed.

Lemma filter_all (p : A -> bool) (l : list A) :
  (forall x, In x l -> p x = true) -> filter p l = l.
Proof.
  induction l as [|a l IH]; simpl; intros H; [reflexivity|].
  rewrite (H a) by now left. f_equal. apply IH. auto.
Qed.

Lemma filter_none (p : A -> bool) (l : list A) :
  (forall x, In x l -> p x = false) -> filter p l = [].
Proof.
  induction l as [|a l IH]; simpl; intros H; [reflexivity|].
  rewrite (H a) by now left. apply IH. auto.
Qed.

Lemma NoDup_map_filter {B : Type} (key : A -> B) (keep : A -> bool)
  (rows : list A) (Hnd : NoDup (map key rows)) :
  NoDup (map key (filter keep rows)).
Proof.
revert Hnd. induction rows as [|a rows IH]; simpl; intros H; [constructor|].
inversion H as [|? ? Hnotin Hnd]; subst.
destruct (keep a); simpl; [|auto].
constructor; [|auto].
intros Hin. apply Hnotin. rewrite in_map_iff in *.
destruct Hin as (x & Hx & Hin). exists x. split; [assumption|].
now apply filter_In in Hin.
Qed.

Lemma NoDup_snoc (l : list A) (a : A) : NoDup l -> ~ In a l -> NoDup (l ++ [a]).
Proof.
  induction l as [|b l IH]; simpl; intros Hnd Hnotin.
  - constructor; [tauto|constructor].
  - inversion Hnd; subst. constructor.
    + rewrite in_app_iff. simpl. intuition congruence.
    + apply IH; tauto.
Qed.

Lemma find_In (p : A -> bool) (l : list A) (a : A) :
  find p l = Some a -> In a l /\ p a = true.
Proof. apply find_some. Qed.

(** [find] returns the first element that satisfies the test. *)
Lemma find_app_fresh (p : A -> bool) (l : list A) (a : A) :
  find p l = None -> p a = true -> find p (l ++ [a]) = Some a.
Proof.
  induction l as [|b l IH]; simpl; intros Hf Hp.
  - now rewrite Hp.
  - destruct (p b); [discriminate|auto].
Qed.

End ListFacts.

Section SortFacts.

Context {A : Type} (cmp : A -> A -> Z).

Lemma length_insert (x : A) (l : list A) :
  List.length (JsArray.insert cmp x l) = S (List.length l).
Proof.
  induction l as [|y l IH]; simpl; [reflexivity|].
  destruct (0 <? cmp x y); simpl; now rewrite ?IH.
Qed.

(** Sorting keeps the number of elements. *)
Lemma length_sort (l : list A) :
  List.length (JsArray.sort cmp l) = List.length l.
Proof.
  induction l as [|x l IH]; simpl; [reflexivity|].
  unfold JsArray.sort in *. simpl. now rewrite length_insert, IH.
Qed.

(** A list already in order is left as it is. *)
Lemma sort_sorted (l : list A) : Sorted (inOrder cmp) l -> JsArray.sort cmp l = l.
Proof.
  unfold JsArray.sort.
  induction 1 as [|x l Hs IH Hhd]; simpl; [reflexivity|].
  rewrite IH. destruct Hhd as [|y l' Hxy]; simpl; [reflexivity|].
  unfold inOrder in Hxy.
  destruct (Z.ltb_spec 0 (cmp x y)); [lia|reflexivity].
Qed.

Lemma insert_In (x a : A) (l : list A) :
  In a (JsArray.insert cmp x l) <-> a = x \/ In a l.
Proof.
  induction l as [|y l IH]; simpl; [intuition congruence|].
  destruct (0 <? cmp x y); simpl; rewrite ?IH; intuition congruence.
Qed.

Lemma insert_sorted (x : A) (l : list A) :
  (forall a b, 0 < cmp a b -> cmp b a <= 0) ->
  Sorted (inOrder cmp) l -> Sorted (inOrder cmp) (JsArray.insert cmp x l).
Proof.
  intros Hanti. induction 1 as [|y l Hs IH Hhd]; simpl.
  - repeat constructor.
  - destruct (Z.ltb_spec 0 (cmp x y)) as [Hlt|Hge].
    + constructor; [assumption|].
      destruct l as [|z l]; simpl.
      * constructor. now apply Hanti.
      * inversion Hhd; subst.
        destruct (0 <? cmp x z); constructor; [assumption|now apply Hanti].
    + constructor; [now constructor|]. now constructor.
Qed.

(** For a comparator that never claims both [a > b] and [b > a], the
    result of [sort] is in comparator order. *)
Lemma sort_is_sorted (l : list A) :
  (forall a b, 0 < cmp a b -> cmp b a <= 0) ->
  Sorted (inOrder cmp) (JsArray.sort cmp l).
Proof.
  intros Hanti. unfold JsArray.sort.
  induction l as [|x l IH]; simpl; [constructor|].
  now apply insert_sorted.
Qed.

End SortFacts.

(* ================================================================== *)
(** * Facts about the cart methods                                       *)
(* ================================================================== *)

Lemma getCartItems_eq (this : MemStorage.t) (userId : Z) :
  MemStorage.getCartItems this userId
  = map (fun item =>
           joinCart (MemStorage.getProduct this (CartItem.productId item)) item)
        (filter (fun item => CartItem.userId item =? userId)
                (JsMap.values (MemStorage.cartItems this))).
Proof. reflexivity. Qed.

Lemma getCartItem_Some (this : MemStorage.t) (u p : Z) (e : CartItem.t) :
  MemStorage.getCartItem this u p = Some e ->
  In e (JsMap.values (MemStorage.cartItems this)) /\ cartKey e = (u, p).
Proof.
  unfold MemStorage.getCartItem. intros H. apply find_some in H.
  destruct H as [Hin Hp]. split; [assumption|].
  apply andb_prop in Hp. destruct Hp as [Hu Hq].
  apply Z.eqb_eq in Hu, Hq. unfold cartKey. congruence.
Qed.

Lemma getCartItem_None (this : MemStorage.t) (u p : Z) :
  MemStorage.getCartItem this u p = None ->
  ~ In (u, p) (map cartKey (JsMap.values (MemStorage.cartItems this))).
Proof.
  unfold MemStorage.getCartItem. intros H Hin.
  rewrite in_map_iff in Hin. destruct Hin as (e & Hk & He).
  pose proof (find_none _ _ H _ He) as Hf. simpl in Hf.
  unfold cartKey in Hk. inversion Hk; subst.
  now rewrite !Z.eqb_refl in Hf.
Qed.

Lemma values_app {V : Type} (m m' : JsMap.t V) :
  JsMap.values (m ++ m') = JsMap.values m ++ JsMap.values m'.
Proof. apply map_app. Qed.

Lemma get_keys {V : Type} (m : JsMap.t V) (k : Z) (v : V) :
  JsMap.get m k = Some v -> In k (JsMap.keys m).
Proof. intros H. apply get_In in H. now apply (in_map fst) in H. Qed.

(** The two outcomes of [addCartItem], on the cart table. *)
Lemma addCartItem_existing (this : MemStorage.t) (c : InsertCartItem.t)
    (e : CartItem.t) :
  MemStorage.getCartItem this (InsertCartItem.userId c)
                              (InsertCartItem.productId c) = Some e ->
  MemStorage.addCartItem this c
  = (MemStorage.setCartItems this
       (JsMap.set (MemStorage.cartItems this) (CartItem.id e)
          (CartItem.mk (CartItem.id e) (CartItem.userId e) (CartItem.productId e)
             (CartItem.quantity e + InsertCartItem.quantity c)))
       (MemStorage.cartItemId this),
     CartItem.mk (CartItem.id e) (CartItem.userId e) (CartItem.productId e)
       (CartItem.quantity e + InsertCartItem.quantity c)).
Proof. intros H. unfold MemStorage.addCartItem. now rewrite H. Qed.

Lemma addCartItem_new (this : MemStorage.t) (c : InsertCartItem.t) :
  MemStorage.getCartItem this (InsertCartItem.userId c)
                              (InsertCartItem.productId c) = None ->
  MemStorage.addCartItem this c
  = (MemStorage.setCartItems this
       (JsMap.set (MemStorage.cartItems this) (MemStorage.cartItemId this)
          (CartItem.mk (MemStorage.cartItemId this) (InsertCartItem.userId c)
             (InsertCartItem.productId c) (InsertCartItem.quantity c)))
       (MemStorage.cartItemId this + 1),
     CartItem.mk (MemStorage.cartItemId this) (InsertCartItem.userId c)
       (InsertCartItem.productId c) (InsertCartItem.quantity c)).
Proof. intros H. unfold MemStorage.addCartItem. now rewrite H. Qed.

Ltac cart_fields :=
  unfold cartOk;
  cbn [fst snd MemStorage.cartItems MemStorage.cartItemId MemStorage.setCartItems].

Lemma addCartItem_cartOk (this : MemStorage.t) (c : InsertCartItem.t) :
  cartOk this -> cartOk (fst (MemStorage.addCartItem this c)).
Proof.
  intros [Hok Huniq].
  destruct (MemStorage.getCartItem this (InsertCartItem.userId c)
              (InsertCartItem.productId c)) as [e|] eqn:Hfind.
  - rewrite (addCartItem_existing _ _ _ Hfind). cart_fields.
    destruct (getCartItem_Some _ _ _ _ Hfind) as [Hin _].
    pose proof (get_own_id _ _ _ _ Hok Hin) as Hget.
    split.
    + apply tableOk_update; [assumption| |reflexivity].
      eapply get_keys; eassumption.
    + unfold cartUnique.
      rewrite (set_same_image cartKey _ _ _ e); [assumption|assumption|reflexivity].
  - rewrite (addCartItem_new _ _ Hfind). cart_fields.
    destruct (tableOk_insert CartItem.id _ _
                (CartItem.mk (MemStorage.cartItemId this) (InsertCartItem.userId c)
                   (InsertCartItem.productId c) (InsertCartItem.quantity c))
                Hok eq_refl) as [Hset Hok'].
    split; [assumption|].
    unfold cartUnique. rewrite Hset, values_app, map_app. simpl.
    apply NoDup_snoc; [assumption|].
    now apply getCartItem_None.
Qed.

Lemma updateCartItem_cartOk (this : MemStorage.t) (id quantity : Z) :
  cartOk this -> cartOk (fst (MemStorage.updateCartItem this id quantity)).
Proof.
  intros [Hok Huniq]. unfold MemStorage.updateCartItem.
  destruct (JsMap.get (MemStorage.cartItems this) id) as [cartItem|] eqn:Hget;
    cart_fields; [|now split].
  assert (Hid : CartItem.id cartItem = id).
  { destruct Hok as (Hk & _). symmetry.
    eapply keyedBy_In; [exact Hk|]. now apply get_In. }
  split.
  - apply tableOk_update; [assumption| |assumption].
    eapply get_keys; eassumption.
  - unfold cartUnique.
    rewrite (set_same_image cartKey _ _ _ cartItem); [assumption|assumption|reflexivity].
Qed.

Lemma delete_cartOk (next : Z) (m : JsMap.t CartItem.t) (p : Z * CartItem.t -> bool) :
  tableOk CartItem.id next m /\ cartUnique m ->
  tableOk CartItem.id next (filter p m) /\ cartUnique (filter p m).
Proof.
  intros [Hok Huniq]. split; [now apply tableOk_filter|].
  unfold cartUnique, JsMap.values in *. rewrite map_map in *.
  now apply NoDup_map_filter.
Qed.

Lemma removeCartItem_cartOk (this : MemStorage.t) (id : Z) :
  cartOk this -> cartOk (MemStorage.removeCartItem this id).
Proof. intros H. unfold MemStorage.removeCartItem. cart_fields. now apply delete_cartOk. Qed.

(** [clearCart] on the cart table: the loop of deletions, then what it
    amounts to. *)
Lemma clearCart_fold (items : list CartItem.t) (this : MemStorage.t) :
  fold_left (fun this item =>
               MemStorage.setCartItems this
                 (JsMap.delete (MemStorage.cartItems this) (CartItem.id item))
                 (MemStorage.cartItemId this))
            items this
  = MemStorage.setCartItems this
      (fold_left (fun m item => JsMap.delete m (CartItem.id item)) items
                 (MemStorage.cartItems this))
      (MemStorage.cartItemId this).
Proof.
  revert this. induction items as [|item items IH]; intros this; simpl.
  - now destruct this.
  - now rewrite IH.
Qed.

Lemma deletes_filter {V : Type} (ids : list Z) (m : JsMap.t V) :
  fold_left (fun m id => JsMap.delete m id) ids m
  = filter (fun e => forallb (fun id => negb (fst e =? id)) ids) m.
Proof.
  revert m. induction ids as [|id ids IH]; intros m; simpl.
  - symmetry. now apply filter_all.
  - rewrite IH. unfold JsMap.delete. now rewrite filter_filter.
Qed.

Lemma fold_left_map {A B C : Type} (f : A -> B -> A) (g : C -> B) (l : list C) (a : A) :
  fold_left (fun acc x => f acc (g x)) l a = fold_left f (map g l) a.
Proof. revert a. induction l; simpl; auto. Qed.

Lemma clearCart_cartItems (this : MemStorage.t) (u : Z) :
  tableOk CartItem.id (MemStorage.cartItemId this) (MemStorage.cartItems this) ->
  MemStorage.clearCart this u
  = MemStorage.setCartItems this
      (filter (fun e => negb (CartItem.userId (snd e) =? u))
              (MemStorage.cartItems this))
      (MemStorage.cartItemId this).
Proof.
  intros Hok. unfold MemStorage.clearCart. rewrite clearCart_fold. f_equal.
  rewrite (fold_left_map (fun m id => JsMap.delete m id) CartItem.id).
  rewrite deletes_filter. apply filter_ext_in.
  intros [k v] Hin. simpl.
  assert (Hk : k = CartItem.id v) by (destruct Hok as (Hk & _); eapply keyedBy_In; eauto).
  destruct (Z.eqb_spec (CartItem.userId v) u) as [Hu|Hu]; simpl.
  - apply not_true_is_false. intros Hall.
    rewrite forallb_forall in Hall.
    assert (Hin' : In k (map CartItem.id
              (filter (fun item => CartItem.userId item =? u)
                 (JsMap.values (MemStorage.cartItems this))))).
    { rewrite Hk. apply in_map. apply filter_In. split.
      - now apply (in_map snd) in Hin.
      - now apply Z.eqb_eq. }
    specialize (Hall k Hin'). rewrite Z.eqb_refl in Hall. discriminate.
  - apply forallb_forall. intros id Hid.
    rewrite in_map_iff in Hid. destruct Hid as (w & <- & Hw).
    apply filter_In in Hw. destruct Hw as [Hw Hwu]. apply Z.eqb_eq in Hwu.
    destruct (Z.eqb_spec k (CartItem.id w)) as [Heq|]; [|reflexivity].
    exfalso. pose proof (get_own_id _ _ _ _ Hok Hw) as Hget.
    destruct Hok as (_ & Ha & _).
    pose proof (In_get _ _ _ (ascending_wf _ Ha) Hin) as Hget'.
    rewrite Heq in Hget'. congruence.
Qed.

Lemma clearCart_cartOk (this : MemStorage.t) (u : Z) :
  cartOk this -> cartOk (MemStorage.clearCart this u).
Proof.
  intros [Hok Huniq]. rewrite clearCart_cartItems by assumption.
  cart_fields. now apply delete_cartOk.
Qed.

(* ================================================================== *)
(** * Facts about the order methods                                      *)
(* ================================================================== *)

Lemma newOrderItems_length (id n : Z) (items : list InsertOrderItem.t) :
  List.length (newOrderItems id n items) = List.length items.
Proof. revert n. induction items; simpl; intros; [reflexivity|now rewrite IHitems]. Qed.

Lemma newOrderItems_orderId (id n : Z) (items : list InsertOrderItem.t) :
  Forall (fun item => OrderItem.orderId item = id)
         (JsMap.values (newOrderItems id n items)).
Proof.
  revert n. induction items as [|item items IH]; intros n; simpl; constructor.
  - reflexivity.
  - apply IH.
Qed.

Lemma newOrderItems_prices (id n : Z) (items : list InsertOrderItem.t) :
  map OrderItem.price (JsMap.values (newOrderItems id n items))
  = map InsertOrderItem.price items.
Proof.
  revert n. induction items as [|item items IH]; intros n; simpl; [reflexivity|].
  f_equal. apply IH.
Qed.

(** The loop of [createOrder] appends one row per item. *)
Lemma addOrderItems_spec (id : Z) (items : list InsertOrderItem.t) :
  forall this : MemStorage.t,
    tableOk OrderItem.id (MemStorage.orderItemId this) (MemStorage.orderItems this) ->
    fold_left (MemStorage.addOrderItem id) items this
    = MemStorage.setOrderItems this
        (MemStorage.orderItems this
         ++ newOrderItems id (MemStorage.orderItemId this) items)
        (MemStorage.orderItemId this + Z.of_nat (List.length items))
    /\ tableOk OrderItem.id
         (MemStorage.orderItemId this + Z.of_nat (List.length items))
         (MemStorage.orderItems this
          ++ newOrderItems id (MemStorage.orderItemId this) items).
Proof.
  induction items as [|item items IH]; intros this Hok.
  - simpl. rewrite app_nil_r, Z.add_0_r. split; [now destruct this|assumption].
  - cbn [fold_left newOrderItems List.length].
    set (row := OrderItem.mk (MemStorage.orderItemId this) id
                  (InsertOrderItem.productId item) (InsertOrderItem.quantity item)
                  (InsertOrderItem.price item)).
    destruct (tableOk_insert OrderItem.id _ _ row Hok eq_refl) as [Hset Hok'].
    assert (Hstep : MemStorage.addOrderItem id this item
                    = MemStorage.setOrderItems this
                        (MemStorage.orderItems this
                         ++ [(MemStorage.orderItemId this, row)])
                        (MemStorage.orderItemId this + 1)).
    { unfold MemStorage.addOrderItem. fold row. now rewrite Hset. }
    rewrite Hstep. rewrite Hset in Hok'.
    specialize (IH (MemStorage.setOrderItems this
                      (MemStorage.orderItems this
                       ++ [(MemStorage.orderItemId this, row)])
                      (MemStorage.orderItemId this + 1))).
    cbn [MemStorage.orderItems MemStorage.orderItemId MemStorage.setOrderItems] in IH.
    destruct (IH Hok') as [Heq Hok''].
    rewrite Heq.
    replace (MemStorage.orderItemId this + 1 + Z.of_nat (List.length items))
      with (MemStorage.orderItemId this + Z.of_nat (S (List.length items)))
      in * by lia.
    rewrite <- app_assoc in *. cbn [app] in *.
    split; [|assumption].
    unfold MemStorage.setOrderItems. now destruct this.
Qed.

(** [createOrder] under the invariant: one order row and one row per
    item are appended, nothing else changes. *)
Lemma createOrder_spec (this : MemStorage.t) (orderData : InsertOrder.t)
    (items : list InsertOrderItem.t) (now : Z) :
  tableOk Order.id (MemStorage.orderId this) (MemStorage.orders this) ->
  tableOk OrderItem.id (MemStorage.orderItemId this) (MemStorage.orderItems this) ->
  let order := Order.mk (MemStorage.orderId this) (InsertOrder.userId orderData)
                 (InsertOrder.total orderData) (InsertOrder.status orderData) now in
  MemStorage.createOrder this orderData items now
  = (MemStorage.mk (MemStorage.users this) (MemStorage.products this)
       (MemStorage.categories this) (MemStorage.cartItems this)
       (MemStorage.orders this ++ [(MemStorage.orderId this, order)])
       (MemStorage.orderItems this
        ++ newOrderItems (MemStorage.orderId this) (MemStorage.orderItemId this) items)
       (MemStorage.userId this) (MemStorage.productId this)
       (MemStorage.categoryId this) (MemStorage.cartItemId this)
       (MemStorage.orderId this + 1)
       (MemStorage.orderItemId this + Z.of_nat (List.length items)),
     order)
  /\ tableOk Order.id (MemStorage.orderId this + 1)
       (MemStorage.orders this ++ [(MemStorage.orderId this, order)])
  /\ tableOk OrderItem.id
       (MemStorage.orderItemId this + Z.of_nat (List.length items))
       (MemStorage.orderItems this
        ++ newOrderItems (MemStorage.orderId this) (MemStorage.orderItemId this) items).
Proof.
  intros Hord Hitems order.
  destruct (tableOk_insert Order.id _ _ order Hord eq_refl) as [Hset Hord'].
  rewrite Hset in Hord'.
  unfold MemStorage.createOrder. fold order. rewrite Hset.
  set (this1 := MemStorage.setOrders this _ _).
  destruct (addOrderItems_spec (MemStorage.orderId this) items this1 Hitems)
    as [Heq Hitems'].
  rewrite Heq. split; [|split; assumption].
  reflexivity.
Qed.

(* ================================================================== *)
(** * The invariant holds in every reachable state                       *)
(* ================================================================== *)

Lemma tableOk_empty {V : Type} (idOf : V -> Z) (next : Z) :
  tableOk idOf next (JsMap.empty : JsMap.t V).
Proof. repeat split; constructor. Qed.

Lemma storeOk_fresh : storeOk MemStorage.fresh.
Proof.
  constructor; try apply tableOk_empty; constructor.
Qed.

Lemma storeOk_seedCategory (this : MemStorage.t) (category : InsertCategory.t) :
  storeOk this -> storeOk (MemStorage.seedCategory this category).
Proof.
  intros []. constructor; try assumption.
  unfold MemStorage.seedCategory.
  cbn [MemStorage.categories MemStorage.categoryId MemStorage.setCategories].
  now apply tableOk_insert.
Qed.

Lemma storeOk_seedProduct (this : MemStorage.t) (product : InsertProduct.t) :
  storeOk this -> storeOk (MemStorage.seedProduct this product).
Proof.
  intros []. constructor; try assumption.
  unfold MemStorage.seedProduct.
  cbn [MemStorage.products MemStorage.productId MemStorage.setProducts].
  now apply tableOk_insert.
Qed.

Lemma storeOk_seedWith (categoryData : list InsertCategory.t)
    (productData : list InsertProduct.t) (this : MemStorage.t) :
  storeOk this -> storeOk (MemStorage.seedWith categoryData productData this).
Proof.
  unfold MemStorage.seedWith. revert this.
  induction categoryData as [|c cs IH]; simpl.
  - induction productData as [|p ps IHp]; simpl; intros this H; [assumption|].
    apply IHp. now apply storeOk_seedProduct.
  - intros this H. apply IH. now apply storeOk_seedCategory.
Qed.

Lemma storage_seeded : MemStorage.storage = MemStorage.seedData MemStorage.fresh.
Proof. vm_compute. reflexivity. Qed.

Lemma storeOk_storage : storeOk MemStorage.storage.
Proof. rewrite storage_seeded. apply storeOk_seedWith, storeOk_fresh. Qed.

Lemma storeOk_setCartItems (this : MemStorage.t) (m : JsMap.t CartItem.t) (next : Z) :
  storeOk this -> tableOk CartItem.id next m /\ cartUnique m ->
  storeOk (MemStorage.setCartItems this m next).
Proof. intros [] [Hok Hu]. constructor; assumption. Qed.

Lemma storeOk_cartOk (this : MemStorage.t) : storeOk this -> cartOk this.
Proof. intros []. now split. Qed.

Lemma storeOk_createUser (this : MemStorage.t) (u : InsertUser.t) (now : Z) :
  storeOk this -> storeOk (fst (MemStorage.createUser this u now)).
Proof.
  intros []. constructor; try assumption.
  unfold MemStorage.createUser.
  cbn [fst MemStorage.users MemStorage.userId MemStorage.setUsers].
  now apply tableOk_insert.
Qed.

Lemma storeOk_addCartItem (this : MemStorage.t) (c : InsertCartItem.t) :
  storeOk this -> storeOk (fst (MemStorage.addCartItem this c)).
Proof.
  intros H. pose proof (addCartItem_cartOk this c (storeOk_cartOk _ H)) as Hc.
  unfold MemStorage.addCartItem in *.
  destruct (MemStorage.getCartItem this _ _); now apply storeOk_setCartItems.
Qed.

Lemma storeOk_updateCartItem (this : MemStorage.t) (id quantity : Z) :
  storeOk this -> storeOk (fst (MemStorage.updateCartItem this id quantity)).
Proof.
  intros H. pose proof (updateCartItem_cartOk this id quantity (storeOk_cartOk _ H)) as Hc.
  unfold MemStorage.updateCartItem in *.
  destruct (JsMap.get _ _); [now apply storeOk_setCartItems|assumption].
Qed.

Lemma storeOk_removeCartItem (this : MemStorage.t) (id : Z) :
  storeOk this -> storeOk (MemStorage.removeCartItem this id).
Proof.
  intros H. apply storeOk_setCartItems; [assumption|].
  apply (removeCartItem_cartOk this id (storeOk_cartOk _ H)).
Qed.

Lemma storeOk_clearCart (this : MemStorage.t) (u : Z) :
  storeOk this -> storeOk (MemStorage.clearCart this u).
Proof.
  intros H. pose proof (clearCart_cartOk this u (storeOk_cartOk _ H)) as Hc.
  rewrite clearCart_cartItems in * by apply H.
  now apply storeOk_setCartItems.
Qed.

Lemma storeOk_createOrder (this : MemStorage.t) (orderData : InsertOrder.t)
    (items : list InsertOrderItem.t) (now : Z) :
  storeOk this -> storeOk (fst (MemStorage.createOrder this orderData items now)).
Proof.
  intros H.
  destruct (createOrder_spec this orderData items now (ok_orders _ H)
              (ok_orderItems _ H)) as (Heq & Hord & Hitems).
  rewrite Heq. destruct H. constructor; try assumption.
  unfold linesLinked in *.
  cbn [fst MemStorage.orderItems MemStorage.orderId].
  rewrite values_app. apply Forall_app. split.
  - eapply Forall_impl; [|eassumption]. simpl. intros. lia.
  - eapply Forall_impl; [|apply newOrderItems_orderId]. simpl. intros. lia.
Qed.

Lemma storeOk_call (this : MemStorage.t) (c : MemStorage.Call) :
  storeOk this -> storeOk (MemStorage.call this c).
Proof.
  destruct c; simpl.
  - apply storeOk_createUser.
  - apply storeOk_addCartItem.
  - apply storeOk_updateCartItem.
  - apply storeOk_removeCartItem.
  - apply storeOk_clearCart.
  - apply storeOk_createOrder.
Qed.

Lemma reachable_storeOk (this : MemStorage.t) :
  MemStorage.reachable this -> storeOk this.
Proof.
  induction 1; [apply storeOk_storage|now apply storeOk_call].
Qed.

(* ================================================================== *)
(** * The catalogue: [getProducts] and [getProductCount]                 *)
(* ================================================================== *)

(** [getProducts] is its three stages in this order. *)
Lemma getProducts_stages (this : MemStorage.t) (options : option ProductOptions.t) :
  MemStorage.getProducts this options
  = pageStage options (sortStage options (filterStage this options)).
Proof.
  unfold MemStorage.getProducts, pageStage, sortStage, filterStage, comparatorOf.
  set (all := JsMap.values (MemStorage.products this)).
  assert (Hfilter :
    (let results := all in
     let results :=
       if truthyNumber (optChain options ProductOptions.categoryId) then
         filter (fun p =>
                   match optChain options ProductOptions.categoryId with
                   | Some c => Product.categoryId p =? c
                   | None => false
                   end) results
       else results in
     let results :=
       if truthyBool (optChain options ProductOptions.featured) then
         filter (fun p => truthyBool (Product.isFeatured p)) results
       else results in
     match optChain options ProductOptions.search with
     | Some s =>
         if JsString.truthy s then
           filter (MemStorage.matchesSearch (JsString.toLowerCase s)) results
         else results
     | None => results
     end)
    = filter
        (fun p =>
           match optChain options ProductOptions.categoryId with
           | Some c => (c =? 0) || (Product.categoryId p =? c)
           | None => true
           end
           && (negb (truthyBool (optChain options ProductOptions.featured))
               || truthyBool (Product.isFeatured p))
           && match optChain options ProductOptions.search with
              | Some s =>
                  negb (JsString.truthy s)
                  || MemStorage.matchesSearch (JsString.toLowerCase s) p
              | None => true
              end) all).
  { cbv zeta.
    destruct (optChain options ProductOptions.categoryId) as [c|];
      destruct (optChain options ProductOptions.featured) as [[|]|];
      destruct (optChain options ProductOptions.search) as [srch|];
      cbn [truthyNumber truthyBool negb orb andb];
      try destruct (c =? 0); try destruct (JsString.truthy srch);
      cbn [negb orb andb];
      rewrite ?filter_filter;
      try (symmetry; apply filter_all; intros; reflexivity);
      apply filter_ext; intros p;
      rewrite ?andb_assoc, ?andb_true_r; reflexivity. }
  cbv zeta in Hfilter. cbv zeta. rewrite <- Hfilter.
  destruct (optChain options ProductOptions.sort) as [key|]; [|reflexivity].
  destruct (JsString.truthy key); [|reflexivity].
  destruct (String.eqb key "price-asc"); [reflexivity|].
  destruct (String.eqb key "price-desc"); [reflexivity|].
  destruct (String.eqb key "newest"); [reflexivity|].
  destruct (String.eqb key "rating"); reflexivity.
Qed.

(** [getProductCount] counts the rows that pass the category and the
    search filter. *)
Lemma getProductCount_filter (this : MemStorage.t) (options : option CountOptions.t) :
  MemStorage.getProductCount this options
  = Z.of_nat
      (List.length
         (filter
            (fun p =>
               match optChain options CountOptions.categoryId with
               | Some c => (c =? 0) || (Product.categoryId p =? c)
               | None => true
               end
               && match optChain options CountOptions.search with
                  | Some s =>
                      negb (JsString.truthy s)
                      || MemStorage.matchesSearch (JsString.toLowerCase s) p
                  | None => true
                  end)
            (JsMap.values (MemStorage.products this)))).
Proof.
  unfold MemStorage.getProductCount, JsMap.size, JsMap.values. cbv zeta.
  destruct (optChain options CountOptions.categoryId) as [c|];
    destruct (optChain options CountOptions.search) as [srch|];
    cbn [truthyNumber truthyString negb orb andb];
    try destruct (c =? 0); try destruct (JsString.truthy srch);
    cbn [negb orb andb];
    rewrite ?filter_filter;
    try (rewrite (filter_all (fun _ => true)) by reflexivity;
         now rewrite length_map);
    do 2 f_equal; apply filter_ext; intros p;
    rewrite ?andb_true_r; reflexivity.
Qed.

(** Without the featured filter the count is the length of the listing. *)
Lemma count_is_length_unless_featured (this : MemStorage.t)
    (options : ProductOptions.t) :
  truthyBool (ProductOptions.featured options) = false ->
  MemStorage.getProductCount this (Some (asCountOptions options))
  = Z.of_nat
      (List.length (MemStorage.getProducts this (withoutPaging (Some options)))).
Proof.
  intros Hf. rewrite getProductCount_filter, getProducts_stages.
  unfold pageStage, sortStage, filterStage. cbn [withoutPaging optChain
    ProductOptions.offset ProductOptions.limit ProductOptions.sort
    ProductOptions.categoryId ProductOptions.featured ProductOptions.search
    asCountOptions CountOptions.categoryId CountOptions.search].
  rewrite Hf. cbn [negb orb].
  assert (Hlen : forall l : list Product.t,
            List.length
              match comparatorOf (ProductOptions.sort options) with
              | Some cmp => JsArray.sort cmp l
              | None => l
              end = List.length l).
  { intros l. destruct (comparatorOf _); [apply length_sort|reflexivity]. }
  rewrite Hlen. do 2 f_equal. apply filter_ext. intros p.
  now rewrite andb_true_r.
Qed.

(** C1. The claim asks that [getProductCount] return the length of the
    unpaged [getProducts] listing for every filter, the featured filter
    included.  [getProductCount] never reads [featured]: on the seeded
    store, for the filter [{ featured: true }], it returns 20 while the
    listing has 7 products. *)
Theorem C1_count_ignores_featured :
  let options := ProductOptions.mk None (Some true) None None None None in
  MemStorage.getProductCount MemStorage.storage (Some (asCountOptions options)) = 20
  /\ Z.of_nat (List.length (MemStorage.getProducts MemStorage.storage
                              (withoutPaging (Some options)))) = 7.
Proof. vm_compute. split; reflexivity. Qed.

(** C9. A [categoryId] of [0], an empty [search] and a [featured] of
    [false] are read as absent: each query returns what the query
    without that field returns, in [getProducts] and in
    [getProductCount] (which is handed the same options and reads no
    [featured] field at all). *)
Theorem C9_falsy_fields_are_absent (this : MemStorage.t)
    (categoryId : option Z) (featured : option bool) (limit offset : option Z)
    (search sort : option string) :
  MemStorage.getProducts this
    (Some (ProductOptions.mk (Some 0) featured limit offset search sort))
  = MemStorage.getProducts this
      (Some (ProductOptions.mk None featured limit offset search sort))
  /\ MemStorage.getProducts this
       (Some (ProductOptions.mk categoryId featured limit offset (Some "") sort))
     = MemStorage.getProducts this
         (Some (ProductOptions.mk categoryId featured limit offset None sort))
  /\ MemStorage.getProducts this
       (Some (ProductOptions.mk categoryId (Some false) limit offset search sort))
     = MemStorage.getProducts this
         (Some (ProductOptions.mk categoryId None limit offset search sort))
  /\ MemStorage.getProductCount this (Some (CountOptions.mk (Some 0) search))
     = MemStorage.getProductCount this (Some (CountOptions.mk None search))
  /\ MemStorage.getProductCount this (Some (CountOptions.mk categoryId (Some "")))
     = MemStorage.getProductCount this (Some (CountOptions.mk categoryId None))
  /\ MemStorage.getProductCount this
       (Some (asCountOptions
                (ProductOptions.mk categoryId (Some false) limit offset search sort)))
     = MemStorage.getProductCount this
         (Some (asCountOptions
                  (ProductOptions.mk categoryId None limit offset search sort))).
Proof.
  repeat split; reflexivity.
Qed.

(** Rows stored under ascending ids are listed in ascending id order. *)
Lemma values_idLt (next : Z) (m : JsMap.t Product.t) :
  tableOk Product.id next m -> StronglySorted idLt (JsMap.values m).
Proof.
  intros (Hk & Ha & _). unfold ascending, keyedBy, JsMap.keys, JsMap.values in *.
  induction m as [|[k v] m IH]; simpl in *; [constructor|].
  inversion Hk as [|? ? Hkv Hk']; subst. inversion Ha as [|? ? Ha' Hall]; subst.
  constructor; [auto|].
  rewrite Forall_forall in *. intros w Hw.
  rewrite in_map_iff in Hw. destruct Hw as ([k' w'] & Heq & Hin).
  simpl in Heq. subst w'. unfold idLt.
  pose proof (Hk' _ Hin) as Hkw. simpl in Hkv, Hkw.
  rewrite <- Hkv, <- Hkw.
  apply Hall. now apply (in_map fst) in Hin.
Qed.

Lemma StronglySorted_filter {A : Type} (R : A -> A -> Prop) (p : A -> bool)
    (l : list A) :
  StronglySorted R l -> StronglySorted R (filter p l).
Proof.
  induction 1 as [|a l Hs IH Hall]; simpl; [constructor|].
  destruct (p a); [|assumption]. constructor; [assumption|].
  rewrite Forall_forall in *. intros x Hx. apply Hall.
  now apply filter_In in Hx.
Qed.

Lemma idLt_inOrder (l : list Product.t) :
  StronglySorted idLt l -> Sorted (inOrder MemStorage.byId) l.
Proof.
  intros H. apply StronglySorted_Sorted in H.
  induction H as [|a l Hs IH Hhd]; constructor; [assumption|].
  destruct Hhd as [|b l Hab]; constructor.
  unfold inOrder, MemStorage.byId, idLt in *. lia.
Qed.

(** C7. In every state of the store, a listing whose options carry no
    sort key is in ascending id order: it is what the default branch of
    the sort (by id) makes of the filtered products, and that list has
    strictly increasing ids.  For all options, the listing is the
    filtered products, then sorted, then sliced by offset and limit. *)
Theorem C7_unsorted_listing_by_id (this : MemStorage.t)
    (options : option ProductOptions.t) :
  MemStorage.reachable this ->
  optChain options ProductOptions.sort = None ->
  MemStorage.getProducts this (withoutPaging options)
  = JsArray.sort MemStorage.byId (filterStage this options)
  /\ StronglySorted idLt (MemStorage.getProducts this (withoutPaging options))
  /\ MemStorage.getProducts this options
     = pageStage options (MemStorage.getProducts this (withoutPaging options))
  /\ (forall options' : option ProductOptions.t,
        MemStorage.getProducts this options'
        = pageStage options' (sortStage options' (filterStage this options'))).
Proof.
  intros Hreach Hsort.
  pose proof (ok_products _ (reachable_storeOk _ Hreach)) as Hok.
  assert (Hsorted : StronglySorted idLt (filterStage this options)).
  { unfold filterStage. apply StronglySorted_filter.
    eapply values_idLt; eassumption. }
  assert (Hnopage : MemStorage.getProducts this (withoutPaging options)
                    = filterStage this options).
  { rewrite getProducts_stages. destruct options as [o|]; [|reflexivity].
    cbn [optChain] in Hsort.
    unfold pageStage, sortStage, filterStage.
    cbn [withoutPaging optChain ProductOptions.offset ProductOptions.limit
         ProductOptions.sort ProductOptions.categoryId ProductOptions.featured
         ProductOptions.search].
    now rewrite Hsort. }
  repeat split.
  - rewrite Hnopage. symmetry. now apply sort_sorted, idLt_inOrder.
  - now rewrite Hnopage.
  - rewrite Hnopage, getProducts_stages. unfold sortStage.
    now rewrite Hsort.
  - intros options'. apply getProducts_stages.
Qed.

(* ================================================================== *)
(** * The cart                                                           *)
(* ================================================================== *)

Lemma set_snoc_same {V : Type} (m : JsMap.t V) (k : Z) (v v' : V) :
  ~ In k (JsMap.keys m) -> JsMap.set (m ++ [(k, v)]) k v' = m ++ [(k, v')].
Proof.
  induction m as [|[k0 v0] m IH]; simpl; intros Hnotin.
  - now rewrite Z.eqb_refl.
  - destruct (Z.eqb_spec k0 k) as [->|Hne]; [tauto|].
    f_equal. apply IH. tauto.
Qed.

(** Adding a product that is not in the user's cart, twice. *)
Lemma addCartItem_twice (this : MemStorage.t) (u p q1 q2 : Z) :
  tableOk CartItem.id (MemStorage.cartItemId this) (MemStorage.cartItems this) ->
  MemStorage.getCartItem this u p = None ->
  MemStorage.cartItems
    (fst (MemStorage.addCartItem
            (fst (MemStorage.addCartItem this (InsertCartItem.mk u p q1)))
            (InsertCartItem.mk u p q2)))
  = MemStorage.cartItems this
    ++ [(MemStorage.cartItemId this,
         CartItem.mk (MemStorage.cartItemId this) u p (q1 + q2))].
Proof.
  intros Hok Hnone.
  pose proof (below_notin _ _ (proj2 (proj2 Hok))) as Hfresh.
  rewrite (addCartItem_new this (InsertCartItem.mk u p q1)) by exact Hnone.
  cbn [fst InsertCartItem.userId InsertCartItem.productId InsertCartItem.quantity].
  rewrite (set_fresh _ _ _ Hfresh).
  set (row := CartItem.mk (MemStorage.cartItemId this) u p q1).
  set (this1 := MemStorage.setCartItems this _ _).
  assert (Hfind : MemStorage.getCartItem this1 u p = Some row).
  { unfold MemStorage.getCartItem, this1.
    cbn [MemStorage.cartItems MemStorage.setCartItems].
    rewrite values_app. apply find_app_fresh; [exact Hnone|].
    subst row. cbn. now rewrite !Z.eqb_refl. }
  rewrite (addCartItem_existing this1 (InsertCartItem.mk u p q2) row) by exact Hfind.
  subst this1 row.
  cbn [fst MemStorage.cartItems MemStorage.setCartItems CartItem.id
       CartItem.userId CartItem.productId CartItem.quantity
       InsertCartItem.quantity].
  now apply set_snoc_same.
Qed.

Lemma get_set_same {V : Type} (m : JsMap.t V) (k : Z) (v : V) :
  JsMap.get (JsMap.set m k v) k = Some v.
Proof.
  induction m as [|[k0 v0] m IH]; simpl.
  - now rewrite Z.eqb_refl.
  - destruct (Z.eqb_spec k0 k) as [->|Hne]; simpl.
    + now rewrite Z.eqb_refl.
    + destruct (Z.eqb_spec k0 k); [contradiction|exact IH].
Qed.

Lemma pair_test (u p : Z) (item : CartItem.t) :
  (CartItem.userId item =? u) && (CartItem.productId item =? p) = true
  <-> cartKey item = (u, p).
Proof.
  unfold cartKey. rewrite andb_true_iff, !Z.eqb_eq.
  split; [intros [-> ->]; reflexivity|intros H; inversion H; auto].
Qed.

(** Overwriting the one row of a pair leaves the new row as the only one
    of the pair. *)
Lemma rowsOf_set (u p : Z) (m : JsMap.t CartItem.t) (k : Z) (e e' : CartItem.t) :
  cartUnique m -> JsMap.get m k = Some e ->
  cartKey e = (u, p) -> cartKey e' = (u, p) ->
  rowsOf u p (JsMap.set m k e') = [e'].
Proof.
  unfold cartUnique, rowsOf, JsMap.values.
  induction m as [|[k0 v0] m IH]; simpl; [discriminate|].
  intros Hnd Hget He He'. inversion Hnd as [|? ? Hnotin Hnd']; subst.
  destruct (Z.eqb_spec k0 k) as [->|Hne]; simpl.
  - inversion Hget; subst v0.
    rewrite (proj2 (pair_test u p e') He'). f_equal.
    apply filter_none. intros x Hx.
    apply not_true_is_false. intros Hp. apply pair_test in Hp.
    apply Hnotin. rewrite He, <- Hp. now apply in_map.
  - assert (Hv0 : (CartItem.userId v0 =? u) && (CartItem.productId v0 =? p) = false).
    { apply not_true_is_false. intros Hp. apply pair_test in Hp.
      apply Hnotin. rewrite Hp, <- He.
      apply get_In in Hget. apply (in_map snd) in Hget.
      now apply (in_map cartKey) in Hget. }
    rewrite Hv0. now apply IH.
Qed.

Lemma find_rowsOf (u p : Z) (m : JsMap.t CartItem.t) (e : CartItem.t)
    (this : MemStorage.t) :
  MemStorage.cartItems this = m -> rowsOf u p m = [e] ->
  MemStorage.getCartItem this u p = Some e.
Proof.
  intros <-. unfold rowsOf, MemStorage.getCartItem.
  induction (JsMap.values (MemStorage.cartItems this)) as [|x l IH]; simpl;
    [discriminate|].
  destruct ((CartItem.userId x =? u) && (CartItem.productId x =? p)).
  - intros H. now inversion H.
  - exact IH.
Qed.

(** Adding twice a product the user's cart already has. *)
Lemma addCartItem_twice_present (this : MemStorage.t) (u p q1 q2 : Z)
    (e : CartItem.t) :
  cartOk this ->
  MemStorage.getCartItem this u p = Some e ->
  rowsOf u p
    (MemStorage.cartItems
       (fst (MemStorage.addCartItem
               (fst (MemStorage.addCartItem this (InsertCartItem.mk u p q1)))
               (InsertCartItem.mk u p q2))))
  = [CartItem.mk (CartItem.id e) (CartItem.userId e) (CartItem.productId e)
       (CartItem.quantity e + q1 + q2)].
Proof.
  intros [Hok Huniq] Hfind.
  destruct (getCartItem_Some _ _ _ _ Hfind) as [Hin Hkey].
  pose proof (get_own_id _ _ _ _ Hok Hin) as Hget.
  rewrite (addCartItem_existing this (InsertCartItem.mk u p q1) e) by exact Hfind.
  cbn [fst InsertCartItem.quantity].
  set (e1 := CartItem.mk (CartItem.id e) (CartItem.userId e)
               (CartItem.productId e) (CartItem.quantity e + q1)).
  set (m1 := JsMap.set (MemStorage.cartItems this) (CartItem.id e) e1).
  set (this1 := MemStorage.setCartItems this m1 (MemStorage.cartItemId this)).
  assert (Hrows1 : rowsOf u p m1 = [e1])
    by (apply (rowsOf_set u p _ _ e e1); assumption).
  assert (Hfind1 : MemStorage.getCartItem this1 u p = Some e1)
    by (apply (find_rowsOf u p m1); [reflexivity|assumption]).
  rewrite (addCartItem_existing this1 (InsertCartItem.mk u p q2) e1) by exact Hfind1.
  subst this1. cbn [fst MemStorage.cartItems MemStorage.setCartItems
                    InsertCartItem.quantity].
  apply (rowsOf_set u p m1 (CartItem.id e1) e1).
  - unfold cartUnique, m1.
    rewrite (set_same_image cartKey _ _ _ e); [assumption|assumption|reflexivity].
  - apply get_set_same.
  - exact Hkey.
  - exact Hkey.
Qed.

(** C3. In every state of the store in which the user's cart has no
    row for the product, adding the product with quantity [q1] and then
    with quantity [q2] leaves exactly one row for the (user, product)
    pair, and its quantity is [q1 + q2]; when the cart already has a row
    [e] for the product there is still exactly one, with quantity
    [e.quantity + q1 + q2].  In every state of the store there is at
    most one row per (user, product) pair, and it is so again after
    each of [addCartItem], [updateCartItem], [removeCartItem] and
    [clearCart]. *)
Theorem C3_add_twice_merges (this : MemStorage.t) (u p q1 q2 : Z) :
  MemStorage.reachable this ->
  let this2 :=
    fst (MemStorage.addCartItem
           (fst (MemStorage.addCartItem this (InsertCartItem.mk u p q1)))
           (InsertCartItem.mk u p q2)) in
  (MemStorage.getCartItem this u p = None ->
   exists row,
     rowsOf u p (MemStorage.cartItems this2) = [row]
     /\ CartItem.quantity row = q1 + q2)
  /\ (forall e,
        MemStorage.getCartItem this u p = Some e ->
        exists row,
          rowsOf u p (MemStorage.cartItems this2) = [row]
          /\ CartItem.quantity row = CartItem.quantity e + q1 + q2)
  /\ cartUnique (MemStorage.cartItems this)
  /\ (forall c, cartUnique (MemStorage.cartItems (fst (MemStorage.addCartItem this c))))
  /\ (forall id quantity,
        cartUnique (MemStorage.cartItems
                      (fst (MemStorage.updateCartItem this id quantity))))
  /\ (forall id, cartUnique (MemStorage.cartItems (MemStorage.removeCartItem this id)))
  /\ (forall userId, cartUnique (MemStorage.cartItems (MemStorage.clearCart this userId))).
Proof.
  intros Hreach this2. pose proof (reachable_storeOk _ Hreach) as Hok.
  pose proof (storeOk_cartOk _ Hok) as Hcart.
  split; [|split; [|repeat split]].
  - intros Hnone. subst this2.
    rewrite addCartItem_twice by (assumption || apply Hcart).
    exists (CartItem.mk (MemStorage.cartItemId this) u p (q1 + q2)).
    split; [|reflexivity].
    unfold rowsOf. rewrite values_app, filter_app. cbn. rewrite !Z.eqb_refl. cbn.
    rewrite filter_none; [reflexivity|].
    intros x Hx. exact (find_none _ _ Hnone x Hx).
  - intros e Hfind. subst this2.
    rewrite (addCartItem_twice_present this u p q1 q2 e Hcart Hfind).
    eexists. split; reflexivity.
  - apply Hcart.
  - intros c. apply (addCartItem_cartOk this c Hcart).
  - intros id quantity. apply (updateCartItem_cartOk this id quantity Hcart).
  - intros id. apply (removeCartItem_cartOk this id Hcart).
  - intros userId. apply (clearCart_cartOk this userId Hcart).
Qed.

(** C8. In every state of the store, after [clearCart(u)] the cart of
    [u] is empty, the cart of every other user is what it was, and the
    users, products, categories, orders and order lines are untouched. *)
Theorem C8_clearCart_frame (this : MemStorage.t) (u : Z) :
  MemStorage.reachable this ->
  let this' := MemStorage.clearCart this u in
  MemStorage.getCartItems this' u = []
  /\ (forall v, v <> u ->
        MemStorage.getCartItems this' v = MemStorage.getCartItems this v)
  /\ MemStorage.products this' = MemStorage.products this
  /\ MemStorage.orders this' = MemStorage.orders this
  /\ MemStorage.orderItems this' = MemStorage.orderItems this
  /\ MemStorage.users this' = MemStorage.users this
  /\ MemStorage.categories this' = MemStorage.categories this.
Proof.
  intros Hreach this'. subst this'.
  pose proof (ok_cartItems _ (reachable_storeOk _ Hreach)) as Hok.
  rewrite (clearCart_cartItems this u Hok).
  repeat split.
  - rewrite getCartItems_eq. cbn [MemStorage.cartItems MemStorage.setCartItems].
    match goal with
    | |- map _ ?l = [] => assert (Hnil : l = []); [|now rewrite Hnil]
    end.
    apply filter_none.
    intros x Hx. unfold JsMap.values in Hx. rewrite in_map_iff in Hx.
    destruct Hx as (e & <- & He). apply filter_In in He.
    destruct He as [_ He]. now apply negb_true_iff in He.
  - intros v Hv. rewrite !getCartItems_eq.
    cbn [MemStorage.cartItems MemStorage.setCartItems].
    unfold MemStorage.getProduct. cbn [MemStorage.products MemStorage.setCartItems].
    f_equal. unfold JsMap.values. clear Hok.
    induction (MemStorage.cartItems this) as [|[k w] m IH]; [reflexivity|].
    cbn [filter map snd].
    destruct (Z.eqb_spec (CartItem.userId w) u) as [Hu|Hu]; cbn [negb map snd filter].
    + destruct (Z.eqb_spec (CartItem.userId w) v); [congruence|exact IH].
    + destruct (CartItem.userId w =? v); [now rewrite IH|exact IH].
Qed.

(** C10. The two joins have no failing path and drop nothing.  A cart
    row of the user whose product is not in the store appears in the
    result of [getCartItems] with an undefined [product], and the result
    has one element per cart row of the user; the same holds for the
    lines of an order that exists in [getOrder]. *)
Theorem C10_joins_keep_dangling_rows (this : MemStorage.t) :
  (forall u item,
     In item (JsMap.values (MemStorage.cartItems this)) ->
     CartItem.userId item = u ->
     MemStorage.getProduct this (CartItem.productId item) = None ->
     In (joinCart None item) (MemStorage.getCartItems this u))
  /\ (forall u,
        List.length (MemStorage.getCartItems this u)
        = List.length (filter (fun item => CartItem.userId item =? u)
                              (JsMap.values (MemStorage.cartItems this))))
  /\ (forall id order,
        JsMap.get (MemStorage.orders this) id = Some order ->
        exists r,
          MemStorage.getOrder this id = Some r
          /\ List.length (OrderWithItems.items r)
             = List.length (filter (fun item => OrderItem.orderId item =? id)
                                   (JsMap.values (MemStorage.orderItems this)))
          /\ forall item,
               In item (JsMap.values (MemStorage.orderItems this)) ->
               OrderItem.orderId item = id ->
               MemStorage.getProduct this (OrderItem.productId item) = None ->
               In (joinOrderItem None item) (OrderWithItems.items r)).
Proof.
  repeat split.
  - intros u item Hin Hu Hnone. rewrite getCartItems_eq, <- Hnone.
    apply (in_map (fun item =>
                     joinCart (MemStorage.getProduct this (CartItem.productId item))
                              item)).
    apply filter_In. split; [assumption|now apply Z.eqb_eq].
  - intros u. rewrite getCartItems_eq. apply length_map.
  - intros id order Hget. unfold MemStorage.getOrder. rewrite Hget.
    eexists. split; [reflexivity|]. cbn [OrderWithItems.items]. split.
    + apply length_map.
    + intros item Hin Hid Hnone.
      rewrite <- Hnone.
      apply (in_map (fun item =>
                       joinOrderItem
                         (MemStorage.getProduct this (OrderItem.productId item))
                         item)).
      apply filter_In. split; [assumption|now apply Z.eqb_eq].
Qed.

(* ================================================================== *)
(** * Orders                                                             *)
(* ================================================================== *)

Lemma get_snoc_fresh {V : Type} (m : JsMap.t V) (k : Z) (v : V) :
  ~ In k (JsMap.keys m) -> JsMap.get (m ++ [(k, v)]) k = Some v.
Proof.
  induction m as [|[k0 v0] m IH]; simpl; intros Hnotin.
  - now rewrite Z.eqb_refl.
  - destruct (Z.eqb_spec k0 k) as [->|Hne]; [tauto|]. apply IH. tauto.
Qed.

Lemma storeOk_ordersOk (this : MemStorage.t) : storeOk this -> ordersOk this.
Proof. intros []. split; [|split]; assumption. Qed.

(** [holdsOrder] reads the order tables and their counters only. *)
Lemma holdsOrder_frame (order : Order.t) (rows : list OrderItem.t)
    (this this' : MemStorage.t) :
  MemStorage.orders this' = MemStorage.orders this ->
  MemStorage.orderItems this' = MemStorage.orderItems this ->
  MemStorage.orderId this' = MemStorage.orderId this ->
  MemStorage.orderItemId this' = MemStorage.orderItemId this ->
  holdsOrder order rows this -> holdsOrder order rows this'.
Proof.
  unfold holdsOrder, ordersOk, linesLinked, linesOf.
  intros -> -> -> ->. trivial.
Qed.

(** Right after [createOrder], the store holds the new order with one
    line per item. *)
Lemma createOrder_holds_new (this : MemStorage.t) (orderData : InsertOrder.t)
    (items : list InsertOrderItem.t) (now : Z) :
  ordersOk this ->
  holdsOrder (snd (MemStorage.createOrder this orderData items now))
    (JsMap.values
       (newOrderItems (MemStorage.orderId this) (MemStorage.orderItemId this) items))
    (fst (MemStorage.createOrder this orderData items now)).
Proof.
  intros (Hord & Hitems & Hlinked).
  destruct (createOrder_spec this orderData items now Hord Hitems)
    as (Heq & Hord' & Hitems').
  rewrite Heq. unfold holdsOrder, ordersOk, linesLinked, linesOf.
  cbn [fst snd MemStorage.orders MemStorage.orderItems MemStorage.orderId
       MemStorage.orderItemId Order.id].
  unfold linesLinked in Hlinked.
  repeat split; try assumption; try apply Hord'; try apply Hitems'.
  - rewrite values_app. apply Forall_app. split.
    + eapply Forall_impl; [|exact Hlinked]. simpl. intros. lia.
    + eapply Forall_impl; [|apply newOrderItems_orderId]. simpl. intros. lia.
  - apply get_snoc_fresh, below_notin, Hord.
  - lia.
  - rewrite values_app, filter_app.
    rewrite (filter_none _ (JsMap.values (MemStorage.orderItems this))).
    + apply filter_all. intros x Hx.
      pose proof (newOrderItems_orderId (MemStorage.orderId this)
                    (MemStorage.orderItemId this) items) as Hall.
      rewrite Forall_forall in Hall. apply Z.eqb_eq. now apply Hall.
    + intros x Hx. rewrite Forall_forall in Hlinked.
      specialize (Hlinked _ Hx). apply Z.eqb_neq. lia.
Qed.

(** A later [createOrder] leaves an order and its lines as they are. *)
Lemma createOrder_holds_old (order : Order.t) (rows : list OrderItem.t)
    (this : MemStorage.t) (orderData : InsertOrder.t)
    (items : list InsertOrderItem.t) (now : Z) :
  holdsOrder order rows this ->
  holdsOrder order rows (fst (MemStorage.createOrder this orderData items now)).
Proof.
  intros (Hok & Hget & Hlt & Hrows).
  pose proof (createOrder_holds_new this orderData items now Hok) as (Hok' & _).
  destruct Hok as (Hord & Hitems & Hlinked).
  destruct (createOrder_spec this orderData items now Hord Hitems) as (Heq & _ & _).
  rewrite Heq in *. unfold holdsOrder, linesOf in *.
  cbn [fst MemStorage.orders MemStorage.orderItems MemStorage.orderId] in *.
  split; [exact Hok'|]. split; [|split].
  - now apply get_app_l.
  - lia.
  - rewrite values_app, filter_app, Hrows.
    rewrite (filter_none _ (JsMap.values (newOrderItems _ _ _))).
    + apply app_nil_r.
    + intros x Hx.
      pose proof (newOrderItems_orderId (MemStorage.orderId this)
                    (MemStorage.orderItemId this) items) as Hall.
      rewrite Forall_forall in Hall. specialize (Hall _ Hx).
      apply Z.eqb_neq. lia.
Qed.

Lemma step_holdsOrder (order : Order.t) (rows : list OrderItem.t)
    (this : MemStorage.t) (e : Event) :
  holdsOrder order rows this -> holdsOrder order rows (step this e).
Proof.
  intros H. destruct e as [[u now|c|id q|id|u|od items now]|ps]; cbn [step MemStorage.call].
  - now apply (holdsOrder_frame order rows this).
  - unfold MemStorage.addCartItem.
    destruct (MemStorage.getCartItem _ _ _);
      now apply (holdsOrder_frame order rows this).
  - unfold MemStorage.updateCartItem.
    destruct (JsMap.get _ _); [|assumption].
    now apply (holdsOrder_frame order rows this).
  - now apply (holdsOrder_frame order rows this).
  - unfold MemStorage.clearCart. rewrite clearCart_fold.
    now apply (holdsOrder_frame order rows this).
  - now apply createOrder_holds_old.
  - now apply (holdsOrder_frame order rows this).
Qed.

Lemma run_holdsOrder (order : Order.t) (rows : list OrderItem.t)
    (events : list Event) (this : MemStorage.t) :
  holdsOrder order rows this -> holdsOrder order rows (run this events).
Proof.
  unfold run. revert this.
  induction events as [|e events IH]; intros this H; simpl; [assumption|].
  apply IH. now apply step_holdsOrder.
Qed.

(** C4. After [createOrder(orderData, items)] in any state of the
    store, and after any further sequence of calls and of replacements
    of the product table (so whatever the products' prices become),
    [getOrder] of the returned id finds the order, and the prices of its
    lines are, in order, the prices given in [items]. *)
Theorem C4_order_prices_are_kept (this : MemStorage.t) (orderData : InsertOrder.t)
    (items : list InsertOrderItem.t) (now : Z) (events : list Event) :
  MemStorage.reachable this ->
  let created := MemStorage.createOrder this orderData items now in
  exists r,
    MemStorage.getOrder (run (fst created) events) (Order.id (snd created)) = Some r
    /\ map OrderItemWithProduct.price (OrderWithItems.items r)
       = map InsertOrderItem.price items.
Proof.
  intros Hreach created. subst created.
  pose proof (storeOk_ordersOk _ (reachable_storeOk _ Hreach)) as Hok.
  pose proof (run_holdsOrder _ _ events _
                (createOrder_holds_new this orderData items now Hok))
    as (_ & Hget & _ & Hrows).
  unfold MemStorage.getOrder. rewrite Hget. eexists. split; [reflexivity|].
  cbn [OrderWithItems.items]. unfold linesOf in Hrows. rewrite Hrows.
  rewrite map_map. cbn [OrderItemWithProduct.price].
  apply newOrderItems_prices.
Qed.

(** C2 as stated fails: on the seeded store, [createOrder] with no
    items stores an order header. *)
Lemma C2_createOrder_accepts_no_items :
  let this' :=
    fst (MemStorage.createOrder MemStorage.storage
           (InsertOrder.mk 1 "0" (Some "pending")) [] 0) in
  JsMap.size (MemStorage.orders this') <> JsMap.size (MemStorage.orders MemStorage.storage)
  /\ JsMap.get (MemStorage.orders this') 1
     = Some (Order.mk 1 1 "0" (Some "pending") 0).
Proof. vm_compute. split; [discriminate|reflexivity]. Qed.

(** C2, amended.  The rejection is the route's: a [POST /api/orders]
    whose [items] is an empty array (or no array) leaves the store as it
    is and is answered [400], or [401] without a login.
    [MemStorage.createOrder] has no such check: with no items it appends
    one order header and no line. *)
Theorem C2_empty_order_stopped_by_route (RawOrder RawItem : Type)
    (insertOrderSchema : RawOrder -> Z -> option InsertOrder.t)
    (insertOrderItemSchema : RawItem -> option InsertOrderItem.t)
    (this : MemStorage.t) (req : Routes.Request RawOrder RawItem)
    (orderData : InsertOrder.t) (now : Z) :
  MemStorage.reachable this ->
  Routes.items req = Routes.ArrayOf [] \/ Routes.items req = Routes.NotAnArray ->
  let answer :=
    Routes.postOrders RawOrder RawItem insertOrderSchema insertOrderItemSchema
      this req now in
  let created := MemStorage.createOrder this orderData [] now in
  fst answer = this
  /\ snd answer
     = match Routes.user req with
       | Some _ => Routes.respond 400 (Routes.Message "Order must contain items")
       | None => Routes.respond 401 (Routes.Message "Not authenticated")
       end
  /\ MemStorage.orders (fst created)
     = MemStorage.orders this ++ [(MemStorage.orderId this, snd created)]
  /\ MemStorage.orderItems (fst created) = MemStorage.orderItems this.
Proof.
  intros Hreach Hitems answer created. subst answer created.
  pose proof (reachable_storeOk _ Hreach) as Hok.
  destruct (createOrder_spec this orderData [] now (ok_orders _ Hok)
              (ok_orderItems _ Hok)) as (Heq & _ & _).
  rewrite Heq. cbn [fst snd MemStorage.orders MemStorage.orderItems newOrderItems].
  rewrite app_nil_r. unfold Routes.postOrders.
  destruct Hitems as [Hi|Hi]; rewrite Hi;
    destruct (Routes.user req); repeat split.
Qed.

(* ================================================================== *)
(** * Checkout                                                           *)
(* ================================================================== *)

Lemma validatePaymentFields_credit (values : Checkout.CheckoutFormValues) :
  Checkout.paymentMethod values = Checkout.credit ->
  Checkout.validatePaymentFields values = true
  <-> ~ blank (Checkout.cardNumber values)
      /\ ~ blank (Checkout.cardName values)
      /\ ~ blank (Checkout.expMonth values)
      /\ ~ blank (Checkout.expYear values)
      /\ ~ blank (Checkout.cvv values).
Proof.
  intros Hm. unfold Checkout.validatePaymentFields, blank. rewrite Hm.
  destruct (truthyString (Checkout.cardNumber values));
    destruct (truthyString (Checkout.cardName values));
    destruct (truthyString (Checkout.expMonth values));
    destruct (truthyString (Checkout.expYear values));
    destruct (truthyString (Checkout.cvv values));
    simpl; intuition congruence.
Qed.

(** C5. In step [payment]: with method "credit" and any of the five
    card fields empty, a submission leaves the step at [payment] (the
    handler only shows a message), and with method "credit" the step
    becomes [review] exactly when none of the five is empty; with method
    "paypal" or "bank", [onSubmit] moves to [review] whatever the card
    fields hold.  The same holds of the form's submit handler, which
    calls [onSubmit] once the values pass the form schema. *)
Theorem C5_payment_gate (isEmail : string -> bool)
    (values : Checkout.CheckoutFormValues) :
  (Checkout.paymentMethod values = Checkout.credit ->
   blank (Checkout.cardNumber values) \/ blank (Checkout.cardName values)
   \/ blank (Checkout.expMonth values) \/ blank (Checkout.expYear values)
   \/ blank (Checkout.cvv values) ->
   fst (Checkout.onSubmit Checkout.payment values) = Checkout.payment
   /\ fst (Checkout.handleSubmit isEmail Checkout.payment values) = Checkout.payment)
  /\ (Checkout.paymentMethod values = Checkout.credit ->
      (fst (Checkout.onSubmit Checkout.payment values) = Checkout.review
       <-> ~ blank (Checkout.cardNumber values)
           /\ ~ blank (Checkout.cardName values)
           /\ ~ blank (Checkout.expMonth values)
           /\ ~ blank (Checkout.expYear values)
           /\ ~ blank (Checkout.cvv values)))
  /\ (Checkout.paymentMethod values = Checkout.paypal
      \/ Checkout.paymentMethod values = Checkout.bank ->
      Checkout.onSubmit Checkout.payment values = (Checkout.review, [])
      /\ (Checkout.checkoutFormSchema isEmail values = true ->
          Checkout.handleSubmit isEmail Checkout.payment values
          = (Checkout.review, []))).
Proof.
  split; [|split].
  - intros Hm Hblank.
    assert (Hv : Checkout.validatePaymentFields values = false).
    { apply not_true_is_false. intros Hv.
      apply (validatePaymentFields_credit values Hm) in Hv. tauto. }
    unfold Checkout.handleSubmit, Checkout.onSubmit. rewrite Hv.
    split; [reflexivity|].
    now destruct (Checkout.checkoutFormSchema isEmail values).
  - intros Hm. rewrite <- (validatePaymentFields_credit values Hm).
    unfold Checkout.onSubmit.
    destruct (Checkout.validatePaymentFields values); simpl;
      split; intros H; (reflexivity || discriminate).
  - intros Hm.
    assert (Hv : Checkout.validatePaymentFields values = true).
    { unfold Checkout.validatePaymentFields. now destruct Hm as [-> | ->]. }
    unfold Checkout.handleSubmit, Checkout.onSubmit. rewrite Hv.
    split; [reflexivity|]. now intros ->.
Qed.

Lemma subtotal_snoc (cartItems : list Checkout.CartEntry) (item : Checkout.CartEntry) :
  Checkout.subtotal (cartItems ++ [item])
  = PrimFloat.add (Checkout.subtotal cartItems)
      (PrimFloat.mul
         (JsNumber.Number (Product.price (Checkout.product item)))
         (JsNumber.ofZ (Checkout.quantity item))).
Proof. unfold Checkout.subtotal. now rewrite fold_left_app. Qed.

(** C6. For every cart, in binary64 arithmetic: the subtotal adds, item
    after item from [0], the product's price times the quantity; the
    shipping fee is [9.99] exactly when the subtotal is greater than [0]
    and [0] otherwise; the tax is the subtotal times [0.08]; the total
    shown and the total sent with the order are subtotal plus shipping
    plus tax.  A cart of one item of price "19.99" and quantity 2 has
    subtotal [39.98], shipping [9.99], tax [3.1984] and total
    [53.1684]. *)
Theorem C6_order_total (cartItems : list Checkout.CartEntry)
    (item : Checkout.CartEntry) :
  (Checkout.subtotal [] = PrimFloat.zero
   /\ Checkout.subtotal (cartItems ++ [item])
      = PrimFloat.add (Checkout.subtotal cartItems)
          (PrimFloat.mul
             (JsNumber.Number (Product.price (Checkout.product item)))
             (JsNumber.ofZ (Checkout.quantity item)))
   /\ (Checkout.shippingCost cartItems = 9.99%float
       <-> PrimFloat.ltb PrimFloat.zero (Checkout.subtotal cartItems) = true)
   /\ (Checkout.shippingCost cartItems = PrimFloat.zero
       <-> PrimFloat.ltb PrimFloat.zero (Checkout.subtotal cartItems) = false)
   /\ Checkout.tax cartItems
      = PrimFloat.mul (Checkout.subtotal cartItems) 0.08%float
   /\ Checkout.orderTotal cartItems
      = PrimFloat.add
          (PrimFloat.add (Checkout.subtotal cartItems)
                         (Checkout.shippingCost cartItems))
          (Checkout.tax cartItems)
   /\ Checkout.total cartItems = Checkout.orderTotal cartItems)
  /\ (Product.price (Checkout.product item) = "19.99" ->
      Checkout.quantity item = 2 ->
      Checkout.subtotal [item] = 39.98%float
      /\ Checkout.shippingCost [item] = 9.99%float
      /\ Checkout.tax [item] = 3.1984%float
      /\ Checkout.total [item] = 53.1684%float
      /\ Checkout.orderTotal [item] = 53.1684%float).
Proof.
  split.
  - split; [reflexivity|]. split; [apply subtotal_snoc|].
    assert (Hne : 9.99%float <> PrimFloat.zero).
    { intros H.
      apply (f_equal (fun x => PrimFloat.ltb PrimFloat.zero x)) in H.
      vm_compute in H. discriminate. }
    split; [|split; [|repeat split; reflexivity]];
      unfold Checkout.shippingCost;
      destruct (PrimFloat.ltb PrimFloat.zero (Checkout.subtotal cartItems));
      split; intros H; try reflexivity; try discriminate;
      exfalso; apply Hne; congruence.
  - intros Hprice Hqty.
    unfold Checkout.total, Checkout.orderTotal, Checkout.tax,
      Checkout.shippingCost, Checkout.subtotal, Checkout.taxRate.
    cbn [fold_left]. rewrite Hprice, Hqty.
    vm_compute. repeat split; reflexivity.
Qed.

(* ================================================================== *)
(** * The statements at concrete inputs                                  *)
(* ================================================================== *)

(** User 1 puts product 19 in the cart twice: quantities 2 and 3. *)
Lemma C3_add_twice_merges_witness :
  MemStorage.reachable MemStorage.storage
  /\ MemStorage.getCartItem MemStorage.storage 1 19 = None
  /\ exists row,
       rowsOf 1 19
         (MemStorage.cartItems
            (fst (MemStorage.addCartItem
                    (fst (MemStorage.addCartItem MemStorage.storage
                            (InsertCartItem.mk 1 19 2)))
                    (InsertCartItem.mk 1 19 3))))
       = [row]
       /\ CartItem.quantity row = 2 + 3.
Proof.
  split; [apply MemStorage.reachable_new|].
  split; [reflexivity|].
  apply (proj1 (C3_add_twice_merges MemStorage.storage 1 19 2 3
                  MemStorage.reachable_new)).
  reflexivity.
Defined.

(** A paged listing of category 2 without a sort key. *)
Lemma C7_unsorted_listing_by_id_witness :
  let options := Some (ProductOptions.mk (Some 2) None (Some 2) (Some 1) None None) in
  MemStorage.reachable MemStorage.storage
  /\ optChain options ProductOptions.sort = None
  /\ StronglySorted idLt
       (MemStorage.getProducts MemStorage.storage (withoutPaging options)).
Proof.
  intros options.
  split; [apply MemStorage.reachable_new|].
  split; [reflexivity|].
  apply (C7_unsorted_listing_by_id MemStorage.storage options
           MemStorage.reachable_new eq_refl).
Defined.

(** Two users with a cart each; the first one's is cleared. *)
Lemma C8_clearCart_frame_witness :
  let this :=
    MemStorage.call
      (MemStorage.call MemStorage.storage
         (MemStorage.AddCartItem (InsertCartItem.mk 1 19 2)))
      (MemStorage.AddCartItem (InsertCartItem.mk 2 3 1)) in
  MemStorage.reachable this
  /\ MemStorage.getCartItems (MemStorage.clearCart this 1) 1 = []
  /\ MemStorage.getCartItems (MemStorage.clearCart this 1) 2
     = MemStorage.getCartItems this 2.
Proof.
  intros this.
  assert (Hreach : MemStorage.reachable this)
    by (repeat apply MemStorage.reachable_call; apply MemStorage.reachable_new).
  split; [exact Hreach|].
  destruct (C8_clearCart_frame this 1 Hreach) as (Hempty & Hother & _).
  split; [exact Hempty|].
  apply Hother. discriminate.
Defined.

(** A cart row for a product id the catalogue does not have. *)
Lemma C10_joins_keep_dangling_rows_witness :
  let this :=
    MemStorage.call MemStorage.storage
      (MemStorage.AddCartItem (InsertCartItem.mk 1 999 1)) in
  MemStorage.getProduct this 999 = None
  /\ In (joinCart None (CartItem.mk 1 1 999 1)) (MemStorage.getCartItems this 1).
Proof.
  intros this. split; [reflexivity|].
  apply (proj1 (C10_joins_keep_dangling_rows this) 1 (CartItem.mk 1 1 999 1)).
  - left. reflexivity.
  - reflexivity.
  - reflexivity.
Defined.

(** An order of two shirts at 19.99; then the catalogue is emptied and
    another order is placed. *)
Lemma C4_order_prices_are_kept_witness :
  let orderData := InsertOrder.mk 1 "53.1684" (Some "pending") in
  let items := [InsertOrderItem.mk 0 19 2 "19.99"] in
  let events :=
    [ProductsReplaced [];
     Called (MemStorage.CreateOrder orderData
               [InsertOrderItem.mk 0 3 1 "49.99"] 1700000000001)] in
  let created :=
    MemStorage.createOrder MemStorage.storage orderData items 1700000000000 in
  MemStorage.reachable MemStorage.storage
  /\ exists r,
       MemStorage.getOrder (run (fst created) events) (Order.id (snd created))
       = Some r
       /\ map OrderItemWithProduct.price (OrderWithItems.items r)
          = map InsertOrderItem.price items.
Proof.
  intros orderData items events created.
  split; [apply MemStorage.reachable_new|].
  apply (C4_order_prices_are_kept MemStorage.storage orderData items
           1700000000000 events MemStorage.reachable_new).
Defined.

(** A logged-in request with an empty [items] array, with schemas that
    accept nothing. *)
Lemma C2_empty_order_stopped_by_route_witness :
  let user := User.mk 1 "danny" "secret" "danny@example.com" None None 0 in
  let req := Routes.request (Some user) tt (Routes.ArrayOf ([] : list unit)) in
  MemStorage.reachable MemStorage.storage
  /\ (Routes.items req = Routes.ArrayOf [] \/ Routes.items req = Routes.NotAnArray)
  /\ fst (Routes.postOrders unit unit (fun _ _ => None) (fun _ => None)
            MemStorage.storage req 0)
     = MemStorage.storage.
Proof.
  intros user req.
  split; [apply MemStorage.reachable_new|].
  split; [left; reflexivity|].
  apply (C2_empty_order_stopped_by_route unit unit (fun _ _ => None)
           (fun _ => None) MemStorage.storage req
           (InsertOrder.mk 1 "0" None) 0 MemStorage.reachable_new
           (or_introl eq_refl)).
Defined.

(** The form with its default card fields, paid by card and by PayPal. *)
Lemma C5_payment_gate_witness :
  let byCard :=
    Checkout.mkValues "Ada" "Byron" "ada@example.com" "555" "1 Main St" "Town"
      "NY" "10001" "United States" Checkout.credit
      (Some "") (Some "") (Some "") (Some "") (Some "") in
  let byPaypal :=
    Checkout.mkValues "Ada" "Byron" "ada@example.com" "555" "1 Main St" "Town"
      "NY" "10001" "United States" Checkout.paypal
      (Some "") (Some "") (Some "") (Some "") (Some "") in
  (Checkout.paymentMethod byCard = Checkout.credit
   /\ blank (Checkout.cardNumber byCard)
   /\ fst (Checkout.onSubmit Checkout.payment byCard) = Checkout.payment)
  /\ (Checkout.paymentMethod byPaypal = Checkout.paypal
      /\ Checkout.onSubmit Checkout.payment byPaypal = (Checkout.review, [])).
Proof.
  intros byCard byPaypal. split.
  - split; [reflexivity|]. split; [reflexivity|].
    apply (proj1 (proj1 (C5_payment_gate (fun _ => true) byCard) eq_refl
                    (or_introl eq_refl))).
  - split; [reflexivity|].
    apply (proj1 (proj2 (proj2 (C5_payment_gate (fun _ => true) byPaypal))
                    (or_introl eq_refl))).
Defined.

(** Two of the seeded product 19, priced 19.99. *)
Lemma C6_order_total_witness :
  let shirt :=
    Product.mk 19 "Essential Cotton T-Shirt"
      "Soft, breathable 100% cotton t-shirt in a variety of colors" "19.99" None
      "" 2 (Some "4.4") (Some 245) (Some true) (Some false) (Some false)
      (Some true) (Some false) 1675987200000 in
  let item := Checkout.mkEntry 1 1 19 2 shirt in
  Product.price (Checkout.product item) = "19.99"
  /\ Checkout.quantity item = 2
  /\ Checkout.total [item] = 53.1684%float.
Proof.
  intros shirt item.
  split; [reflexivity|]. split; [reflexivity|].
  apply (proj2 (C6_order_total [] item) eq_refl eq_refl).
Defined.

(* ================================================================== *)
(** * Further properties of the store                                    *)
(* ================================================================== *)

Section MoreMapFacts.

Context {V : Type}.
Implicit Types (m : JsMap.t V) (k : Z) (v : V).

Lemma get_set_other m k k' v :
  k <> k' -> JsMap.get (JsMap.set m k v) k' = JsMap.get m k'.
Proof.
  intros Hne. induction m as [|[k0 v0] m IH]; simpl.
  - destruct (Z.eqb_spec k k'); [contradiction|reflexivity].
  - destruct (Z.eqb_spec k0 k) as [->|Hk0]; simpl.
    + destruct (Z.eqb_spec k k'); [contradiction|reflexivity].
    + destruct (k0 =? k'); [reflexivity|exact IH].
Qed.

Lemma notin_get_None m k : ~ In k (JsMap.keys m) -> JsMap.get m k = None.
Proof.
  induction m as [|[k0 v0] m IH]; simpl; [reflexivity|].
  intros Hnotin. destruct (Z.eqb_spec k0 k); [tauto|]. apply IH. tauto.
Qed.

Lemma get_filter_other (p : Z * V -> bool) m k :
  (forall v, p (k, v) = true) -> JsMap.get (filter p m) k = JsMap.get m k.
Proof.
  intros Hp. induction m as [|[k0 v0] m IH]; simpl; [reflexivity|].
  destruct (Z.eqb_spec k0 k) as [->|Hne].
  - rewrite Hp. simpl. now rewrite Z.eqb_refl.
  - destruct (p (k0, v0)); simpl; [|exact IH].
    destruct (Z.eqb_spec k0 k); [contradiction|exact IH].
Qed.

Lemma keys_filter_notin (p : Z * V -> bool) m k :
  ~ In k (JsMap.keys m) -> ~ In k (JsMap.keys (filter p m)).
Proof.
  unfold JsMap.keys. intros Hnotin Hin. apply Hnotin.
  rewrite in_map_iff in *. destruct Hin as (e & He & Hin).
  exists e. split; [assumption|]. now apply filter_In in Hin.
Qed.

Lemma get_delete_same m k : JsMap.get (JsMap.delete m k) k = None.
Proof.
  apply notin_get_None. unfold JsMap.delete, JsMap.keys.
  rewrite in_map_iff. intros ([k0 v0] & Hk & Hin). simpl in Hk. subst k0.
  apply filter_In in Hin. destruct Hin as [_ Hp]. simpl in Hp.
  now rewrite Z.eqb_refl in Hp.
Qed.

Lemma get_delete_other m k k' :
  k <> k' -> JsMap.get (JsMap.delete m k) k' = JsMap.get m k'.
Proof.
  intros Hne. apply get_filter_other. intros v. simpl.
  destruct (Z.eqb_spec k' k); [congruence|reflexivity].
Qed.

Lemma delete_absent m k : ~ In k (JsMap.keys m) -> JsMap.delete m k = m.
Proof.
  intros Hnotin. unfold JsMap.delete. apply filter_all.
  intros [k0 v0] Hin. simpl. destruct (Z.eqb_spec k0 k) as [->|]; [|reflexivity].
  exfalso. apply Hnotin. now apply (in_map fst) in Hin.
Qed.

(** Replacing the value of a key does not disturb a search that
    matches neither the old nor the new value. *)
Lemma find_set_other (q : V -> bool) m k v v0 :
  JsMap.get m k = Some v0 -> q v0 = false -> q v = false ->
  find q (JsMap.values (JsMap.set m k v)) = find q (JsMap.values m).
Proof.
  unfold JsMap.values.
  induction m as [|[k0 w] m IH]; simpl; [discriminate|].
  destruct (Z.eqb_spec k0 k) as [->|Hne]; simpl; intros Hget Hq0 Hq.
  - inversion Hget; subst. now rewrite Hq0, Hq.
  - destruct (q w); [reflexivity|]. now apply IH.
Qed.

End MoreMapFacts.

Lemma find_app {A : Type} (q : A -> bool) (l l' : list A) :
  find q (l ++ l')
  = match find q l with
    | Some x => Some x
    | None => find q l'
    end.
Proof.
  induction l as [|a l IH]; simpl; [reflexivity|].
  now destruct (q a).
Qed.

Lemma storage_eta_cart (this : MemStorage.t) :
  MemStorage.setCartItems this (MemStorage.cartItems this)
    (MemStorage.cartItemId this) = this.
Proof. now destruct this. Qed.

(** X1. In every state of the store, [createUser] gives the new user
    the counter's value as id, an id no user had; the user it returns
    carries the given fields and the given time; [getUser] of that id
    then returns it, and every user there was is still returned
    unchanged. *)
Theorem createUser_getUser (this : MemStorage.t) (insertUser : InsertUser.t)
    (now : Z) :
  MemStorage.reachable this ->
  let created := MemStorage.createUser this insertUser now in
  snd created
  = User.mk (MemStorage.userId this) (InsertUser.username insertUser)
      (InsertUser.password insertUser) (InsertUser.email insertUser)
      (InsertUser.firstName insertUser) (InsertUser.lastName insertUser) now
  /\ MemStorage.getUser this (User.id (snd created)) = None
  /\ MemStorage.getUser (fst created) (User.id (snd created)) = Some (snd created)
  /\ (forall id user,
        MemStorage.getUser this id = Some user ->
        MemStorage.getUser (fst created) id = Some user).
Proof.
  intros Hreach created. subst created.
  pose proof (ok_users _ (reachable_storeOk _ Hreach)) as Hok.
  pose proof (below_notin _ _ (proj2 (proj2 Hok))) as Hfresh.
  unfold MemStorage.createUser, MemStorage.getUser.
  cbn [fst snd MemStorage.users MemStorage.setUsers User.id].
  rewrite (set_fresh _ _ _ Hfresh).
  split; [reflexivity|]. split; [now apply notin_get_None|].
  split; [now apply get_snoc_fresh|].
  intros id user Hget. now apply get_app_l.
Qed.

(** X2. [createUser] does not look at the users already stored: after
    it, a lookup by user name (or by e-mail) returns the user it
    returned before if there was one, and the new user only when no
    earlier user has that name (that e-mail). *)
Theorem createUser_lookup_keeps_first (this : MemStorage.t)
    (insertUser : InsertUser.t) (now : Z) (username email : string) :
  MemStorage.reachable this ->
  let created := MemStorage.createUser this insertUser now in
  MemStorage.getUserByUsername (fst created) username
  = match MemStorage.getUserByUsername this username with
    | Some user => Some user
    | None =>
        if String.eqb (InsertUser.username insertUser) username
        then Some (snd created) else None
    end
  /\ MemStorage.getUserByEmail (fst created) email
     = match MemStorage.getUserByEmail this email with
       | Some user => Some user
       | None =>
           if String.eqb (InsertUser.email insertUser) email
           then Some (snd created) else None
       end.
Proof.
  intros Hreach created. subst created.
  pose proof (ok_users _ (reachable_storeOk _ Hreach)) as Hok.
  pose proof (below_notin _ _ (proj2 (proj2 Hok))) as Hfresh.
  unfold MemStorage.createUser, MemStorage.getUserByUsername,
    MemStorage.getUserByEmail.
  cbn [fst snd MemStorage.users MemStorage.setUsers].
  rewrite (set_fresh _ _ _ Hfresh), values_app, !find_app.
  split; reflexivity.
Qed.

(** X3. In every state of the store, after [addCartItem] the lookup of
    the (user, product) pair returns the very row [addCartItem]
    returned; its quantity is the given one plus the quantity the pair
    had before (none counting as [0]); the lookup of every other pair
    is unchanged. *)
Theorem addCartItem_getCartItem (this : MemStorage.t) (c : InsertCartItem.t) :
  MemStorage.reachable this ->
  let added := MemStorage.addCartItem this c in
  MemStorage.getCartItem (fst added) (InsertCartItem.userId c)
                                     (InsertCartItem.productId c)
  = Some (snd added)
  /\ CartItem.quantity (snd added)
     = match MemStorage.getCartItem this (InsertCartItem.userId c)
                                         (InsertCartItem.productId c) with
       | Some e => CartItem.quantity e
       | None => 0
       end + InsertCartItem.quantity c
  /\ (forall u p,
        (u, p) <> (InsertCartItem.userId c, InsertCartItem.productId c) ->
        MemStorage.getCartItem (fst added) u p = MemStorage.getCartItem this u p).
Proof.
  intros Hreach added. subst added.
  pose proof (storeOk_cartOk _ (reachable_storeOk _ Hreach)) as [Hok Huniq].
  destruct (MemStorage.getCartItem this (InsertCartItem.userId c)
              (InsertCartItem.productId c)) as [e|] eqn:Hfind.
  - rewrite (addCartItem_existing _ _ _ Hfind). cbn [fst snd CartItem.quantity].
    destruct (getCartItem_Some _ _ _ _ Hfind) as [Hin Hkey].
    pose proof (get_own_id _ _ _ _ Hok Hin) as Hget.
    split; [|split; [reflexivity|]].
    + eapply find_rowsOf; [reflexivity|].
      cbn [MemStorage.cartItems MemStorage.setCartItems].
      apply (rowsOf_set _ _ _ _ e); assumption.
    + intros u p Hne. unfold MemStorage.getCartItem.
      cbn [MemStorage.cartItems MemStorage.setCartItems].
      assert (Hq : (CartItem.userId e =? u) && (CartItem.productId e =? p) = false).
      { apply not_true_is_false. intros Hp. apply pair_test in Hp. congruence. }
      apply (find_set_other _ _ _ _ e); assumption.
  - rewrite (addCartItem_new _ _ Hfind). cbn [fst snd CartItem.quantity].
    pose proof (below_notin _ _ (proj2 (proj2 Hok))) as Hfresh.
    unfold MemStorage.getCartItem in *.
    cbn [MemStorage.cartItems MemStorage.setCartItems].
    rewrite (set_fresh _ _ _ Hfresh), values_app.
    split; [|split; [reflexivity|]].
    + apply find_app_fresh; [assumption|]. cbn. now rewrite !Z.eqb_refl.
    + intros u p Hne. rewrite find_app. cbn.
      match goal with
      | |- match ?found with Some _ => _ | None => _ end = _ =>
          destruct found; [reflexivity|]
      end.
      destruct ((InsertCartItem.userId c =? u) && (InsertCartItem.productId c =? p))
        eqn:Hq; [|reflexivity].
      apply andb_prop in Hq. destruct Hq as [Hu Hp].
      apply Z.eqb_eq in Hu, Hp. congruence.
Qed.

Lemma updateCartItem_present (this : MemStorage.t) (id quantity : Z)
    (row : CartItem.t) :
  cartOk this ->
  JsMap.get (MemStorage.cartItems this) id = Some row ->
  let updated :=
    CartItem.mk id (CartItem.userId row) (CartItem.productId row) quantity in
  MemStorage.updateCartItem this id quantity
  = (MemStorage.setCartItems this
       (JsMap.set (MemStorage.cartItems this) id updated)
       (MemStorage.cartItemId this),
     Some updated)
  /\ MemStorage.getCartItem (fst (MemStorage.updateCartItem this id quantity))
       (CartItem.userId row) (CartItem.productId row)
     = Some updated.
Proof.
  intros [Hok Huniq] Hget updated. subst updated.
  assert (Hid : CartItem.id row = id).
  { destruct Hok as (Hk & _). symmetry.
    eapply keyedBy_In; [exact Hk|]. now apply get_In. }
  unfold MemStorage.updateCartItem. rewrite Hget, Hid. split; [reflexivity|].
  cbn [fst]. eapply find_rowsOf; [reflexivity|].
  cbn [MemStorage.cartItems MemStorage.setCartItems].
  apply (rowsOf_set _ _ _ _ row); try assumption; reflexivity.
Qed.

(** X4. In every state of the store: [updateCartItem] of an id that has
    no row returns nothing and leaves the store as it is; of an id that
    has one it returns the row with the quantity replaced by the given
    one, whatever it is, and with the same id, user and product; the
    lookup of that row's (user, product) pair then returns it, and the
    row of every other id is unchanged. *)
Theorem updateCartItem_effect (this : MemStorage.t) (id quantity : Z) :
  MemStorage.reachable this ->
  let updated := MemStorage.updateCartItem this id quantity in
  (JsMap.get (MemStorage.cartItems this) id = None ->
   updated = (this, None))
  /\ (forall row,
        JsMap.get (MemStorage.cartItems this) id = Some row ->
        snd updated
        = Some (CartItem.mk id (CartItem.userId row) (CartItem.productId row)
                  quantity)
        /\ JsMap.get (MemStorage.cartItems (fst updated)) id = snd updated
        /\ MemStorage.getCartItem (fst updated) (CartItem.userId row)
                                                (CartItem.productId row)
           = snd updated)
  /\ (forall id', id' <> id ->
        JsMap.get (MemStorage.cartItems (fst updated)) id'
        = JsMap.get (MemStorage.cartItems this) id').
Proof.
  intros Hreach updated. subst updated.
  pose proof (storeOk_cartOk _ (reachable_storeOk _ Hreach)) as Hcart.
  split; [|split].
  - intros Hnone. unfold MemStorage.updateCartItem. now rewrite Hnone.
  - intros row Hrow.
    destruct (updateCartItem_present this id quantity row Hcart Hrow)
      as [Heq Hfound].
    rewrite Hfound. rewrite Heq.
    cbn [fst snd MemStorage.cartItems MemStorage.setCartItems].
    split; [reflexivity|]. split; [apply get_set_same|reflexivity].
  - intros id' Hne. unfold MemStorage.updateCartItem.
    destruct (JsMap.get (MemStorage.cartItems this) id); [|reflexivity].
    cbn [fst MemStorage.cartItems MemStorage.setCartItems].
    apply get_set_other. congruence.
Qed.

Lemma values_delete_keyed (m : JsMap.t CartItem.t) (id : Z) :
  keyedBy CartItem.id m ->
  JsMap.values (JsMap.delete m id)
  = filter (fun row => negb (CartItem.id row =? id)) (JsMap.values m).
Proof.
  unfold keyedBy, JsMap.values, JsMap.delete.
  induction m as [|[k v] m IH]; simpl; intros Hk; [reflexivity|].
  inversion Hk as [|? ? Hkv Hk']; subst. simpl in Hkv. subst k.
  destruct (CartItem.id v =? id); simpl; now rewrite IH.
Qed.

Lemma filter_map_swap {A B : Type} (f : A -> B) (p : B -> bool) (l : list A) :
  filter p (map f l) = map f (filter (fun x => p (f x)) l).
Proof.
  induction l as [|a l IH]; simpl; [reflexivity|].
  destruct (p (f a)); simpl; now rewrite IH.
Qed.

(** X5. In every state of the store: [removeCartItem] of an id that has
    no row changes nothing at all; in any case the id has no row
    afterwards, and every user's cart is the cart it was without the
    row of that id, in the same order. *)
Theorem removeCartItem_effect (this : MemStorage.t) (id : Z) :
  MemStorage.reachable this ->
  let this' := MemStorage.removeCartItem this id in
  (JsMap.get (MemStorage.cartItems this) id = None -> this' = this)
  /\ JsMap.get (MemStorage.cartItems this') id = None
  /\ (forall id', id' <> id ->
        JsMap.get (MemStorage.cartItems this') id'
        = JsMap.get (MemStorage.cartItems this) id')
  /\ (forall u,
        MemStorage.getCartItems this' u
        = filter (fun row => negb (CartItemWithProduct.id row =? id))
                 (MemStorage.getCartItems this u)).
Proof.
  intros Hreach this'. subst this'.
  pose proof (ok_cartItems _ (reachable_storeOk _ Hreach)) as Hok.
  unfold MemStorage.removeCartItem. split; [|split; [|split]].
  - intros Hnone. rewrite delete_absent by now apply get_None_notin.
    apply storage_eta_cart.
  - apply get_delete_same.
  - intros id' Hne. cbn [MemStorage.cartItems MemStorage.setCartItems].
    apply get_delete_other. congruence.
  - intros u. rewrite !getCartItems_eq.
    cbn [MemStorage.cartItems MemStorage.setCartItems].
    unfold MemStorage.getProduct. cbn [MemStorage.products MemStorage.setCartItems].
    rewrite (values_delete_keyed _ _ (proj1 Hok)).
    rewrite filter_map_swap. cbn [joinCart CartItemWithProduct.id].
    f_equal. rewrite !filter_filter. apply filter_ext. intros row.
    apply andb_comm.
Qed.

(** Once an id the counter has passed has no row, no call gives it one. *)
Lemma call_keeps_id_free (this : MemStorage.t) (c : MemStorage.Call) (id : Z) :
  storeOk this ->
  id < MemStorage.cartItemId this ->
  JsMap.get (MemStorage.cartItems this) id = None ->
  id < MemStorage.cartItemId (MemStorage.call this c)
  /\ JsMap.get (MemStorage.cartItems (MemStorage.call this c)) id = None.
Proof.
  intros Hok Hlt Hnone.
  pose proof (storeOk_cartOk _ Hok) as [Hcart _].
  destruct c as [u now|c|id' q|id'|u|od items now]; cbn [MemStorage.call].
  - split; assumption.
  - destruct (MemStorage.getCartItem this (InsertCartItem.userId c)
                (InsertCartItem.productId c)) as [e|] eqn:Hfind.
    + rewrite (addCartItem_existing _ _ _ Hfind).
      cbn [fst MemStorage.cartItems MemStorage.cartItemId MemStorage.setCartItems].
      split; [assumption|].
      destruct (getCartItem_Some _ _ _ _ Hfind) as [Hin _].
      pose proof (get_own_id _ _ _ _ Hcart Hin) as Hget.
      rewrite get_set_other; [assumption|]. intros Heq. congruence.
    + rewrite (addCartItem_new _ _ Hfind).
      cbn [fst MemStorage.cartItems MemStorage.cartItemId MemStorage.setCartItems].
      split; [lia|]. rewrite get_set_other; [assumption|lia].
  - unfold MemStorage.updateCartItem.
    destruct (JsMap.get (MemStorage.cartItems this) id') eqn:Hget;
      cbn [fst MemStorage.cartItems MemStorage.cartItemId MemStorage.setCartItems];
      split; try assumption.
    rewrite get_set_other; [assumption|]. intros Heq. congruence.
  - unfold MemStorage.removeCartItem.
    cbn [MemStorage.cartItems MemStorage.cartItemId MemStorage.setCartItems].
    split; [assumption|].
    apply notin_get_None, keys_filter_notin. now apply get_None_notin.
  - rewrite (clearCart_cartItems _ _ Hcart).
    cbn [MemStorage.cartItems MemStorage.cartItemId MemStorage.setCartItems].
    split; [assumption|].
    apply notin_get_None, keys_filter_notin. now apply get_None_notin.
  - destruct (createOrder_spec this od items now (ok_orders _ Hok)
                (ok_orderItems _ Hok)) as (Heq & _ & _).
    rewrite Heq. cbn [fst MemStorage.cartItems MemStorage.cartItemId].
    split; assumption.
Qed.

(** X6. Cart row ids are not reused: in every state of the store, once
    [removeCartItem] has been called on an id the counter has already
    passed, no later sequence of public calls stores a row under that
    id again. *)
Theorem removed_cart_id_stays_free (this : MemStorage.t) (id : Z)
    (cs : list MemStorage.Call) :
  MemStorage.reachable this ->
  id < MemStorage.cartItemId this ->
  JsMap.get (MemStorage.cartItems (calls (MemStorage.removeCartItem this id) cs)) id
  = None.
Proof.
  intros Hreach Hlt.
  pose proof (reachable_storeOk _ Hreach) as Hok.
  assert (Hstart : storeOk (MemStorage.removeCartItem this id)
                   /\ id < MemStorage.cartItemId (MemStorage.removeCartItem this id)
                   /\ JsMap.get (MemStorage.cartItems
                                   (MemStorage.removeCartItem this id)) id = None).
  { split; [now apply storeOk_removeCartItem|].
    split; [exact Hlt|apply get_delete_same]. }
  clear Hok Hlt Hreach. unfold calls.
  revert Hstart. generalize (MemStorage.removeCartItem this id) as s.
  induction cs as [|c cs IH]; intros s (Hok & Hlt & Hnone); simpl; [assumption|].
  apply IH. split; [now apply storeOk_call|].
  now apply call_keeps_id_free.
Qed.

(* ------------------------------------------------------------------ *)
(** ** Sorting                                                          *)
(* ------------------------------------------------------------------ *)

Section MoreSortFacts.

Context {A : Type} (cmp : A -> A -> Z).

Lemma insert_perm (x : A) (l : list A) :
  Permutation (JsArray.insert cmp x l) (x :: l).
Proof.
  induction l as [|y l IH]; simpl; [reflexivity|].
  destruct (0 <? cmp x y); [|reflexivity].
  rewrite IH. apply perm_swap.
Qed.

(** Sorting rearranges, it neither drops nor repeats. *)
Lemma sort_perm (l : list A) : Permutation (JsArray.sort cmp l) l.
Proof.
  unfold JsArray.sort. induction l as [|x l IH]; simpl; [reflexivity|].
  rewrite insert_perm. now constructor.
Qed.

(** Stability, seen through a test [same]: when the comparator never
    asks two elements that pass the test to swap, those elements keep
    their relative order. *)
Lemma insert_stable (same : A -> bool) (x : A) (l : list A) :
  (forall y, same x = true -> same y = true -> cmp x y <= 0) ->
  filter same (JsArray.insert cmp x l) = filter same (x :: l).
Proof.
  intros Hsame. induction l as [|y l IH]; [reflexivity|].
  cbn [JsArray.insert]. destruct (Z.ltb_spec 0 (cmp x y)) as [Hlt|Hge];
    [|reflexivity].
  cbn [filter] in *. rewrite IH.
  destruct (same x) eqn:Hx; [|reflexivity].
  destruct (same y) eqn:Hy; [|reflexivity].
  specialize (Hsame y eq_refl Hy). lia.
Qed.

Lemma sort_stable (same : A -> bool) (l : list A) :
  (forall x y, same x = true -> same y = true -> cmp x y <= 0) ->
  filter same (JsArray.sort cmp l) = filter same l.
Proof.
  intros Hsame. unfold JsArray.sort.
  induction l as [|x l IH]; [reflexivity|].
  cbn [fold_right]. rewrite insert_stable by (intros; now apply Hsame).
  cbn [filter]. now rewrite IH.
Qed.

End MoreSortFacts.

(** X7. [getOrders] returns exactly the orders of the user (each as
    often as it is stored), the newest first; orders with the same
    creation time keep the order in which they were stored. *)
Theorem getOrders_newest_first (this : MemStorage.t) (userId : Z) :
  Permutation (MemStorage.getOrders this userId)
    (filter (fun order => Order.userId order =? userId)
            (JsMap.values (MemStorage.orders this)))
  /\ StronglySorted notOlder (MemStorage.getOrders this userId)
  /\ (forall time,
        filter (fun order => Order.createdAt order =? time)
               (MemStorage.getOrders this userId)
        = filter (fun order => Order.createdAt order =? time)
            (filter (fun order => Order.userId order =? userId)
                    (JsMap.values (MemStorage.orders this))))
  /\ (forall order,
        In order (MemStorage.getOrders this userId)
        <-> In order (JsMap.values (MemStorage.orders this))
            /\ Order.userId order = userId).
Proof.
  unfold MemStorage.getOrders.
  set (mine := filter _ (JsMap.values (MemStorage.orders this))).
  split; [apply sort_perm|]. split; [|split].
  - apply Sorted_StronglySorted.
    + intros a b c. unfold notOlder. lia.
    + assert (Hs : Sorted (inOrder MemStorage.byCreatedAtDesc)
                     (JsArray.sort MemStorage.byCreatedAtDesc mine)).
      { apply sort_is_sorted. unfold MemStorage.byCreatedAtDesc. intros. lia. }
      induction Hs as [|a l Hs IH Hhd]; constructor; [assumption|].
      destruct Hhd as [|b l Hab]; constructor.
      unfold inOrder, MemStorage.byCreatedAtDesc, notOlder in *. lia.
  - intros time. apply sort_stable. intros x y Hx Hy.
    apply Z.eqb_eq in Hx, Hy. unfold MemStorage.byCreatedAtDesc. lia.
  - intros order.
    assert (Hiff : In order (JsArray.sort MemStorage.byCreatedAtDesc mine)
                   <-> In order mine).
    { split; apply Permutation_in;
        [apply sort_perm|apply Permutation_sym, sort_perm]. }
    rewrite Hiff. unfold mine. rewrite filter_In, Z.eqb_eq. reflexivity.
Qed.

(* ------------------------------------------------------------------ *)
(** ** Listings                                                         *)
(* ------------------------------------------------------------------ *)

Lemma unpaged_listing (this : MemStorage.t) (options : option ProductOptions.t) :
  MemStorage.getProducts this (withoutPaging options)
  = sortStage options (filterStage this options).
Proof.
  rewrite getProducts_stages. now destruct options.
Qed.

Lemma category_test (oc : option Z) (p : Product.t) :
  match oc with
  | Some c => (c =? 0) || (Product.categoryId p =? c)
  | None => true
  end = true
  <-> (forall c, oc = Some c -> c <> 0 -> Product.categoryId p = c).
Proof.
  destruct oc as [c|]; [|split; [discriminate|reflexivity]].
  rewrite orb_true_iff, !Z.eqb_eq. split.
  - intros [H|H] c' Hc' Hne; inversion Hc'; subst; tauto.
  - intros H. destruct (Z.eq_dec c 0); [now left|right; now apply H].
Qed.

Lemma featured_test (o : option bool) (p : Product.t) :
  negb (truthyBool o) || truthyBool (Product.isFeatured p) = true
  <-> (o = Some true -> Product.isFeatured p = Some true).
Proof.
  destruct o as [[|]|]; destruct (Product.isFeatured p) as [[|]|]; cbn;
    split; intros; try reflexivity; try discriminate; try tauto;
    match goal with
    | H : Some true = Some true -> _ |- _ => specialize (H eq_refl); discriminate
    end.
Qed.

Lemma search_test (os : option string) (p : Product.t) :
  match os with
  | Some s =>
      negb (JsString.truthy s)
      || MemStorage.matchesSearch (JsString.toLowerCase s) p
  | None => true
  end = true
  <-> (forall s, os = Some s -> s <> "" ->
                 MemStorage.matchesSearch (JsString.toLowerCase s) p = true).
Proof.
  destruct os as [s|]; [|split; [discriminate|reflexivity]].
  rewrite orb_true_iff, negb_true_iff. split.
  - intros [H|H] s' Hs' Hne; inversion Hs'; subst; [|assumption].
    destruct s'; [congruence|discriminate].
  - intros H. destruct s as [|ch s]; [now left|].
    right. apply H; [reflexivity|discriminate].
Qed.

(** X8. Whatever the sort key, an unpaged listing holds exactly the
    stored products that pass every filter that is set (a category
    other than [0], the featured flag, a non-empty search text found in
    the lower-cased name or description), each once per stored row: the
    sort key only changes the order. *)
Theorem listing_is_the_filtered_products (this : MemStorage.t)
    (options : option ProductOptions.t) :
  Permutation (MemStorage.getProducts this (withoutPaging options))
              (filterStage this options)
  /\ (forall p,
        In p (MemStorage.getProducts this (withoutPaging options))
        <-> In p (JsMap.values (MemStorage.products this))
            /\ (forall c, optChain options ProductOptions.categoryId = Some c ->
                          c <> 0 -> Product.categoryId p = c)
            /\ (optChain options ProductOptions.featured = Some true ->
                Product.isFeatured p = Some true)
            /\ (forall s, optChain options ProductOptions.search = Some s ->
                          s <> "" ->
                          MemStorage.matchesSearch (JsString.toLowerCase s) p = true)).
Proof.
  assert (Hperm : Permutation (MemStorage.getProducts this (withoutPaging options))
                              (filterStage this options)).
  { rewrite unpaged_listing. unfold sortStage.
    destruct (comparatorOf _); [apply sort_perm|reflexivity]. }
  split; [exact Hperm|]. intros p.
  assert (Hiff : In p (MemStorage.getProducts this (withoutPaging options))
                 <-> In p (filterStage this options)).
  { split; apply Permutation_in; [exact Hperm|now apply Permutation_sym]. }
  rewrite Hiff. unfold filterStage. rewrite filter_In.
  rewrite !andb_true_iff, category_test, featured_test, search_test.
  tauto.
Qed.

(** X9. An unpaged listing sorted with key "newest" is in order of
    creation time, newest first, products created at the same time
    keeping their store order; with a non-empty key that is none of
    "price-asc", "price-desc", "newest", "rating" it is in strictly
    ascending id order in every state of the store. *)
Theorem listing_sorted_by_key (this : MemStorage.t)
    (categoryId : option Z) (featured : option bool) (search : option string)
    (key : string) :
  MemStorage.reachable this ->
  let listing k :=
    MemStorage.getProducts this
      (Some (ProductOptions.mk categoryId featured None None search k)) in
  StronglySorted (fun a b => Product.createdAt b <= Product.createdAt a)
                 (listing (Some "newest"))
  /\ (forall time,
        filter (fun p => Product.createdAt p =? time) (listing (Some "newest"))
        = filter (fun p => Product.createdAt p =? time) (listing None))
  /\ (key <> "" -> key <> "price-asc" -> key <> "price-desc" ->
      key <> "newest" -> key <> "rating" ->
      listing (Some key) = listing None
      /\ StronglySorted idLt (listing (Some key))).
Proof.
  intros Hreach listing.
  set (options k := Some (ProductOptions.mk categoryId featured None None search k)).
  assert (Hl : forall k, listing k = sortStage (options k) (filterStage this (options None))).
  { intros k. unfold listing. change (Some (ProductOptions.mk _ _ _ _ _ k))
      with (withoutPaging (options k)). rewrite unpaged_listing. reflexivity. }
  pose proof (ok_products _ (reachable_storeOk _ Hreach)) as Hok.
  assert (Hsorted : StronglySorted idLt (filterStage this (options None))).
  { unfold filterStage. apply StronglySorted_filter.
    eapply values_idLt; eassumption. }
  rewrite !Hl. split; [|split].
  - unfold sortStage. cbn [options optChain ProductOptions.sort comparatorOf
                           JsString.truthy String.eqb Ascii.eqb Bool.eqb].
    apply Sorted_StronglySorted; [intros a b c; lia|].
    assert (Hs : Sorted (inOrder MemStorage.byNewest)
                   (JsArray.sort MemStorage.byNewest (filterStage this (options None)))).
    { apply sort_is_sorted. unfold MemStorage.byNewest. intros. lia. }
    induction Hs as [|a l Hs IH Hhd]; constructor; [assumption|].
    destruct Hhd as [|b l Hab]; constructor.
    unfold inOrder, MemStorage.byNewest in *. lia.
  - intros time. unfold sortStage.
    cbn [options optChain ProductOptions.sort comparatorOf
         JsString.truthy String.eqb Ascii.eqb Bool.eqb].
    apply sort_stable. intros x y Hx Hy. apply Z.eqb_eq in Hx, Hy.
    unfold MemStorage.byNewest. lia.
  - intros Hne H1 H2 H3 H4.
    assert (Hcmp : comparatorOf (Some key) = Some MemStorage.byId).
    { unfold comparatorOf. destruct key as [|ch key]; [congruence|].
      cbn [JsString.truthy].
      apply String.eqb_neq in H1, H2, H3, H4. now rewrite H1, H2, H3, H4. }
    unfold sortStage. cbn [options optChain ProductOptions.sort].
    rewrite Hcmp. cbn [comparatorOf].
    rewrite sort_sorted by now apply idLt_inOrder.
    split; [reflexivity|assumption].
Qed.

(* ------------------------------------------------------------------ *)
(** ** Pages                                                            *)
(* ------------------------------------------------------------------ *)

Lemma firstn_plus {A : Type} (a b : nat) (l : list A) :
  firstn (a + b) l = firstn a l ++ firstn b (skipn a l).
Proof.
  revert l. induction a as [|a IH]; intros l; [reflexivity|].
  destruct l as [|x l]; simpl; [now rewrite firstn_nil|].
  now rewrite IH.
Qed.

(** [slice] with a start and a count that are not negative. *)
Lemma slice_window {A : Type} (a : list A) (start count : Z) :
  0 <= start -> 0 <= count ->
  JsArray.slice a start (start + count)
  = firstn (Z.to_nat count) (skipn (Z.to_nat start) a).
Proof.
  intros Hs Hc. unfold JsArray.slice.
  destruct (Z.ltb_spec start 0); [lia|].
  destruct (Z.ltb_spec (start + count) 0); [lia|].
  destruct (Z_lt_le_dec start (Z.of_nat (List.length a))) as [Hin|Hout].
  - rewrite (Z.min_l start) by lia.
    set (rest := skipn (Z.to_nat start) a).
    assert (Hlen : List.length rest = (List.length a - Z.to_nat start)%nat)
      by apply length_skipn.
    destruct (Z_le_gt_dec (start + count) (Z.of_nat (List.length a))) as [Hfit|Hover].
    + rewrite Z.min_l by lia. f_equal. lia.
    + rewrite Z.min_r by lia.
      rewrite !firstn_all2; [reflexivity|lia|lia].
  - rewrite !skipn_all2 by lia. now rewrite !firstn_nil.
Qed.

(** X10. Pages.  With an offset and a limit that are not negative, a
    listing is the window of the unpaged listing that starts after
    [offset] products and holds at most [limit] of them: it is never
    longer than [limit], two pages in a row make the page of both
    limits together, a page that starts at or after the end is empty,
    and the page from [0] with the whole length is the whole listing. *)
Theorem pages_are_windows (this : MemStorage.t)
    (categoryId : option Z) (featured : option bool)
    (search sort : option string) (offset limit limit' : Z) :
  0 <= offset -> 0 <= limit -> 0 <= limit' ->
  let all :=
    MemStorage.getProducts this
      (Some (ProductOptions.mk categoryId featured None None search sort)) in
  let page o l :=
    MemStorage.getProducts this
      (Some (ProductOptions.mk categoryId featured (Some l) (Some o) search sort)) in
  page offset limit = firstn (Z.to_nat limit) (skipn (Z.to_nat offset) all)
  /\ Z.of_nat (List.length (page offset limit)) <= limit
  /\ page offset limit ++ page (offset + limit) limit' = page offset (limit + limit')
  /\ (Z.of_nat (List.length all) <= offset -> page offset limit = [])
  /\ page 0 (Z.of_nat (List.length all)) = all.
Proof.
  intros Ho Hl Hl' all page.
  assert (Hpage : forall o l, 0 <= o -> 0 <= l ->
            page o l = firstn (Z.to_nat l) (skipn (Z.to_nat o) all)).
  { intros o l Ho' Hl''. unfold page, all. rewrite !getProducts_stages.
    unfold pageStage.
    cbn [optChain ProductOptions.offset ProductOptions.limit].
    now apply slice_window. }
  rewrite !Hpage by lia. split; [reflexivity|]. split; [|split; [|split]].
  - rewrite length_firstn. lia.
  - rewrite !Z2Nat.inj_add by lia. rewrite firstn_plus, skipn_skipn.
    do 3 f_equal. lia.
  - intros Hend. rewrite skipn_all2 by lia. apply firstn_nil.
  - cbn [Z.to_nat skipn]. rewrite Nat2Z.id. apply firstn_all.
Qed.

(** X11. The paging arguments are not checked.  When [offset + limit]
    is [0] the listing is empty whatever the offset (so the page before
    the first, whose offset is [-limit], is empty); with offset [0] and
    a negative limit [-n] the listing is the unpaged listing without
    its last [n] products. *)
Theorem unchecked_paging (this : MemStorage.t)
    (categoryId : option Z) (featured : option bool)
    (search sort : option string) (offset n : Z) :
  let all :=
    MemStorage.getProducts this
      (Some (ProductOptions.mk categoryId featured None None search sort)) in
  let page o l :=
    MemStorage.getProducts this
      (Some (ProductOptions.mk categoryId featured (Some l) (Some o) search sort)) in
  page offset (- offset) = []
  /\ (0 < n ->
      page 0 (- n) = firstn (List.length all - Z.to_nat n) all).
Proof.
  intros all page.
  assert (Hpage : forall o l, page o l = JsArray.slice all o (o + l)).
  { intros o l. unfold page, all. rewrite !getProducts_stages.
    unfold pageStage.
    now cbn [optChain ProductOptions.offset ProductOptions.limit]. }
  rewrite !Hpage. unfold JsArray.slice. split.
  - replace (offset + - offset) with 0 by lia. cbn [Z.ltb Z.compare].
    clear Hpage. clearbody all. clear page.
    destruct (Z.ltb_spec offset 0);
      match goal with
      | |- firstn ?count _ = [] => replace count with 0%nat by lia
      end; reflexivity.
  - intros Hn. clear Hpage. clearbody all. clear page.
    cbn [Z.ltb Z.compare Z.add].
    destruct (Z.ltb_spec (- n) 0); [|lia].
    rewrite Z.min_l by lia. cbn [Z.to_nat skipn]. f_equal. lia.
Qed.

(* ------------------------------------------------------------------ *)
(** ** Orders                                                           *)
(* ------------------------------------------------------------------ *)

Lemma newOrderItems_rows (id n : Z) (items : list InsertOrderItem.t)
    (products : Z -> option Product.t) :
  map (fun row =>
         (OrderItem.orderId row, OrderItem.productId row, OrderItem.quantity row,
          OrderItem.price row, products (OrderItem.productId row)))
      (JsMap.values (newOrderItems id n items))
  = map (fun item =>
           (id, InsertOrderItem.productId item, InsertOrderItem.quantity item,
            InsertOrderItem.price item, products (InsertOrderItem.productId item)))
        items.
Proof.
  revert n. induction items as [|item items IH]; intros n; simpl; [reflexivity|].
  f_equal. apply IH.
Qed.

Lemma get_below {V : Type} (next : Z) (m : JsMap.t V) (k : Z) (v : V) :
  below next m -> JsMap.get m k = Some v -> k < next.
Proof.
  unfold below. rewrite Forall_forall. intros Hb Hget.
  apply Hb. eapply get_keys. eassumption.
Qed.

(** X12. In every state of the store, [createOrder] returns an order
    whose id is the counter's value, an id [getOrder] knew nothing of,
    with the given user, total and status and the given time; [getOrder]
    of that id then returns this header with one line per item, in the
    order given, each carrying the item's product id, quantity and
    price, the product found under that id if any, and the new order's
    id, whatever [orderId] the item carried. *)
Theorem createOrder_getOrder (this : MemStorage.t) (orderData : InsertOrder.t)
    (items : list InsertOrderItem.t) (now : Z) :
  MemStorage.reachable this ->
  let created := MemStorage.createOrder this orderData items now in
  let id := MemStorage.orderId this in
  snd created
  = Order.mk id (InsertOrder.userId orderData) (InsertOrder.total orderData)
      (InsertOrder.status orderData) now
  /\ MemStorage.getOrder this id = None
  /\ exists r,
       MemStorage.getOrder (fst created) id = Some r
       /\ (OrderWithItems.id r, OrderWithItems.userId r, OrderWithItems.total r,
           OrderWithItems.status r, OrderWithItems.createdAt r)
          = (id, InsertOrder.userId orderData, InsertOrder.total orderData,
             InsertOrder.status orderData, now)
       /\ map (fun line =>
                 (OrderItemWithProduct.orderId line,
                  OrderItemWithProduct.productId line,
                  OrderItemWithProduct.quantity line,
                  OrderItemWithProduct.price line,
                  OrderItemWithProduct.product line))
              (OrderWithItems.items r)
          = map (fun item =>
                   (id, InsertOrderItem.productId item,
                    InsertOrderItem.quantity item, InsertOrderItem.price item,
                    MemStorage.getProduct this (InsertOrderItem.productId item)))
                items.
Proof.
  intros Hreach created id. subst created id.
  pose proof (reachable_storeOk _ Hreach) as Hok.
  pose proof (createOrder_holds_new this orderData items now (storeOk_ordersOk _ Hok))
    as (_ & Hget & _ & Hrows).
  destruct (createOrder_spec this orderData items now (ok_orders _ Hok)
              (ok_orderItems _ Hok)) as (Heq & _ & _).
  split; [reflexivity|]. split.
  - unfold MemStorage.getOrder.
    rewrite notin_get_None; [reflexivity|].
    apply below_notin, (ok_orders _ Hok).
  - unfold MemStorage.getOrder. unfold linesOf in Hrows.
    rewrite Heq in Hget, Hrows |- *.
    cbn [fst snd Order.id] in Hget, Hrows |- *.
    rewrite Hget, Hrows. eexists. split; [reflexivity|].
    split; [reflexivity|]. cbn [OrderWithItems.items]. rewrite map_map.
    cbn [OrderItemWithProduct.orderId OrderItemWithProduct.productId
         OrderItemWithProduct.quantity OrderItemWithProduct.price
         OrderItemWithProduct.product].
    unfold MemStorage.getProduct. cbn [MemStorage.products].
    apply (newOrderItems_rows (MemStorage.orderId this) (MemStorage.orderItemId this)
             items (fun productId => JsMap.get (MemStorage.products this) productId)).
Qed.

(** X13. In every state of the store, [createOrder] changes no order
    there was: whatever [getOrder] returned for an id, it returns the
    same after; users, products, categories and carts are untouched. *)
Theorem createOrder_frame (this : MemStorage.t) (orderData : InsertOrder.t)
    (items : list InsertOrderItem.t) (now : Z) :
  MemStorage.reachable this ->
  let this' := fst (MemStorage.createOrder this orderData items now) in
  (forall id r, MemStorage.getOrder this id = Some r ->
                MemStorage.getOrder this' id = Some r)
  /\ MemStorage.users this' = MemStorage.users this
  /\ MemStorage.products this' = MemStorage.products this
  /\ MemStorage.categories this' = MemStorage.categories this
  /\ MemStorage.cartItems this' = MemStorage.cartItems this.
Proof.
  intros Hreach this'. subst this'.
  pose proof (reachable_storeOk _ Hreach) as Hok.
  destruct (createOrder_spec this orderData items now (ok_orders _ Hok)
              (ok_orderItems _ Hok)) as (Heq & _ & _).
  rewrite Heq. cbn [fst]. split; [|repeat split].
  intros id r. unfold MemStorage.getOrder.
  cbn [MemStorage.orders MemStorage.orderItems].
  destruct (JsMap.get (MemStorage.orders this) id) as [order|] eqn:Hget;
    [|discriminate].
  rewrite (get_app_l _ _ _ _ Hget).
  assert (Hlt : id < MemStorage.orderId this)
    by (eapply get_below; [apply (ok_orders _ Hok)|eassumption]).
  rewrite values_app, filter_app.
  rewrite (filter_none _ (JsMap.values (newOrderItems _ _ _))).
  - now rewrite app_nil_r.
  - intros x Hx.
    pose proof (newOrderItems_orderId (MemStorage.orderId this)
                  (MemStorage.orderItemId this) items) as Hall.
    rewrite Forall_forall in Hall. specialize (Hall _ Hx).
    apply Z.eqb_neq. lia.
Qed.

(** X14. [getOrder] of an id the order counter has not reached returns
    nothing, in every state of the store; so do [getUser] and
    [getProduct] for their counters. *)
Theorem lookups_beyond_counter (this : MemStorage.t) (id : Z) :
  MemStorage.reachable this ->
  (MemStorage.orderId this <= id -> MemStorage.getOrder this id = None)
  /\ (MemStorage.userId this <= id -> MemStorage.getUser this id = None)
  /\ (MemStorage.productId this <= id -> MemStorage.getProduct this id = None).
Proof.
  intros Hreach. pose proof (reachable_storeOk _ Hreach) as Hok.
  assert (Hfree : forall (V : Type) (idOf : V -> Z) next (m : JsMap.t V),
            tableOk idOf next m -> next <= id -> JsMap.get m id = None).
  { intros V idOf next m (_ & _ & Hb) Hle.
    destruct (JsMap.get m id) eqn:Hget; [|reflexivity].
    pose proof (get_below _ _ _ _ Hb Hget). lia. }
  repeat split; intros Hle.
  - unfold MemStorage.getOrder.
    now rewrite (Hfree _ _ _ _ (ok_orders _ Hok) Hle).
  - apply (Hfree _ _ _ _ (ok_users _ Hok) Hle).
  - apply (Hfree _ _ _ _ (ok_products _ Hok) Hle).
Qed.

(* ================================================================== *)
(** * Properties of the route handlers                                   *)
(* ================================================================== *)

(** [clearCart] under the cart table's invariant. *)
Lemma clearCart_carts (this : MemStorage.t) (u : Z) :
  tableOk CartItem.id (MemStorage.cartItemId this) (MemStorage.cartItems this) ->
  MemStorage.getCartItems (MemStorage.clearCart this u) u = []
  /\ (forall v, v <> u ->
        MemStorage.getCartItems (MemStorage.clearCart this u) v
        = MemStorage.getCartItems this v)
  /\ (forall id, MemStorage.getOrder (MemStorage.clearCart this u) id
                 = MemStorage.getOrder this id).
Proof.
  intros Hok. rewrite (clearCart_cartItems this u Hok). split; [|split].
  - rewrite getCartItems_eq. cbn [MemStorage.cartItems MemStorage.setCartItems].
    match goal with
    | |- map _ ?l = [] => assert (Hnil : l = []); [|now rewrite Hnil]
    end.
    apply filter_none. intros x Hx. apply In_values in Hx.
    destruct Hx as (k & Hx). apply filter_In in Hx.
    destruct Hx as [_ Hx]. now apply negb_true_iff in Hx.
  - intros v Hv. rewrite !getCartItems_eq.
    cbn [MemStorage.cartItems MemStorage.setCartItems].
    unfold MemStorage.getProduct. cbn [MemStorage.products MemStorage.setCartItems].
    f_equal. unfold JsMap.values. rewrite filter_map_swap.
    rewrite filter_filter, filter_map_swap. f_equal.
    apply filter_ext. intros [k w]. cbn [snd].
    destruct (Z.eqb_spec (CartItem.userId w) v) as [Hw|Hw];
      [|now rewrite andb_false_r].
    rewrite andb_true_r. apply negb_true_iff, Z.eqb_neq. congruence.
  - intros id. reflexivity.
Qed.

(** X15. A request that is refused changes nothing: whenever one of
    the handlers that write ([POST /api/cart], [PUT /api/cart/:id],
    [DELETE /api/cart/:id], [DELETE /api/cart], [POST /api/orders])
    answers with a status other than 200, 201 or 204, the store is left
    exactly as it was; without a login each of them answers 401. *)
Theorem refused_requests_change_nothing
    (RawCart RawOrder RawItem : Type)
    (insertCartItemSchema : RawCart -> Z -> option InsertCartItem.t)
    (insertOrderSchema : RawOrder -> Z -> option InsertOrder.t)
    (insertOrderItemSchema : RawItem -> option InsertOrderItem.t)
    (storage : MemStorage.t) (user : option User.t) (raw : RawCart)
    (id : string) (quantity : Api.Quantity)
    (req : Routes.Request RawOrder RawItem) (now : Z) :
  let accepted status := (status =? 200) || (status =? 201) || (status =? 204) in
  let posted := Api.postCart insertCartItemSchema storage user raw in
  let put := Api.putCartItem storage user id quantity in
  let deleted := Api.deleteCartItem storage user id in
  let cleared := Api.deleteCart storage user in
  let ordered :=
    Routes.postOrders RawOrder RawItem insertOrderSchema insertOrderItemSchema
      storage req now in
  (accepted (Api.status (snd posted)) = false -> fst posted = storage)
  /\ (accepted (Api.status (snd put)) = false -> fst put = storage)
  /\ (accepted (Api.status (snd deleted)) = false -> fst deleted = storage)
  /\ (accepted (Api.status (snd cleared)) = false -> fst cleared = storage)
  /\ (accepted (Routes.status (snd ordered)) = false -> fst ordered = storage)
  /\ (user = None ->
      Api.status (snd posted) = 401 /\ Api.status (snd put) = 401
      /\ Api.status (snd deleted) = 401 /\ Api.status (snd cleared) = 401)
  /\ (Routes.user req = None -> Routes.status (snd ordered) = 401).
Proof.
  intros accepted posted put deleted cleared ordered.
  subst accepted posted put deleted cleared ordered.
  unfold Api.postCart, Api.putCartItem, Api.deleteCartItem, Api.deleteCart,
    Routes.postOrders.
  repeat split.
  - destruct user; [|reflexivity].
    destruct (insertCartItemSchema raw (User.id t)); [|reflexivity].
    destruct (MemStorage.addCartItem storage t0). discriminate.
  - destruct user; [|reflexivity].
    destruct quantity as [q|]; [|reflexivity].
    destruct (q <? 1); [reflexivity|].
    destruct (JsGlobal.parseInt id) as [n|]; [|reflexivity].
    unfold MemStorage.updateCartItem.
    destruct (JsMap.get (MemStorage.cartItems storage) n); [discriminate|reflexivity].
  - destruct user; [discriminate|reflexivity].
  - destruct user; [discriminate|reflexivity].
  - destruct (Routes.user req); [|reflexivity].
    destruct (Routes.items req) as [|[|item items]]; try reflexivity.
    destruct (insertOrderSchema (Routes.orderData req) (User.id t)); [|reflexivity].
    destruct (Routes.parseItems RawItem insertOrderItemSchema (item :: items));
      [|reflexivity].
    destruct (MemStorage.createOrder storage t0 l now). discriminate.
  - now subst user.
  - now subst user.
  - now subst user.
  - now subst user.
  - intros ->. reflexivity.
Qed.

(** X16. [PUT /api/cart/:id] with a login, in every state of the
    store.  A quantity that is not a number or is below [1] is answered
    400; otherwise an id that names no row (or is no number) is
    answered 404; otherwise the answer is 200 with the row of that id
    carrying the new quantity, which is then what the store holds under
    that id.  The row's owner is not compared with the user: the user's
    id plays no part in the answer or in the new store. *)
Theorem putCartItem_answers (storage : MemStorage.t) (u u' : User.t)
    (id : string) (quantity : Api.Quantity) :
  MemStorage.reachable storage ->
  let put := Api.putCartItem storage (Some u) id quantity in
  put = Api.putCartItem storage (Some u') id quantity
  /\ ((quantity = Api.NotANumber
       \/ exists q, quantity = Api.NumberValue q /\ q < 1) ->
      put = (storage, Api.respond 400 (Api.Message "Invalid quantity")))
  /\ (forall q, quantity = Api.NumberValue q -> 1 <= q ->
      match JsGlobal.parseInt id with
      | None => put = (storage, Api.respond 404 (Api.Message "Cart item not found"))
      | Some n =>
          match JsMap.get (MemStorage.cartItems storage) n with
          | None =>
              put = (storage, Api.respond 404 (Api.Message "Cart item not found"))
          | Some row =>
              let updated :=
                CartItem.mk n (CartItem.userId row) (CartItem.productId row) q in
              snd put = Api.respond 200 (Api.CartItemJson updated)
              /\ JsMap.get (MemStorage.cartItems (fst put)) n = Some updated
              /\ MemStorage.getCartItem (fst put) (CartItem.userId row)
                                                  (CartItem.productId row)
                 = Some updated
          end
      end).
Proof.
  intros Hreach put. subst put. split; [reflexivity|]. split.
  - intros [->|(q & -> & Hq)]; [reflexivity|].
    unfold Api.putCartItem. destruct (Z.ltb_spec q 1); [reflexivity|lia].
  - intros q -> Hq. unfold Api.putCartItem.
    destruct (Z.ltb_spec q 1); [lia|].
    destruct (JsGlobal.parseInt id) as [n|]; [|reflexivity].
    pose proof (storeOk_cartOk _ (reachable_storeOk _ Hreach)) as Hcart.
    destruct (JsMap.get (MemStorage.cartItems storage) n) as [row|] eqn:Hget.
    + destruct (updateCartItem_present storage n q row Hcart Hget) as [Heq Hfound].
      rewrite Heq in Hfound |- *.
      cbn [fst snd MemStorage.cartItems MemStorage.setCartItems] in *.
      split; [reflexivity|]. split; [apply get_set_same|exact Hfound].
    + unfold MemStorage.updateCartItem. now rewrite Hget.
Qed.

(** X17. [DELETE /api/cart/:id] with a login and an id that reads as a
    number always answers 204, also when the id names no row;
    afterwards the id has no row.  The row's owner is not compared with
    the user, so the row of another user is removed just the same; rows
    with another id stay. *)
Theorem deleteCartItem_answers (storage : MemStorage.t) (u u' : User.t)
    (id : string) (n : Z) :
  JsGlobal.parseInt id = Some n ->
  let deleted := Api.deleteCartItem storage (Some u) id in
  deleted = Api.deleteCartItem storage (Some u') id
  /\ snd deleted = Api.respond 204 Api.NoContent
  /\ JsMap.get (MemStorage.cartItems (fst deleted)) n = None
  /\ (forall n', n' <> n ->
        JsMap.get (MemStorage.cartItems (fst deleted)) n'
        = JsMap.get (MemStorage.cartItems storage) n').
Proof.
  intros Hid deleted. subst deleted. unfold Api.deleteCartItem. rewrite Hid.
  cbn [fst snd]. unfold MemStorage.removeCartItem.
  cbn [MemStorage.cartItems MemStorage.setCartItems].
  repeat split.
  - apply get_delete_same.
  - intros n' Hne. apply get_delete_other. congruence.
Qed.

(** X18. [GET /api/orders/:id] hands out an order only to its owner:
    the answer is 200 exactly when the id names an order whose user is
    the logged-in user, and then carries that order with its lines; an
    order of another user is answered 403, no order 404, no login 401. *)
Theorem getOrderById_owner_only (storage : MemStorage.t) (user : option User.t)
    (id : string) :
  let answer := Api.getOrderById storage user id in
  let found :=
    match JsGlobal.parseInt id with
    | Some n => MemStorage.getOrder storage n
    | None => None
    end in
  (Api.status answer = 200
   <-> exists u order,
         user = Some u /\ found = Some order
         /\ OrderWithItems.userId order = User.id u)
  /\ (forall order, Api.body answer = Api.OrderJson order ->
        found = Some order
        /\ exists u, user = Some u /\ OrderWithItems.userId order = User.id u)
  /\ (user = None -> Api.status answer = 401)
  /\ (forall u, user = Some u -> found = None -> Api.status answer = 404)
  /\ (forall u order, user = Some u -> found = Some order ->
        OrderWithItems.userId order <> User.id u -> Api.status answer = 403).
Proof.
  intros answer found. subst answer found. unfold Api.getOrderById.
  destruct user as [u|].
  - destruct (match JsGlobal.parseInt id with
              | Some n => MemStorage.getOrder storage n
              | None => None
              end) as [order|].
    + destruct (Z.eqb_spec (OrderWithItems.userId order) (User.id u)) as [Hown|Hown];
        cbn [negb Api.status Api.body].
      * split; [split; [intros _; now exists u, order|reflexivity]|].
        split; [intros o Ho; inversion Ho; subst; split; [reflexivity|now exists u]|].
        split; [discriminate|]. split; [discriminate|].
        intros u0 o Hu Ho Hne. inversion Hu; inversion Ho; subst. contradiction.
      * split; [split; [discriminate|]|].
        { intros (u0 & o & Hu & Ho & Heq). inversion Hu; inversion Ho; subst.
          contradiction. }
        split; [discriminate|]. split; [discriminate|].
        split; [discriminate|reflexivity].
    + cbn [Api.status Api.body].
      split; [split; [discriminate|intros (u0 & o & _ & Ho & _); discriminate]|].
      split; [discriminate|]. split; [discriminate|].
      split; [reflexivity|discriminate].
  - cbn [Api.status Api.body].
    split; [split; [discriminate|intros (u0 & o & Hu & _); discriminate]|].
    split; [discriminate|]. split; [reflexivity|].
    split; discriminate.
Qed.

Lemma newOrderItems_fields (id n : Z) (items : list InsertOrderItem.t) :
  map (fun row =>
         (OrderItem.productId row, OrderItem.quantity row, OrderItem.price row))
      (JsMap.values (newOrderItems id n items))
  = map (fun item =>
           (InsertOrderItem.productId item, InsertOrderItem.quantity item,
            InsertOrderItem.price item))
        items.
Proof.
  revert n. induction items as [|item items IH]; intros n; simpl; [reflexivity|].
  f_equal. apply IH.
Qed.

(** X19. An accepted order.  In every state of the store, when
    [POST /api/orders] answers 201 the user was logged in, [items] was
    a non-empty array and both schemas accepted their input; the answer
    carries the new order, whose id is the counter's value; the store
    then holds that order with one line per validated item (same
    product id, quantity and price, in order); the cart of the user is
    empty, and the cart of every other user is what it was. *)
Theorem postOrders_accepted (RawOrder RawItem : Type)
    (insertOrderSchema : RawOrder -> Z -> option InsertOrder.t)
    (insertOrderItemSchema : RawItem -> option InsertOrderItem.t)
    (storage : MemStorage.t) (req : Routes.Request RawOrder RawItem) (now : Z) :
  MemStorage.reachable storage ->
  let answer :=
    Routes.postOrders RawOrder RawItem insertOrderSchema insertOrderItemSchema
      storage req now in
  Routes.status (snd answer) = 201 ->
  exists u items orderData validated r,
    Routes.user req = Some u
    /\ Routes.items req = Routes.ArrayOf items /\ items <> []
    /\ insertOrderSchema (Routes.orderData req) (User.id u) = Some orderData
    /\ Routes.parseItems RawItem insertOrderItemSchema items = Some validated
    /\ List.length validated = List.length items
    /\ Routes.body (snd answer)
       = Routes.OrderJson
           (Order.mk (MemStorage.orderId storage) (InsertOrder.userId orderData)
              (InsertOrder.total orderData) (InsertOrder.status orderData) now)
    /\ MemStorage.getOrder (fst answer) (MemStorage.orderId storage) = Some r
    /\ map (fun line =>
              (OrderItemWithProduct.productId line,
               OrderItemWithProduct.quantity line,
               OrderItemWithProduct.price line))
           (OrderWithItems.items r)
       = map (fun item =>
                (InsertOrderItem.productId item, InsertOrderItem.quantity item,
                 InsertOrderItem.price item))
             validated
    /\ MemStorage.getCartItems (fst answer) (User.id u) = []
    /\ (forall v, v <> User.id u ->
          MemStorage.getCartItems (fst answer) v = MemStorage.getCartItems storage v).
Proof.
  intros Hreach answer. subst answer. unfold Routes.postOrders.
  destruct (Routes.user req) as [u|] eqn:Huser; [|discriminate].
  destruct (Routes.items req) as [|[|item items]] eqn:Hitems; try discriminate.
  destruct (insertOrderSchema (Routes.orderData req) (User.id u)) as [orderData|]
    eqn:Hschema; [|discriminate].
  destruct (Routes.parseItems RawItem insertOrderItemSchema (item :: items))
    as [validated|] eqn:Hparse; [|discriminate].
  intros _.
  pose proof (reachable_storeOk _ Hreach) as Hok.
  pose proof (createOrder_holds_new storage orderData validated now
                (storeOk_ordersOk _ Hok)) as (_ & Hget & _ & Hrows).
  pose proof (storeOk_createOrder storage orderData validated now Hok) as Hok'.
  destruct (createOrder_spec storage orderData validated now (ok_orders _ Hok)
              (ok_orderItems _ Hok)) as (Heq & _ & _).
  destruct (MemStorage.createOrder storage orderData validated now)
    as [storage' order] eqn:Hcreated.
  cbn [fst snd] in *.
  destruct (clearCart_carts storage' (User.id u) (ok_cartItems _ Hok'))
    as (Hempty & Hothers & Horders).
  assert (Hlen : forall (raws : list RawItem) vs,
            Routes.parseItems RawItem insertOrderItemSchema raws = Some vs ->
            List.length vs = List.length raws).
  { induction raws as [|raw raws IH]; intros vs Hvs; simpl in Hvs.
    - inversion Hvs. reflexivity.
    - destruct (insertOrderItemSchema raw); [|discriminate].
      destruct (Routes.parseItems RawItem insertOrderItemSchema raws);
        [|discriminate].
      inversion Hvs; subst. simpl. f_equal. now apply IH. }
  inversion Heq; subst storage' order. clear Heq.
  unfold linesOf in Hrows. cbn [Order.id] in Hget, Hrows.
  eexists u, (item :: items), orderData, validated, _.
  split; [reflexivity|]. split; [reflexivity|]. split; [discriminate|].
  split; [exact Hschema|]. split; [exact Hparse|].
  split; [now apply Hlen|]. split; [reflexivity|].
  split; [|split; [|split]].
  - rewrite Horders. unfold MemStorage.getOrder. rewrite Hget. reflexivity.
  - cbn [OrderWithItems.items]. rewrite Hrows, map_map.
    cbn [OrderItemWithProduct.productId OrderItemWithProduct.quantity
         OrderItemWithProduct.price].
    apply newOrderItems_fields.
  - exact Hempty.
  - intros v Hv. rewrite (Hothers v Hv). reflexivity.
Qed.

(* ------------------------------------------------------------------ *)
(** ** Ids in the path                                                  *)
(* ------------------------------------------------------------------ *)

Lemma digit_plain (c : ascii) (d : Z) :
  JsNumber.digit c = Some d ->
  JsGlobal.isWhiteSpace c = false /\ c <> "-"%char /\ c <> "+"%char.
Proof.
  destruct c as [[|] [|] [|] [|] [|] [|] [|] [|]]; vm_compute;
    intros H; try discriminate H; repeat split; discriminate.
Qed.

Lemma digitPrefix_tail (ds : string) (c : ascii) (rest : string) (acc : Z) (n : nat) :
  isDigits ds = true -> JsNumber.digit c = None ->
  JsGlobal.digitPrefix (ds ++ String c rest) acc n = JsGlobal.digitPrefix ds acc n.
Proof.
  revert acc n. induction ds as [|ch ds IH]; intros acc n Hds Hc.
  - cbn. now rewrite Hc.
  - cbn in *. destruct (JsNumber.digit ch); [|discriminate]. now apply IH.
Qed.

Lemma parseInt_digits_tail (ch : ascii) (ds : string) (c : ascii) (rest : string) :
  isDigits (String ch ds) = true -> JsNumber.digit c = None ->
  JsGlobal.parseInt (String ch ds ++ String c rest)
  = JsGlobal.parseInt (String ch ds).
Proof.
  intros Hds Hc.
  assert (Hch : exists d, JsNumber.digit ch = Some d).
  { cbn in Hds. destruct (JsNumber.digit ch) as [d|]; [now exists d|discriminate]. }
  destruct Hch as (d & Hd). destruct (digit_plain ch d Hd) as (Hws & Hminus & Hplus).
  unfold JsGlobal.parseInt.
  change (String ch ds ++ String c rest)%string
    with (String ch (ds ++ String c rest)%string).
  cbn [JsGlobal.trimStart]. rewrite Hws.
  assert (Hsign : forall (tl : string) (T : Type) (a b other : T),
            match String ch tl with
            | String "-"%char r => a
            | String "+"%char r => b
            | _ => other
            end = other).
  { intros tl T a b other.
    destruct ch as [[|] [|] [|] [|] [|] [|] [|] [|]]; try reflexivity;
      exfalso; (now apply Hminus) || (now apply Hplus). }
  assert (Hsplit : forall tl : string,
            (let (negative, r) :=
               match String ch tl with
               | String "-"%char r => (true, r)
               | String "+"%char r => (false, r)
               | _ => (false, String ch tl)
               end in
             match JsGlobal.digitPrefix r 0 0%nat with
             | (_, O) => None
             | (v, S _) => Some (if negative then - v else v)
             end)
            = match JsGlobal.digitPrefix (String ch tl) 0 0%nat with
              | (_, O) => None
              | (v, S _) => Some v
              end).
  { intros tl.
    destruct ch as [[|] [|] [|] [|] [|] [|] [|] [|]]; try reflexivity;
      exfalso; (now apply Hminus) || (now apply Hplus). }
  rewrite !Hsplit.
  change (String ch (ds ++ String c rest)%string)
    with (String ch ds ++ String c rest)%string.
  now rewrite digitPrefix_tail.
Qed.

(** X20. The id in a path is read by [parseInt]: it stops at the first
    character that is not a digit, so an id made of digits followed by
    anything else is answered as the digits alone are, by
    [GET /api/products/:id] and [GET /api/orders/:id], and [DELETE
    /api/cart/:id] deletes the row the digits name.  An id that [parseInt]
    cannot read is answered 404 by the two lookups. *)
Theorem path_id_read_by_parseInt (storage : MemStorage.t) (user : option User.t)
    (ch : ascii) (ds : string) (c : ascii) (rest id : string) :
  isDigits (String ch ds) = true -> JsNumber.digit c = None ->
  let digits := String ch ds in
  let longer := (digits ++ String c rest)%string in
  Api.getProductById storage longer = Api.getProductById storage digits
  /\ Api.getOrderById storage user longer = Api.getOrderById storage user digits
  /\ Api.deleteCartItem storage user longer = Api.deleteCartItem storage user digits
  /\ (JsGlobal.parseInt id = None ->
      Api.getProductById storage id
      = Api.respond 404 (Api.Message "Product not found")
      /\ forall u, Api.getOrderById storage (Some u) id
                   = Api.respond 404 (Api.Message "Order not found")).
Proof.
  intros Hds Hc digits longer. subst digits longer.
  unfold Api.getProductById, Api.getOrderById, Api.deleteCartItem.
  rewrite (parseInt_digits_tail ch ds c rest Hds Hc).
  repeat split; try reflexivity.
  - now rewrite H.
  - intros u. now rewrite H.
Qed.

(* ================================================================== *)
(** * Properties of the checkout steps                                   *)
(* ================================================================== *)

Lemma uiRun_confirmation (isEmail : string -> bool) (events : list UiEvent) :
  uiRun isEmail Checkout.confirmation events = Checkout.confirmation.
Proof.
  unfold uiRun. induction events as [|e events IH]; [reflexivity|].
  cbn [fold_left]. replace (uiStep isEmail Checkout.confirmation e)
    with Checkout.confirmation; [exact IH|].
  destruct e; cbn; try reflexivity.
  unfold Checkout.handleSubmit. now destruct (Checkout.checkoutFormSchema _ _).
Qed.

Lemma uiStep_cases (isEmail : string -> bool) (step : Checkout.CheckoutStep)
    (e : UiEvent) :
  step <> Checkout.confirmation ->
  (uiStep isEmail step e = Checkout.confirmation -> e = OrderSucceeded)
  /\ (step <> Checkout.review -> uiStep isEmail step e = Checkout.review ->
      exists values,
        e = Submitted values
        /\ step = Checkout.payment
        /\ Checkout.checkoutFormSchema isEmail values = true
        /\ Checkout.validatePaymentFields values = true).
Proof.
  intros Hstep. destruct e as [values| | |message]; cbn.
  - unfold Checkout.handleSubmit, Checkout.onSubmit.
    destruct (Checkout.checkoutFormSchema isEmail values) eqn:Hschema;
      destruct step; cbn; try contradiction;
      try destruct (Checkout.validatePaymentFields values) eqn:Hv; cbn;
      split; intros; try discriminate; try contradiction; try congruence.
    exists values. repeat split; assumption.
  - destruct step; cbn; split; intros; try discriminate; try contradiction;
      congruence.
  - split; [reflexivity|discriminate].
  - split; intros; try contradiction; congruence.
Qed.

(** X21. The last step is final and has one way in: once
    [checkoutStep] is "confirmation" no submission, "Back" or settled
    request changes it; and starting from any other step it becomes
    "confirmation" only if an order request succeeded. *)
Theorem confirmation_only_after_success (isEmail : string -> bool)
    (checkoutStep : Checkout.CheckoutStep) (events : list UiEvent) :
  uiRun isEmail Checkout.confirmation events = Checkout.confirmation
  /\ (checkoutStep <> Checkout.confirmation ->
      uiRun isEmail checkoutStep events = Checkout.confirmation ->
      In OrderSucceeded events).
Proof.
  split; [apply uiRun_confirmation|].
  revert checkoutStep. unfold uiRun.
  induction events as [|e events IH]; intros step Hstep Hrun; cbn in *.
  - contradiction.
  - destruct (uiStep_cases isEmail step e Hstep) as [Hconf _].
    destruct e as [values| | |message]; try (now left); right;
      (eapply IH; [|exact Hrun]);
      intros Heq; specialize (Hconf Heq); discriminate.
Qed.

(** X22. Starting at "shipping" or "payment", the step becomes
    "review" only after a submission whose values pass the form schema
    and the payment check. *)
Theorem review_only_after_valid_payment (isEmail : string -> bool)
    (checkoutStep : Checkout.CheckoutStep) (events : list UiEvent) :
  checkoutStep = Checkout.shipping \/ checkoutStep = Checkout.payment ->
  uiRun isEmail checkoutStep events = Checkout.review ->
  exists values,
    In (Submitted values) events
    /\ Checkout.checkoutFormSchema isEmail values = true
    /\ Checkout.validatePaymentFields values = true.
Proof.
  revert checkoutStep. unfold uiRun.
  induction events as [|e events IH]; intros step Hstep Hrun; cbn in *.
  - destruct Hstep; subst; discriminate.
  - assert (Hnc : step <> Checkout.confirmation)
      by (destruct Hstep; subst; discriminate).
    assert (Hnr : step <> Checkout.review)
      by (destruct Hstep; subst; discriminate).
    destruct (uiStep_cases isEmail step e Hnc) as [_ Hrev].
    destruct (uiStep isEmail step e) eqn:Hnext.
    + destruct (IH _ (or_introl eq_refl) Hrun) as (v & Hin & Hv).
      exists v. split; [now right|assumption].
    + destruct (IH _ (or_intror eq_refl) Hrun) as (v & Hin & Hv).
      exists v. split; [now right|assumption].
    + destruct (Hrev Hnr eq_refl) as (v & -> & _ & Hs & Hv).
      exists v. split; [now left|]. split; assumption.
    + change (fold_left (uiStep isEmail) events Checkout.confirmation)
        with (uiRun isEmail Checkout.confirmation events) in Hrun.
      rewrite uiRun_confirmation in Hrun. discriminate.
Qed.

(* ================================================================== *)
(** * Properties of the page buttons                                     *)
(* ================================================================== *)

Ltac page_cases :=
  unfold ProductGrid.pageItem; cbv zeta;
  repeat match goal with
         | |- context [?a =? ?b] => destruct (Z.eqb_spec a b)
         | |- context [?a <=? ?b] => destruct (Z.leb_spec a b)
         | |- context [?a <? ?b] => destruct (Z.ltb_spec a b)
         end;
  cbn [orb andb].

Lemma nth_error_seq_from_0 (n k : nat) :
  (k < n)%nat -> nth_error (seq 0 n) k = Some k.
Proof.
  intros Hk. rewrite (nth_error_nth' _ 0%nat) by (now rewrite length_seq).
  now rewrite seq_nth.
Qed.

(** The three cases of [pageItem], as propositions. *)
Lemma pageItem_cases (page totalPages i : Z) :
  let n := i + 1 in
  let shown := n = 1 \/ n = totalPages \/ Z.abs (n - page) <= 1 in
  let dots := (n = 2 /\ 3 < page) \/ (n = totalPages - 1 /\ page < totalPages - 2) in
  (shown -> ProductGrid.pageItem page totalPages i = ProductGrid.PageButton n)
  /\ (~ shown -> dots ->
      ProductGrid.pageItem page totalPages i = ProductGrid.Ellipsis n)
  /\ (~ shown -> ~ dots ->
      ProductGrid.pageItem page totalPages i = ProductGrid.Nothing).
Proof.
  cbv zeta. page_cases; repeat split; intros; try reflexivity; exfalso; lia.
Qed.

(** X23. The page buttons, for a current page between [1] and
    [totalPages].  The first, the last and the current page always have
    a button.  A page with no button is never dropped silently: on its
    side of the current page there is a "..." button, at page 2 before
    the current page and at the last page but one after it; "..."
    appears nowhere else.  When there is more than one page, the item
    of index [i] is the one rendered at place [i]. *)
Theorem page_buttons_leave_no_silent_gap (page totalPages i : Z) :
  1 <= page <= totalPages ->
  0 <= i < totalPages ->
  let item := ProductGrid.pageItem page totalPages in
  item 0 = ProductGrid.PageButton 1
  /\ item (totalPages - 1) = ProductGrid.PageButton totalPages
  /\ item (page - 1) = ProductGrid.PageButton page
  /\ ((forall n, item i <> ProductGrid.PageButton n) ->
      (i + 1 < page -> item 1 = ProductGrid.Ellipsis 2)
      /\ (page < i + 1 ->
          item (totalPages - 2) = ProductGrid.Ellipsis (totalPages - 1)))
  /\ (forall n, item i = ProductGrid.Ellipsis n ->
        n = i + 1 /\ (i = 1 \/ i = totalPages - 2))
  /\ (forall n, item i = ProductGrid.PageButton n -> n = i + 1)
  /\ (1 < totalPages ->
      nth_error (ProductGrid.pageItems page totalPages) (Z.to_nat i)
      = Some (item i)).
Proof.
  intros Hpage Hi item. subst item.
  split; [apply (proj1 (pageItem_cases page totalPages 0)); now left|].
  split.
  { replace totalPages with (totalPages - 1 + 1) at 3 by lia.
    apply (proj1 (pageItem_cases page totalPages (totalPages - 1))). lia. }
  split.
  { replace page with (page - 1 + 1) at 3 by lia.
    apply (proj1 (pageItem_cases page totalPages (page - 1))). lia. }
  split; [|split; [|split]].
  - intros Hno.
    assert (Hhidden : ~ (i + 1 = 1 \/ i + 1 = totalPages
                         \/ Z.abs (i + 1 - page) <= 1)).
    { intros Hshown.
      apply (Hno (i + 1)), (proj1 (pageItem_cases page totalPages i)), Hshown. }
    split; intros Hside.
    + apply (proj1 (proj2 (pageItem_cases page totalPages 1))); lia.
    + replace (totalPages - 1) with (totalPages - 2 + 1) by lia.
      apply (proj1 (proj2 (pageItem_cases page totalPages (totalPages - 2)))); lia.
  - intros n. page_cases; intros Hitem; inversion Hitem; lia.
  - intros n. page_cases; intros Hitem; inversion Hitem; reflexivity.
  - intros Hmany. unfold ProductGrid.pageItems, ProductGrid.indices.
    destruct (Z.ltb_spec 1 totalPages); [|lia].
    apply map_nth_error.
    replace i with (Z.of_nat (Z.to_nat i)) at 2 by lia.
    apply map_nth_error. apply nth_error_seq_from_0. lia.
Qed.

(* ================================================================== *)
(** * Counting and joining                                               *)
(* ================================================================== *)

Lemma filter_length_le {A : Type} (p q : A -> bool) (l : list A) :
  (forall x, p x = true -> q x = true) ->
  (List.length (filter p l) <= List.length (filter q l))%nat.
Proof.
  intros Himp. induction l as [|a l IH]; simpl; [lia|].
  destruct (p a) eqn:Hp.
  - rewrite (Himp a Hp). simpl. lia.
  - destruct (q a); simpl; lia.
Qed.

(** X24. [getProductCount], given the options of a listing, is never
    below the number of products the unpaged listing holds, and is equal
    to it whenever the featured flag is not set; it is the same for all
    sort keys and paging arguments. *)
Theorem count_bounds_listing (this : MemStorage.t) (options : ProductOptions.t)
    (limit offset : option Z) (sort : option string) :
  Z.of_nat (List.length (MemStorage.getProducts this (withoutPaging (Some options))))
  <= MemStorage.getProductCount this (Some (asCountOptions options))
  /\ (truthyBool (ProductOptions.featured options) = false ->
      MemStorage.getProductCount this (Some (asCountOptions options))
      = Z.of_nat
          (List.length (MemStorage.getProducts this (withoutPaging (Some options)))))
  /\ MemStorage.getProductCount this
       (Some (asCountOptions
                (ProductOptions.mk (ProductOptions.categoryId options)
                   (ProductOptions.featured options) limit offset
                   (ProductOptions.search options) sort)))
     = MemStorage.getProductCount this (Some (asCountOptions options)).
Proof.
  split; [|split; [apply count_is_length_unless_featured|reflexivity]].
  rewrite getProductCount_filter, unpaged_listing.
  assert (Hlen : forall l : list Product.t,
            List.length (sortStage (Some options) l) = List.length l).
  { intros l. unfold sortStage. destruct (comparatorOf _);
      [apply length_sort|reflexivity]. }
  rewrite Hlen. apply inj_le. unfold filterStage.
  apply filter_length_le. intros p.
  cbn [optChain asCountOptions CountOptions.categoryId CountOptions.search].
  rewrite !andb_true_iff. tauto.
Qed.

Lemma getProduct_id (this : MemStorage.t) (id : Z) (p : Product.t) :
  storeOk this -> MemStorage.getProduct this id = Some p -> Product.id p = id.
Proof.
  intros Hok Hget. destruct (ok_products _ Hok) as (Hk & _).
  symmetry. eapply keyedBy_In; [exact Hk|]. now apply get_In.
Qed.

Lemma NoDup_products_of_user (u : Z) (rows : list CartItem.t) :
  NoDup (map cartKey rows) ->
  NoDup (map CartItem.productId
           (filter (fun item => CartItem.userId item =? u) rows)).
Proof.
  induction rows as [|row rows IH]; simpl; intros Hnd; [constructor|].
  inversion Hnd as [|? ? Hnotin Hnd']; subst.
  destruct (Z.eqb_spec (CartItem.userId row) u) as [Hu|Hu]; simpl; [|auto].
  constructor; [|auto].
  intros Hin. apply Hnotin. rewrite in_map_iff in *.
  destruct Hin as (other & Hp & Hother). apply filter_In in Hother.
  destruct Hother as [Hother Hou]. apply Z.eqb_eq in Hou.
  exists other. split; [|assumption]. unfold cartKey. congruence.
Qed.

(** X25. In every state of the store, the cart [getCartItems] returns
    for a user holds rows of that user only, lists no product twice,
    and the product attached to a row, when there is one, is the
    product with the id the row names; the same holds of the products
    attached to the lines of an order by [getOrder], whose lines all
    carry the order's id. *)
Theorem joins_are_consistent (this : MemStorage.t) (u id : Z) :
  MemStorage.reachable this ->
  (forall row, In row (MemStorage.getCartItems this u) ->
     CartItemWithProduct.userId row = u
     /\ forall p, CartItemWithProduct.product row = Some p ->
                  Product.id p = CartItemWithProduct.productId row)
  /\ NoDup (map CartItemWithProduct.productId (MemStorage.getCartItems this u))
  /\ (forall r line,
        MemStorage.getOrder this id = Some r ->
        In line (OrderWithItems.items r) ->
        OrderWithItems.id r = id
        /\ OrderItemWithProduct.orderId line = id
        /\ forall p, OrderItemWithProduct.product line = Some p ->
                     Product.id p = OrderItemWithProduct.productId line).
Proof.
  intros Hreach. pose proof (reachable_storeOk _ Hreach) as Hok.
  split; [|split].
  - intros row Hin. rewrite getCartItems_eq in Hin. rewrite in_map_iff in Hin.
    destruct Hin as (item & <- & Hitem). apply filter_In in Hitem.
    destruct Hitem as [_ Hu]. apply Z.eqb_eq in Hu.
    cbn [joinCart CartItemWithProduct.userId CartItemWithProduct.product
         CartItemWithProduct.productId].
    split; [assumption|]. intros p Hp. now apply (getProduct_id this).
  - rewrite getCartItems_eq, map_map.
    cbn [joinCart CartItemWithProduct.productId].
    apply NoDup_products_of_user, (ok_cartUnique _ Hok).
  - intros r line Hget Hin. unfold MemStorage.getOrder in Hget.
    destruct (JsMap.get (MemStorage.orders this) id) as [order|] eqn:Horder;
      [|discriminate].
    inversion Hget; subst r. clear Hget.
    cbn [OrderWithItems.items OrderWithItems.id] in *.
    rewrite in_map_iff in Hin. destruct Hin as (item & <- & Hitem).
    apply filter_In in Hitem. destruct Hitem as [_ Hid]. apply Z.eqb_eq in Hid.
    cbn [OrderItemWithProduct.orderId OrderItemWithProduct.product
         OrderItemWithProduct.productId].
    split; [|split; [assumption|]].
    + destruct (ok_orders _ Hok) as (Hk & _). symmetry.
      eapply keyedBy_In; [exact Hk|]. now apply get_In.
    + intros p Hp. now apply (getProduct_id this).
Qed.

(* ================================================================== *)
(** * The further properties at concrete inputs                          *)
(* ================================================================== *)

Lemma reachable_cartOfOne : MemStorage.reachable cartOfOne.
Proof. apply MemStorage.reachable_call, MemStorage.reachable_new. Defined.

Lemma reachable_twoOrders : MemStorage.reachable twoOrders.
Proof. do 2 apply MemStorage.reachable_call. apply MemStorage.reachable_new. Defined.

Lemma createUser_getUser_witness :
  let insertUser := InsertUser.mk "ada" "secret" "ada@example.com" None None in
  let created := MemStorage.createUser MemStorage.storage insertUser 1700000000000 in
  MemStorage.reachable MemStorage.storage
  /\ MemStorage.getUser (fst created) 1 = Some (snd created).
Proof.
  intros insertUser created. split; [apply MemStorage.reachable_new|].
  pose proof (createUser_getUser MemStorage.storage insertUser 1700000000000
                MemStorage.reachable_new) as H.
  cbv zeta in H. destruct H as (_ & _ & H & _). exact H.
Defined.

Lemma createUser_lookup_keeps_first_witness :
  let insertUser := InsertUser.mk "ada" "secret" "ada@example.com" None None in
  let this := MemStorage.call MemStorage.storage (MemStorage.CreateUser insertUser 0) in
  let created := MemStorage.createUser this insertUser 5 in
  MemStorage.reachable this
  /\ MemStorage.getUserByUsername (fst created) "ada" = Some ada.
Proof.
  intros insertUser this created.
  assert (Hreach : MemStorage.reachable this)
    by apply MemStorage.reachable_call, MemStorage.reachable_new.
  split; [exact Hreach|].
  pose proof (createUser_lookup_keeps_first this insertUser 5 "ada"
                "ada@example.com" Hreach) as H.
  cbv zeta in H. destruct H as (H & _). exact H.
Defined.

Lemma addCartItem_getCartItem_witness :
  let added := MemStorage.addCartItem cartOfOne (InsertCartItem.mk 1 19 3) in
  MemStorage.reachable cartOfOne
  /\ MemStorage.getCartItem (fst added) 1 19 = Some (snd added)
  /\ CartItem.quantity (snd added) = 2 + 3.
Proof.
  intros added. split; [apply reachable_cartOfOne|].
  pose proof (addCartItem_getCartItem cartOfOne (InsertCartItem.mk 1 19 3)
                reachable_cartOfOne) as H.
  cbv zeta in H. destruct H as (Hget & Hq & _). split; [exact Hget|exact Hq].
Defined.

Lemma updateCartItem_effect_witness :
  let updated := MemStorage.updateCartItem cartOfOne 1 5 in
  MemStorage.reachable cartOfOne
  /\ JsMap.get (MemStorage.cartItems cartOfOne) 1 = Some (CartItem.mk 1 1 19 2)
  /\ snd updated = Some (CartItem.mk 1 1 19 5)
  /\ MemStorage.getCartItem (fst updated) 1 19 = snd updated.
Proof.
  intros updated. split; [apply reachable_cartOfOne|]. split; [reflexivity|].
  pose proof (updateCartItem_effect cartOfOne 1 5 reachable_cartOfOne) as H.
  cbv zeta in H. destruct H as (_ & H & _).
  destruct (H (CartItem.mk 1 1 19 2) eq_refl) as (Hret & _ & Hfound).
  split; [exact Hret|exact Hfound].
Defined.

Lemma removeCartItem_effect_witness :
  MemStorage.reachable cartOfOne
  /\ JsMap.get (MemStorage.cartItems cartOfOne) 7 = None
  /\ MemStorage.removeCartItem cartOfOne 7 = cartOfOne
  /\ JsMap.get (MemStorage.cartItems (MemStorage.removeCartItem cartOfOne 1)) 1 = None.
Proof.
  split; [apply reachable_cartOfOne|]. split; [reflexivity|].
  destruct (removeCartItem_effect cartOfOne 7 reachable_cartOfOne) as (Hsame & _).
  destruct (removeCartItem_effect cartOfOne 1 reachable_cartOfOne) as (_ & Hgone & _).
  split; [exact (Hsame eq_refl)|exact Hgone].
Defined.

Lemma removed_cart_id_stays_free_witness :
  let later :=
    [MemStorage.AddCartItem (InsertCartItem.mk 1 19 1);
     MemStorage.AddCartItem (InsertCartItem.mk 2 3 1)] in
  MemStorage.reachable cartOfOne
  /\ 1 < MemStorage.cartItemId cartOfOne
  /\ JsMap.get
       (MemStorage.cartItems (calls (MemStorage.removeCartItem cartOfOne 1) later)) 1
     = None.
Proof.
  intros later. split; [apply reachable_cartOfOne|].
  assert (Hlt : 1 < MemStorage.cartItemId cartOfOne) by reflexivity.
  split; [exact Hlt|].
  apply (removed_cart_id_stays_free cartOfOne 1 later reachable_cartOfOne Hlt).
Defined.

Lemma getOrders_newest_first_witness :
  StronglySorted notOlder (MemStorage.getOrders twoOrders 1)
  /\ map Order.id (MemStorage.getOrders twoOrders 1) = [2; 1].
Proof.
  split; [|reflexivity].
  apply (proj1 (proj2 (getOrders_newest_first twoOrders 1))).
Defined.

Lemma listing_is_the_filtered_products_witness :
  let options :=
    Some (ProductOptions.mk (Some 2) None None None (Some "SHIRT") (Some "rating")) in
  Permutation (MemStorage.getProducts MemStorage.storage (withoutPaging options))
              (filterStage MemStorage.storage options)
  /\ map Product.id (MemStorage.getProducts MemStorage.storage options) = [3; 19].
Proof.
  intros options. split; [|reflexivity].
  apply (proj1 (listing_is_the_filtered_products MemStorage.storage options)).
Defined.

Lemma listing_sorted_by_key_witness :
  let listing k :=
    MemStorage.getProducts MemStorage.storage
      (Some (ProductOptions.mk (Some 2) None None None None k)) in
  MemStorage.reachable MemStorage.storage
  /\ "id" <> "" /\ "id" <> "price-asc" /\ "id" <> "price-desc"
  /\ "id" <> "newest" /\ "id" <> "rating"
  /\ listing (Some "id") = listing None.
Proof.
  intros listing. split; [apply MemStorage.reachable_new|].
  assert (H0 : "id" <> "") by discriminate.
  assert (H1 : "id" <> "price-asc") by discriminate.
  assert (H2 : "id" <> "price-desc") by discriminate.
  assert (H3 : "id" <> "newest") by discriminate.
  assert (H4 : "id" <> "rating") by discriminate.
  do 5 (split; [assumption|]).
  pose proof (listing_sorted_by_key MemStorage.storage (Some 2) None None "id"
                MemStorage.reachable_new) as H.
  cbv zeta in H. destruct H as (_ & _ & H).
  exact (proj1 (H H0 H1 H2 H3 H4)).
Defined.

Lemma pages_are_windows_witness :
  let page o l :=
    MemStorage.getProducts MemStorage.storage
      (Some (ProductOptions.mk None None (Some l) (Some o) None None)) in
  0 <= 12 /\ 0 <= 12 /\ 0 <= 12
  /\ Z.of_nat (List.length (page 12 12)) <= 12
  /\ page 12 12 ++ page (12 + 12) 12 = page 12 (12 + 12).
Proof.
  intros page.
  assert (H12 : 0 <= 12) by lia.
  do 3 (split; [exact H12|]).
  pose proof (pages_are_windows MemStorage.storage None None None None 12 12 12
                H12 H12 H12) as H.
  cbv zeta in H. destruct H as (_ & Hlen & Hcat & _).
  split; [exact Hlen|exact Hcat].
Defined.

Lemma unchecked_paging_witness :
  let page o l :=
    MemStorage.getProducts MemStorage.storage
      (Some (ProductOptions.mk None None (Some l) (Some o) None None)) in
  page (-12) 12 = []
  /\ 0 < 1
  /\ List.length (page 0 (- 1)) = 19%nat.
Proof.
  intros page.
  pose proof (unchecked_paging MemStorage.storage None None None None (-12) 1) as H.
  cbv zeta in H. destruct H as (Hempty & Hshort).
  split; [exact Hempty|]. split; [lia|].
  change (List.length (page 0 (- (1))) = 19%nat).
  unfold page. rewrite (Hshort ltac:(lia)). reflexivity.
Defined.

Lemma createOrder_getOrder_witness :
  let created :=
    MemStorage.createOrder MemStorage.storage
      (InsertOrder.mk 1 "19.99" (Some "pending"))
      [InsertOrderItem.mk 77 19 1 "19.99"] 10 in
  MemStorage.reachable MemStorage.storage
  /\ MemStorage.getOrder MemStorage.storage 1 = None
  /\ exists r,
       MemStorage.getOrder (fst created) 1 = Some r
       /\ map OrderItemWithProduct.orderId (OrderWithItems.items r) = [1].
Proof.
  intros created. split; [apply MemStorage.reachable_new|].
  pose proof (createOrder_getOrder MemStorage.storage
                (InsertOrder.mk 1 "19.99" (Some "pending"))
                [InsertOrderItem.mk 77 19 1 "19.99"] 10
                MemStorage.reachable_new) as H.
  cbv zeta in H. destruct H as (_ & Hnone & r & Hget & _ & Hlines).
  split; [exact Hnone|]. exists r. split; [exact Hget|].
  apply (f_equal (map (fun t => fst (fst (fst (fst t)))))) in Hlines.
  rewrite !map_map in Hlines. exact Hlines.
Defined.

Lemma createOrder_frame_witness :
  let this' :=
    fst (MemStorage.createOrder twoOrders (InsertOrder.mk 2 "0" None) [] 30) in
  MemStorage.reachable twoOrders
  /\ exists r,
       MemStorage.getOrder twoOrders 1 = Some r
       /\ MemStorage.getOrder this' 1 = Some r.
Proof.
  intros this'. split; [apply reachable_twoOrders|].
  pose proof (createOrder_frame twoOrders (InsertOrder.mk 2 "0" None) [] 30
                reachable_twoOrders) as H.
  cbv zeta in H. destruct H as (H & _).
  eexists. split; [reflexivity|]. apply H. reflexivity.
Defined.

Lemma lookups_beyond_counter_witness :
  MemStorage.reachable MemStorage.storage
  /\ MemStorage.productId MemStorage.storage <= 21
  /\ MemStorage.getProduct MemStorage.storage 21 = None.
Proof.
  split; [apply MemStorage.reachable_new|].
  assert (Hle : MemStorage.productId MemStorage.storage <= 21) by (cbn; lia).
  split; [exact Hle|].
  exact (proj2 (proj2 (lookups_beyond_counter MemStorage.storage 21
                         MemStorage.reachable_new)) Hle).
Defined.

Lemma refused_requests_change_nothing_witness :
  let put := Api.putCartItem cartOfOne (Some ada) "1" (Api.NumberValue 0) in
  Api.status (snd put) = 400 /\ fst put = cartOfOne.
Proof.
  intros put. split; [reflexivity|].
  pose proof (refused_requests_change_nothing unit unit unit
                (fun _ _ => None) (fun _ _ => None) (fun _ => None)
                cartOfOne (Some ada) tt "1" (Api.NumberValue 0)
                (Routes.request None tt Routes.NotAnArray) 0) as H.
  cbv zeta in H. destruct H as (_ & H & _). apply H. reflexivity.
Defined.

Lemma putCartItem_answers_witness :
  let put := Api.putCartItem cartOfOne (Some bob) "1" (Api.NumberValue 3) in
  MemStorage.reachable cartOfOne
  /\ 1 <= 3
  /\ snd put = Api.respond 200 (Api.CartItemJson (CartItem.mk 1 1 19 3))
  /\ MemStorage.getCartItem (fst put) 1 19 = Some (CartItem.mk 1 1 19 3).
Proof.
  intros put. split; [apply reachable_cartOfOne|].
  assert (Hq : 1 <= 3) by lia. split; [exact Hq|].
  pose proof (putCartItem_answers cartOfOne bob ada "1" (Api.NumberValue 3)
                reachable_cartOfOne) as H.
  cbv zeta in H. destruct H as (_ & _ & H).
  destruct (H 3 eq_refl Hq) as (Hanswer & _ & Hfound).
  split; [exact Hanswer|exact Hfound].
Defined.

Lemma deleteCartItem_answers_witness :
  let deleted := Api.deleteCartItem cartOfOne (Some bob) "1" in
  JsGlobal.parseInt "1" = Some 1
  /\ snd deleted = Api.respond 204 Api.NoContent
  /\ JsMap.get (MemStorage.cartItems (fst deleted)) 1 = None.
Proof.
  intros deleted. split; [reflexivity|].
  pose proof (deleteCartItem_answers cartOfOne bob ada "1" 1 eq_refl) as H.
  cbv zeta in H. destruct H as (_ & Hanswer & Hgone & _).
  split; [exact Hanswer|exact Hgone].
Defined.

Lemma getOrderById_owner_only_witness :
  Api.status (Api.getOrderById twoOrders (Some bob) "1") = 403
  /\ Api.status (Api.getOrderById twoOrders (Some ada) "1") = 200.
Proof.
  split.
  - pose proof (getOrderById_owner_only twoOrders (Some bob) "1") as H.
    cbv zeta in H. destruct H as (_ & _ & _ & _ & H).
    eapply (H bob); [reflexivity|reflexivity|]. cbn. lia.
  - pose proof (getOrderById_owner_only twoOrders (Some ada) "1") as H.
    cbv zeta in H. destruct H as (H & _). apply H.
    eexists ada, _. split; [reflexivity|]. split; reflexivity.
Defined.

Lemma postOrders_accepted_witness :
  let req :=
    Routes.request (Some ada) (InsertOrder.mk 0 "43.1784" (Some "pending"))
      (Routes.ArrayOf [InsertOrderItem.mk 0 19 2 "19.99"]) in
  let answer :=
    Routes.postOrders InsertOrder.t InsertOrderItem.t
      (fun raw userId =>
         Some (InsertOrder.mk userId (InsertOrder.total raw) (InsertOrder.status raw)))
      (fun raw => Some raw) cartOfOne req 10 in
  MemStorage.reachable cartOfOne
  /\ Routes.status (snd answer) = 201
  /\ MemStorage.getCartItems cartOfOne 1 <> []
  /\ MemStorage.getCartItems (fst answer) 1 = [].
Proof.
  intros req answer. split; [apply reachable_cartOfOne|].
  assert (Hstatus : Routes.status (snd answer) = 201) by reflexivity.
  split; [exact Hstatus|]. split; [discriminate|].
  destruct (postOrders_accepted InsertOrder.t InsertOrderItem.t
              (fun raw userId =>
                 Some (InsertOrder.mk userId (InsertOrder.total raw)
                         (InsertOrder.status raw)))
              (fun raw => Some raw) cartOfOne req 10 reachable_cartOfOne Hstatus)
    as (u & items & orderData & validated & r & Huser & _ & _ & _ & _ & _ & _ & _
        & _ & Hempty & _).
  inversion Huser. subst u. exact Hempty.
Defined.

Lemma path_id_read_by_parseInt_witness :
  isDigits "12" = true
  /\ JsNumber.digit "a"%char = None
  /\ Api.getProductById MemStorage.storage "12abc"
     = Api.getProductById MemStorage.storage "12"
  /\ JsGlobal.parseInt "abc" = None
  /\ Api.getProductById MemStorage.storage "abc"
     = Api.respond 404 (Api.Message "Product not found").
Proof.
  split; [reflexivity|]. split; [reflexivity|].
  pose proof (path_id_read_by_parseInt MemStorage.storage None "1"%char "2"
                "a"%char "bc" "abc" eq_refl eq_refl) as H.
  cbv zeta in H. destruct H as (Hsame & _ & _ & Hbad).
  split; [exact Hsame|]. split; [reflexivity|].
  exact (proj1 (Hbad eq_refl)).
Defined.

Lemma confirmation_only_after_success_witness :
  let events :=
    [Submitted paypalForm; Submitted paypalForm; Submitted paypalForm;
     OrderSucceeded; BackPressed] in
  Checkout.shipping <> Checkout.confirmation
  /\ uiRun (fun _ => true) Checkout.shipping events = Checkout.confirmation
  /\ In OrderSucceeded events.
Proof.
  intros events.
  assert (Hstart : Checkout.shipping <> Checkout.confirmation) by discriminate.
  assert (Hrun : uiRun (fun _ => true) Checkout.shipping events
                 = Checkout.confirmation) by reflexivity.
  split; [exact Hstart|]. split; [exact Hrun|].
  exact (proj2 (confirmation_only_after_success (fun _ => true) Checkout.shipping
                  events) Hstart Hrun).
Defined.

Lemma review_only_after_valid_payment_witness :
  let events := [Submitted paypalForm; BackPressed; Submitted paypalForm;
                 Submitted paypalForm] in
  uiRun (fun _ => true) Checkout.shipping events = Checkout.review
  /\ exists values,
       In (Submitted values) events
       /\ Checkout.checkoutFormSchema (fun _ => true) values = true
       /\ Checkout.validatePaymentFields values = true.
Proof.
  intros events.
  assert (Hrun : uiRun (fun _ => true) Checkout.shipping events = Checkout.review)
    by reflexivity.
  split; [exact Hrun|].
  exact (review_only_after_valid_payment (fun _ => true) Checkout.shipping events
           (or_introl eq_refl) Hrun).
Defined.

Lemma page_buttons_leave_no_silent_gap_witness :
  1 <= 5 <= 10 /\ 0 <= 2 < 10
  /\ ProductGrid.pageItem 5 10 2 = ProductGrid.Nothing
  /\ ProductGrid.pageItem 5 10 1 = ProductGrid.Ellipsis 2.
Proof.
  assert (Hpage : 1 <= 5 <= 10) by lia.
  assert (Hi : 0 <= 2 < 10) by lia.
  split; [exact Hpage|]. split; [exact Hi|]. split; [reflexivity|].
  pose proof (page_buttons_leave_no_silent_gap 5 10 2 Hpage Hi) as H.
  cbv zeta in H. destruct H as (_ & _ & _ & H & _).
  apply H; [intros n; discriminate|lia].
Defined.

Lemma count_bounds_listing_witness :
  let options := ProductOptions.mk None (Some true) None None None None in
  Z.of_nat (List.length (MemStorage.getProducts MemStorage.storage
                           (withoutPaging (Some options))))
  <= MemStorage.getProductCount MemStorage.storage (Some (asCountOptions options))
  /\ truthyBool (ProductOptions.featured
                   (ProductOptions.mk (Some 2) None None None None None)) = false
  /\ MemStorage.getProductCount MemStorage.storage
       (Some (asCountOptions (ProductOptions.mk (Some 2) None None None None None)))
     = Z.of_nat
         (List.length
            (MemStorage.getProducts MemStorage.storage
               (withoutPaging
                  (Some (ProductOptions.mk (Some 2) None None None None None))))).
Proof.
  intros options. split.
  - apply (proj1 (count_bounds_listing MemStorage.storage options None None None)).
  - split; [reflexivity|].
    apply (proj1 (proj2 (count_bounds_listing MemStorage.storage
                           (ProductOptions.mk (Some 2) None None None None None)
                           None None None))).
    reflexivity.
Defined.

Lemma joins_are_consistent_witness :
  MemStorage.reachable cartOfOne
  /\ NoDup (map CartItemWithProduct.productId (MemStorage.getCartItems cartOfOne 1))
  /\ map CartItemWithProduct.productId (MemStorage.getCartItems cartOfOne 1) = [19].
Proof.
  split; [apply reachable_cartOfOne|]. split; [|reflexivity].
  apply (proj1 (proj2 (joins_are_consistent cartOfOne 1 1 reachable_cartOfOne))).
Defined.
